(** * tg-botty: the journaling bot, its store, scheduler registry and streak

    A shallow embedding of the Python sources (models.py, questions.py,
    bot.py, scheduler.py, analytics.py) and the properties of the
    conversation engine, the schedule registry and the streak computation.

    Conventions of the embedding.
    - Python [int] is [Z]; [str] is [string] (a byte string: UTF-8, so that
      splitting on an ASCII separator agrees with splitting code points).
    - The SQL store is a record of tables, each table a list of rows in
      insertion order; [Query.first()] is the first matching row.
    - Every [session.commit()] is a commit point: the handlers run in a small
      monad that threads the persisted database and keeps the log of the
      snapshots written by each commit.
    - Python exceptions that the handlers can raise are results ([Raise]).
    - The store checks no foreign key on insert (the configured default
      database, SQLite, does not), so a response row may name a question id
      that no question row has.
    - The bookkeeping columns [created_at] / [updated_at] and the surrogate
      keys of schedules, responses and conversation states are never read by
      the program and are left out of the rows; [Response.responded_at] is
      kept (the streak reads it).
    - The database is the configured one, SQLite: a value computed by an SQL
      function without a declared type ([func.date]) reaches Python as the
      driver hands it over, a str. *)

From Stdlib Require Import ZArith String Ascii List Sorted Lia.
From Stdlib Require Import DecimalString DecimalPos DecimalZ.
From stdpp Require Import base option list strings gmap.

Local Open Scope string_scope.
Local Open Scope list_scope.
Local Open Scope Z_scope.

(** ** Python string primitives *)
Module Py.

(** [s.split(sep)] for a one-character separator: never returns []. *)
Fixpoint split (sep : ascii) (s : string) : list string :=
  match s with
  | EmptyString => [EmptyString]
  | String c s' =>
      if decide (c = sep) then EmptyString :: split sep s'
      else match split sep s' with
           | [] => [String c EmptyString]
           | p :: ps => String c p :: ps
           end
  end.

(** [sep.join(parts)] *)
Fixpoint join (sep : string) (parts : list string) : string :=
  match parts with
  | [] => ""
  | [p] => p
  | p :: ps => p +:+ sep +:+ join sep ps
  end.

(** [s.startswith(p)] *)
Definition startswith (s p : string) : bool := String.prefix p s.

(** [parts[1:-1]] *)
Definition slice_1_m1 {A} (parts : list A) : list A :=
  removelast (tail parts).

(** [parts[-1]] *)
Definition last_item {A} (parts : list A) : option A :=
  last parts.

(** [parts[1]] *)
Definition item_1 {A} (parts : list A) : option A :=
  parts !! 1%nat.

(** White space removed by [str.strip()], ASCII part: \t \n \v \f \r, the
    separators 0x1c..0x1f and the blank. *)
Definition is_space (c : ascii) : bool :=
  let n := nat_of_ascii c in
  ((9 <=? n)%nat && (n <=? 13)%nat) || ((28 <=? n)%nat && (n <=? 32)%nat).

Fixpoint lstrip (s : string) : string :=
  match s with
  | String c s' => if is_space c then lstrip s' else s
  | EmptyString => EmptyString
  end.

Fixpoint rstrip (s : string) : string :=
  match s with
  | EmptyString => EmptyString
  | String c s' =>
      match rstrip s' with
      | EmptyString => if is_space c then EmptyString else String c EmptyString
      | r => String c r
      end
  end.

Definition strip (s : string) : string := rstrip (lstrip s).

Definition digit_val (c : ascii) : option Z :=
  let n := nat_of_ascii c in
  if ((48 <=? n)%nat && (n <=? 57)%nat) then Some (Z.of_nat n - 48) else None.

(** Decimal digits with single underscores allowed between two digits
    (PEP 515); [prev] tells whether the previous character was a digit. *)
Fixpoint digits (s : string) (acc : Z) (prev : bool) : option Z :=
  match s with
  | EmptyString => if prev then Some acc else None
  | String c s' =>
      match digit_val c with
      | Some d => digits s' (10 * acc + d) true
      | None =>
          if decide (c = "_"%char) then
            (if prev then digits s' acc false else None)
          else None
      end
  end.

(** White space that [int()] skips around the literal of an ASCII string:
    \t \n \v \f \r and the blank; the separators 0x1c..0x1f are not
    skipped. *)
Definition is_int_space (c : ascii) : bool :=
  let n := nat_of_ascii c in
  ((9 <=? n)%nat && (n <=? 13)%nat) || (n =? 32)%nat.

Fixpoint int_lstrip (s : string) : string :=
  match s with
  | String c s' => if is_int_space c then int_lstrip s' else s
  | EmptyString => EmptyString
  end.

Fixpoint int_rstrip (s : string) : string :=
  match s with
  | EmptyString => EmptyString
  | String c s' =>
      match int_rstrip s' with
      | EmptyString => if is_int_space c then EmptyString else String c EmptyString
      | r => String c r
      end
  end.

(** [int(s)] on an ASCII string: [None] stands for ValueError.  Digits and
    white space outside ASCII are not recognised by this model. *)
Definition int (s : string) : option Z :=
  match int_rstrip (int_lstrip s) with
  | String "+" r => digits r 0 false
  | String "-" r => Z.opp <$> digits r 0 false
  | t => digits t 0 false
  end.

(** [str(n)] for an int *)
Definition str (n : Z) : string :=
  DecimalString.NilZero.string_of_int (Z.to_int n).

End Py.

(** ** models.py: the rows and the store *)

Module User.
Record t := mk
  { id : Z;
    telegram_id : Z;
    username : option string;
    timezone : string;
    is_active : bool }.
End User.

Module Schedule.
Record t := mk
  { user_id : Z;
    time : string;          (* Format: "HH:MM" *)
    is_enabled : bool }.
End Schedule.

Module Question.
Record t := mk
  { id : Z;
    category : string;
    question_text : string;
    response_type : string;
    order : Z;
    is_active : bool }.
End Question.

Module Response.
Record t := mk
  { user_id : Z;
    question_id : Z;
    answer : string;
    responded_at : Z;       (* naive UTC instant, in seconds *)
    session_id : option string }.
End Response.

Module ConversationState.
Record t := mk
  { telegram_id : Z;
    current_question_id : option Z;
    session_id : option string;
    state : option string }.
End ConversationState.

Record DB := mkDB
  { users : list User.t;
    schedules : list Schedule.t;
    questions : list Question.t;
    responses : list Response.t;
    conversation_states : list ConversationState.t }.

Definition empty_db : DB := mkDB [] [] [] [] [].

(** [settings.default_timezone], at its default *)
Definition default_timezone : string := "UTC".

(** Key handed out to a new [users] row (rowid allocation: one past the
    largest key in the table). *)
Definition next_user_id (us : list User.t) : Z :=
  1 + foldr Z.max 0 (User.id <$> us).

(** ** Exceptions, outcomes and the commit monad *)

Inductive exn :=
| AttributeError          (* attribute read on None *)
| ValueError              (* int() on a malformed string *)
| IndexError              (* list index out of range *)
| DetachedInstanceError.  (* expired attribute read after session.close() *)

Inductive outcome (A : Type) :=
| Ok (a : A)
| Raise (e : exn).
Arguments Ok {A} a.
Arguments Raise {A} e.

(** The persisted database together with the snapshots written so far. *)
Record store := mkStore
  { persisted : DB;
    commits : list DB }.

Definition M (A : Type) : Type := store -> store * outcome A.

Definition ret {A} (a : A) : M A := fun s => (s, Ok a).
Definition raise {A} (e : exn) : M A := fun s => (s, Raise e).
Definition bind {A B} (m : M A) (k : A -> M B) : M B :=
  fun s => match m s with
           | (s', Ok a) => k a s'
           | (s', Raise e) => (s', Raise e)
           end.
Definition read : M DB := fun s => (s, Ok (persisted s)).
(** Flush the pending changes [f] and commit: one new snapshot. *)
Definition commit (f : DB -> DB) : M unit :=
  fun s => let db' := f (persisted s) in
           (mkStore db' (commits s ++ [db']), Ok tt).
(** A Python value that may be None, read where the code dereferences it. *)
Definition deref {A} (o : option A) (e : exn) : M A :=
  match o with Some a => ret a | None => raise e end.

Notation "'let!' x ':=' m 'in' k" := (bind m (fun x => k))
  (at level 10, x name, m at level 100, k at level 200).
Notation "'do!' m 'in' k" := (bind m (fun _ => k))
  (at level 10, m at level 100, k at level 200).

(** Run a handler on a persisted database with an empty log. *)
Definition run {A} (m : M A) (db : DB) : store * outcome A := m (mkStore db []).
Definition db_after {A} (m : M A) (db : DB) : DB := persisted (fst (run m db)).
Definition log_of {A} (m : M A) (db : DB) : list DB := commits (fst (run m db)).
Definition result_of {A} (m : M A) (db : DB) : outcome A := snd (run m db).

(** ** questions.py *)

Module Questions.

Record entry := mk
  { category : string;
    question_text : string;
    response_type : string;
    options : option (list string);   (* the "options" key, when present *)
    order : Z }.

Definition QUESTION_BANK : list entry :=
  [ mk "mood" "How are you feeling right now?" "yes_no"
       (Some ["Great 😊"; "Good 🙂"; "Okay 😐"; "Not great 😔"]) 1;
    mk "mood" "Do you feel energized today?" "yes_no"
       (Some ["Yes ⚡"; "No 😴"]) 2;
    mk "mood" "Are you feeling stressed or anxious?" "yes_no"
       (Some ["Yes 😰"; "No 😌"]) 3;
    mk "gratitude" "Did something make you smile today?" "yes_no"
       (Some ["Yes 😊"; "No 😐"]) 4;
    mk "gratitude" "Are you grateful for someone in your life right now?" "yes_no"
       (Some ["Yes ❤️"; "No"]) 5;
    mk "gratitude" "Did you experience a moment of beauty or peace today?" "yes_no"
       (Some ["Yes 🌟"; "No"]) 6;
    mk "productivity" "Did you accomplish something you're proud of today?" "yes_no"
       (Some ["Yes 🎉"; "No"]) 7;
    mk "productivity" "Are you making progress on your important goals?" "yes_no"
       (Some ["Yes 🎯"; "No"]) 8;
    mk "productivity" "Did you focus well today?" "yes_no"
       (Some ["Yes 🧠"; "No 😵"]) 9;
    mk "productivity" "Do you have a clear plan for tomorrow?" "yes_no"
       (Some ["Yes 📝"; "No"]) 10;
    mk "self_care" "Did you get enough sleep last night?" "yes_no"
       (Some ["Yes 😴"; "No 🥱"]) 11;
    mk "self_care" "Did you exercise or move your body today?" "yes_no"
       (Some ["Yes 💪"; "No"]) 12;
    mk "self_care" "Did you eat healthy meals today?" "yes_no"
       (Some ["Yes 🥗"; "No"]) 13;
    mk "self_care" "Did you take time for yourself today?" "yes_no"
       (Some ["Yes 🧘"; "No"]) 14;
    mk "self_care" "Did you connect with friends or family today?" "yes_no"
       (Some ["Yes 👥"; "No"]) 15;
    mk "self_care" "Did you stay hydrated today?" "yes_no"
       (Some ["Yes 💧"; "No"]) 16 ].

(** Keys handed out to the rows inserted by [init_questions] into an empty
    table: 1, 2, ... in bank order. *)
Fixpoint seed (k : Z) (bank : list entry) : list Question.t :=
  match bank with
  | [] => []
  | e :: rest =>
      Question.mk k (category e) (question_text e) (response_type e) (order e) true
        :: seed (k + 1) rest
  end.

(** [init_questions(session)]: a no-op as soon as one question row exists. *)
Definition init_questions : M unit :=
  let! db := read in
  if 0 <? Z.of_nat (length (questions db))
  then ret tt
  else commit (fun db => mkDB (users db) (schedules db) (seed 1 QUESTION_BANK)
                              (responses db) (conversation_states db)).

End Questions.

(** ** Row lookups and table updates *)

Module Store.

Definition find_user (db : DB) (telegram_id : Z) : option User.t :=
  find (fun u => User.telegram_id u =? telegram_id) (users db).

Definition find_state (db : DB) (telegram_id : Z) : option ConversationState.t :=
  find (fun c => ConversationState.telegram_id c =? telegram_id) (conversation_states db).

Definition find_question (db : DB) (qid : Z) : option Question.t :=
  find (fun q => Question.id q =? qid) (questions db).

(** [user.schedules] / [user.responses]: the rows that point to the user *)
Definition schedules_of (db : DB) (uid : Z) : list Schedule.t :=
  filter (fun s => Schedule.user_id s = uid) (schedules db).

Definition responses_of (db : DB) (uid : Z) : list Response.t :=
  filter (fun r => Response.user_id r = uid) (responses db).

Definition with_users (f : list User.t -> list User.t) (db : DB) : DB :=
  mkDB (f (users db)) (schedules db) (questions db) (responses db)
       (conversation_states db).

Definition with_schedules (f : list Schedule.t -> list Schedule.t) (db : DB) : DB :=
  mkDB (users db) (f (schedules db)) (questions db) (responses db)
       (conversation_states db).

Definition with_responses (f : list Response.t -> list Response.t) (db : DB) : DB :=
  mkDB (users db) (schedules db) (questions db) (f (responses db))
       (conversation_states db).

Definition with_states
    (f : list ConversationState.t -> list ConversationState.t) (db : DB) : DB :=
  mkDB (users db) (schedules db) (questions db) (responses db)
       (f (conversation_states db)).

(** UPDATE of the first row that satisfies [p] *)
Fixpoint update_first {A} (p : A -> bool) (f : A -> A) (l : list A) : list A :=
  match l with
  | [] => []
  | x :: rest => if p x then f x :: rest else x :: update_first p f rest
  end.

(** Write back the state object of one chat: UPDATE of its row, or INSERT
    when the object was created by the caller. *)
Definition put_state (c : ConversationState.t) (db : DB) : DB :=
  let key := ConversationState.telegram_id c in
  match find_state db key with
  | Some _ =>
      with_states
        (update_first (fun x => ConversationState.telegram_id x =? key) (fun _ => c)) db
  | None => with_states (fun l => l ++ [c]) db
  end.

End Store.

(** ** scheduler.py *)

Module Scheduler.
Import Store.

(** *** The schedule registry *)

(** [if timezone_str:] holds for a string that is neither None nor empty. *)
Definition truthy (o : option string) : bool :=
  match o with
  | Some s => negb (String.eqb s "")
  | None => false
  end.

Definition set_timezone (uid : Z) (tz : string) (db : DB) : DB :=
  with_users
    (update_first (fun u => User.id u =? uid)
       (fun u => User.mk (User.id u) (User.telegram_id u) (User.username u) tz
                         (User.is_active u))) db.

(** [for schedule in user.schedules: session.delete(schedule)] *)
Definition delete_schedules_of (uid : Z) (db : DB) : DB :=
  with_schedules (filter (fun s => Schedule.user_id s <> uid)) db.

(** Add schedule times for a user. *)
Definition add_user_schedule (telegram_id : Z) (times : list string)
    (timezone_str : option string) : M unit :=
  let! db := read in
  match find_user db telegram_id with
  | None => ret tt                      (* logs "User ... not found" *)
  | Some user =>
      let uid := User.id user in
      commit (fun db =>
        (* Update timezone if provided *)
        let db1 := if truthy timezone_str
                   then set_timezone uid (default "" timezone_str) db else db in
        (* Clear existing schedules *)
        let db2 := delete_schedules_of uid db1 in
        (* Add new schedules *)
        with_schedules
          (fun l => l ++ map (fun time_str => Schedule.mk uid time_str true) times)
          db2)
  end.

(** DELETE of the first row that satisfies [p] *)
Fixpoint delete_first {A} (p : A -> bool) (l : list A) : list A :=
  match l with
  | [] => []
  | x :: rest => if p x then rest else x :: delete_first p rest
  end.

(** Remove schedule for a user. *)
Definition remove_user_schedule (telegram_id : Z) (time_str : option string)
  : M unit :=
  let! db := read in
  match find_user db telegram_id with
  | None => ret tt
  | Some user =>
      let uid := User.id user in
      if truthy time_str then
        (* Remove specific time *)
        commit (with_schedules
                  (delete_first (fun s => (Schedule.user_id s =? uid)
                                          && String.eqb (Schedule.time s)
                                                        (default "" time_str))))
      else
        (* Remove all schedules *)
        commit (delete_schedules_of uid)
  end.

(** Get all schedules for a user: the list of {"time", "enabled"} dicts. *)
Definition get_user_schedules (telegram_id : Z) : M (list (string * bool)) :=
  let! db := read in
  match find_user db telegram_id with
  | None => ret []
  | Some user =>
      ret (map (fun s => (Schedule.time s, Schedule.is_enabled s))
               (schedules_of db (User.id user)))
  end.

(** *** The timer engine: JournalScheduler *)

Record Job := mkJob
  { job_chat : Z;            (* args=[telegram_id] *)
    job_hour : Z;
    job_minute : Z;
    job_timezone : string }.

Definition job_id (telegram_id : Z) (time_str : string) : string :=
  "journal_" +:+ Py.str telegram_id +:+ "_" +:+ time_str.

(** [hour, minute = map(int, time_str.split(":"))]; None is the ValueError
    of a wrong number of fields or of a field that is not an int. *)
Definition parse_time (time_str : string) : option (Z * Z) :=
  match Py.split ":" time_str with
  | [h; m] =>
      match Py.int h, Py.int m with
      | Some hour, Some minute => Some (hour, minute)
      | _, _ => None
      end
  | _ => None
  end.

(** [CronTrigger(hour=, minute=)] rejects a field outside its range. *)
Definition cron_fields_ok (hour minute : Z) : bool :=
  (0 <=? hour) && (hour <=? 23) && (0 <=? minute) && (minute <=? 59).

Section Jobs.
(** The names [pytz.timezone] accepts (the installed zone database). *)
Variable known_zone : string -> bool.

(** Add a scheduled job for a user.  Every exception is caught and
    logged: the result is always a job table. *)
Definition add_job (jobs : gmap string Job) (telegram_id : Z)
    (time_str : string) (timezone_str : string) : gmap string Job :=
  match parse_time time_str with
  | None => jobs
  | Some (hour, minute) =>
      if negb (known_zone timezone_str) then jobs
      else
        let id := job_id telegram_id time_str in
        (* Remove existing job if present *)
        let jobs' := match jobs !! id with
                     | Some _ => delete id jobs
                     | None => jobs
                     end in
        (* Add new job *)
        if cron_fields_ok hour minute
        then <[ id := mkJob telegram_id hour minute timezone_str ]> jobs'
        else jobs'
  end.

(** Remove a scheduled job. *)
Definition remove_job (jobs : gmap string Job) (telegram_id : Z)
    (time_str : string) : gmap string Job :=
  let id := job_id telegram_id time_str in
  match jobs !! id with
  | Some _ => delete id jobs
  | None => jobs
  end.

(** Load schedules for all active users. *)
Definition load_all_schedules (db : DB) (jobs : gmap string Job)
  : gmap string Job :=
  foldl
    (fun jobs user =>
       foldl
         (fun jobs schedule =>
            if Schedule.is_enabled schedule
            then add_job jobs (User.telegram_id user) (Schedule.time schedule)
                         (User.timezone user)
            else jobs)
         jobs (schedules_of db (User.id user)))
    jobs (filter (fun u => User.is_active u = true) (users db)).
End Jobs.

End Scheduler.

(** ** bot.py *)

Module Bot.
Import Store.

(** *** Transport values *)

Record Button := mkButton
  { text : string;
    callback_data : string }.

(** [InlineKeyboardMarkup]: rows of buttons *)
Definition keyboard : Type := list (list Button).

(** What a handler sends back.  The wording of each message is fixed in the
    source; a question is sent with its keyboard. *)
Inductive message :=
| Welcome
| AccountInactive                     (* "Your account is inactive. ..." *)
| NoQuestionsAvailable                (* "No questions available. ..." *)
| AskQuestion (q : Question.t) (kb : keyboard)
| SessionExpired                      (* "Session expired. Use /journal ..." *)
| SessionComplete                     (* "Session Complete! ..." *)
| NoSchedulesYet
| ScheduleView (times : list string)
| CustomScheduleHelp
| ScheduleSet (time : string)
| NotificationsToggled (enabled : bool)
| UseScheduleCommand
| TimezoneHelp
| ConfirmClear (kb : keyboard)
| DataCleared                         (* "Your data has been cleared. ..." *)
| Cancelled
| NoReply.

(** An ORM instance handed out of a closed session.  Its attributes are
    expired when the session committed after the instance was added
    (Session's default expire_on_commit); reading one then raises. *)
Record detached (A : Type) := mkDetached
  { instance : A;
    expired : bool }.
Arguments mkDetached {A} instance expired.
Arguments instance {A} d.
Arguments expired {A} d.

Definition attr {A B} (o : detached A) (f : A -> B) : M B :=
  if expired o then raise DetachedInstanceError else ret (f (instance o)).

(** *** Helper functions *)

(** Get existing user or create new one. *)
Definition get_or_create_user (telegram_id : Z) (username : option string)
  : M (detached User.t) :=
  let! db := read in
  match find_user db telegram_id with
  | Some user => ret (mkDetached user false)
  | None =>
      let user := User.mk (next_user_id (users db)) telegram_id username
                          default_timezone true in
      do! commit (with_users (fun l => l ++ [user])) in
      ret (mkDetached user true)
  end.

(** Get or create conversation state. *)
Definition get_conversation_state (telegram_id : Z)
  : M (detached ConversationState.t) :=
  let! db := read in
  match find_state db telegram_id with
  | Some state => ret (mkDetached state false)
  | None =>
      let state := ConversationState.mk telegram_id None None None in
      do! commit (with_states (fun l => l ++ [state])) in
      ret (mkDetached state true)
  end.

(** One keyword argument of [update_conversation_state]: None keeps the
    stored value. *)
Definition keep_or_set {A} (arg : option A) (stored : option A) : option A :=
  match arg with
  | Some _ => arg
  | None => stored
  end.

(** Update conversation state. *)
Definition update_conversation_state (telegram_id : Z) (question_id : option Z)
    (session_id : option string) (state : option string) : M unit :=
  let! db := read in
  let conv_state :=
    match find_state db telegram_id with
    | Some c => c
    | None => ConversationState.mk telegram_id None None None
    end in
  let conv_state' :=
    ConversationState.mk
      (ConversationState.telegram_id conv_state)
      (keep_or_set question_id (ConversationState.current_question_id conv_state))
      (keep_or_set session_id (ConversationState.session_id conv_state))
      (keep_or_set state (ConversationState.state conv_state)) in
  commit (put_state conv_state').

(** [.order_by(Question.order).first()]: the row of least [order], the
    earliest such row of the table among equals. *)
Fixpoint first_by_order (qs : list Question.t) : option Question.t :=
  match qs with
  | [] => None
  | q :: rest =>
      match first_by_order rest with
      | None => Some q
      | Some m => if Question.order q <=? Question.order m then Some q else Some m
      end
  end.

(** Get next question in sequence. *)
Definition get_next_question (current_question_id : option Z)
  : M (option Question.t) :=
  let! db := read in
  match current_question_id with
  | None =>
      ret (first_by_order (filter (fun q => Question.is_active q = true) (questions db)))
  | Some qid =>
      let! current_q := deref (find_question db qid) AttributeError in
      ret (first_by_order
             (filter (fun q => Question.is_active q = true
                               /\ Question.order current_q < Question.order q)
                     (questions db)))
  end.

(** The loop over [q_data["options"]]: two buttons per row, [row] is the
    row being filled. *)
Fixpoint option_rows (qid : Z) (options : list string) (row : list Button)
  : keyboard :=
  match options with
  | [] => match row with [] => [] | _ => [row] end
  | option :: rest =>
      let row' :=
        row ++ [mkButton option ("answer_" +:+ option +:+ "_" +:+ Py.str qid)] in
      if (length row' =? 2)%nat
      then row' :: option_rows qid rest []
      else option_rows qid rest row'
  end.

Definition yes_no_row (qid : Z) : list Button :=
  [ mkButton "Yes ✅" ("answer_yes_" +:+ Py.str qid);
    mkButton "No ❌" ("answer_no_" +:+ Py.str qid) ].

Definition skip_row (qid : Z) : list Button :=
  [ mkButton "Skip ⏭️" ("skip_" +:+ Py.str qid) ].

(** Generate inline keyboard buttons for question. *)
Definition get_question_options (question : Question.t) : keyboard :=
  let q_data :=
    find (fun q => String.eqb (Questions.question_text q)
                              (Question.question_text question))
         Questions.QUESTION_BANK in
  let keyboard :=
    match q_data ≫= Questions.options with
    | None => [ yes_no_row (Question.id question) ]
    | Some options => option_rows (Question.id question) options []
    end in
  keyboard ++ [ skip_row (Question.id question) ].

(** *** Command handlers *)

(** Handle /start command. *)
Definition start_command (telegram_id : Z) (username : option string) : M message :=
  let! user := get_or_create_user telegram_id username in
  ret Welcome.

(** Handle /journal command - start journaling session.  [uuid] is the
    value of [str(uuid4())]. *)
Definition journal_command (telegram_id : Z) (username : option string)
    (uuid : string) : M message :=
  let! user := get_or_create_user telegram_id username in
  let! active := attr user User.is_active in
  if negb active then ret AccountInactive
  else
    (* Generate new session ID *)
    let session_id := uuid in
    (* Get first question *)
    let! first_question := get_next_question None in
    match first_question with
    | None => ret NoQuestionsAvailable
    | Some first_question =>
        (* Update conversation state *)
        do! update_conversation_state telegram_id
              (Some (Question.id first_question)) (Some session_id)
              (Some "journaling") in
        (* Send first question *)
        ret (AskQuestion first_question (get_question_options first_question))
    end.

(** *** Callback query handlers *)

(** Parse callback data: the question id and the answer. *)
Definition parse_callback (callback_data : string) : outcome (Z * string) :=
  if Py.startswith callback_data "skip_" then
    match Py.item_1 (Py.split "_" callback_data) with
    | None => Raise IndexError
    | Some part =>
        match Py.int part with
        | None => Raise ValueError
        | Some question_id => Ok (question_id, "skipped")
        end
    end
  else
    let parts := Py.split "_" callback_data in
    match Py.last_item parts with
    | None => Raise IndexError
    | Some part =>
        match Py.int part with
        | None => Raise ValueError
        | Some question_id => Ok (question_id, Py.join "_" (Py.slice_1_m1 parts))
        end
    end.

(** The handler after parsing. *)
Definition handle_answer (telegram_id : Z) (question_id : Z) (answer : string)
    (now : Z) : M message :=
  (* Get conversation state *)
  let! db := read in
  match find_state db telegram_id with
  | None => ret SessionExpired
  | Some conv_state =>
      if negb (bool_decide (ConversationState.state conv_state = Some "journaling"))
      then ret SessionExpired
      else
        (* Save response if not skipped *)
        do! (if negb (String.eqb answer "skipped") then
               let! user := deref (find_user db telegram_id) AttributeError in
               let response :=
                 Response.mk (User.id user) question_id answer now
                             (ConversationState.session_id conv_state) in
               commit (with_responses (fun l => l ++ [response]))
             else ret tt) in
        (* Get next question *)
        let! next_question := get_next_question (Some question_id) in
        match next_question with
        | Some next_question =>
            (* Update state *)
            do! commit (put_state
                  (ConversationState.mk
                     (ConversationState.telegram_id conv_state)
                     (Some (Question.id next_question))
                     (ConversationState.session_id conv_state)
                     (ConversationState.state conv_state))) in
            (* Send next question *)
            ret (AskQuestion next_question (get_question_options next_question))
        | None =>
            (* Session complete *)
            do! commit (put_state
                  (ConversationState.mk
                     (ConversationState.telegram_id conv_state)
                     None
                     (ConversationState.session_id conv_state)
                     None)) in
            ret SessionComplete
        end
  end.

(** Handle answer button clicks.  [now] is the clock read when the new
    response row is flushed. *)
Definition handle_answer_callback (telegram_id : Z) (callback_data : string)
    (now : Z) : M message :=
  match parse_callback callback_data with
  | Raise e => raise e
  | Ok (question_id, answer) => handle_answer telegram_id question_id answer now
  end.

(** Handle schedule button clicks. *)
Definition handle_schedule_callback (telegram_id : Z) (callback_data : string)
  : M message :=
  if String.eqb callback_data "schedule_view" then
    let! db := read in
    let schedules :=
      match find_user db telegram_id with
      | Some user => schedules_of db (User.id user)
      | None => []
      end in
    match schedules with
    | [] => ret NoSchedulesYet
    | _ => ret (ScheduleView
                  (map Schedule.time
                       (filter (fun s => Schedule.is_enabled s = true) schedules)))
    end
  else if String.eqb callback_data "schedule_custom" then
    ret CustomScheduleHelp
  else
    let! time := deref (Py.item_1 (Py.split "_" callback_data)) IndexError in
    do! Scheduler.add_user_schedule telegram_id [time] None in
    ret (ScheduleSet time).

(** [session.delete(user)]: the relationships [schedules] and [responses]
    cascade ("all, delete-orphan"), so the rows that point to the user go
    with it.  No relationship leads to [conversation_states]. *)
Definition delete_user (uid : Z) (db : DB) : DB :=
  mkDB (filter (fun u => User.id u <> uid) (users db))
       (filter (fun s => Schedule.user_id s <> uid) (schedules db))
       (questions db)
       (filter (fun r => Response.user_id r <> uid) (responses db))
       (conversation_states db).

Definition toggle_active (uid : Z) (db : DB) : DB :=
  with_users
    (update_first (fun u => User.id u =? uid)
       (fun u => User.mk (User.id u) (User.telegram_id u) (User.username u)
                         (User.timezone u) (negb (User.is_active u)))) db.

Definition confirm_keyboard : keyboard :=
  [ [ mkButton "Yes, delete everything" "confirm_clear_yes" ];
    [ mkButton "No, cancel" "confirm_clear_no" ] ].

(** Handle settings button clicks. *)
Definition handle_settings_callback (telegram_id : Z) (callback_data : string)
  : M message :=
  let! db := read in
  let user := find_user db telegram_id in
  if String.eqb callback_data "settings_toggle" then
    match user with
    | Some user =>
        do! commit (toggle_active (User.id user)) in
        ret (NotificationsToggled (negb (User.is_active user)))
    | None => ret NoReply
    end
  else if String.eqb callback_data "settings_schedule" then
    ret UseScheduleCommand
  else if String.eqb callback_data "settings_timezone" then
    ret TimezoneHelp
  else if String.eqb callback_data "settings_clear" then
    ret (ConfirmClear confirm_keyboard)
  else if String.eqb callback_data "confirm_clear_yes" then
    do! (match user with
         | Some user => commit (delete_user (User.id user))
         | None => ret tt
         end) in
    ret DataCleared
  else if String.eqb callback_data "confirm_clear_no" then
    ret Cancelled
  else ret NoReply.

(** Handle button clicks: dispatch on the prefix of the callback data. *)
Definition button_callback (telegram_id : Z) (callback_data : string) (now : Z)
  : M message :=
  (* Handle answer callbacks *)
  if Py.startswith callback_data "answer_" || Py.startswith callback_data "skip_"
  then handle_answer_callback telegram_id callback_data now
  (* Handle schedule callbacks *)
  else if Py.startswith callback_data "schedule_"
  then handle_schedule_callback telegram_id callback_data
  (* Handle settings callbacks *)
  else if Py.startswith callback_data "settings_"
  then handle_settings_callback telegram_id callback_data
  else ret NoReply.

End Bot.

(** ** analytics.py *)

Module Analytics.

(** The calendar day of an instant (seconds, UTC), counted in days from
    1970-01-01: what [datetime.date()] keeps of a Python datetime, and the
    day that SQLite's [date()] prints. *)
Definition date (instant : Z) : Z := instant / 86400.

(** A number printed with at least [width] digits. *)
Definition zero_padded (width : nat) (n : Z) : string :=
  let printed := Py.str n in
  String.concat "" (repeat "0" (width - String.length printed)) +:+ printed.

(** The text 'YYYY-MM-DD' of a calendar day (proleptic Gregorian calendar,
    years 0001 to 9999). *)
Definition isoformat (day : Z) : string :=
  let z := day + 719468 in
  let era := z / 146097 in
  let doe := z - era * 146097 in
  let yoe := (doe - doe / 1460 + doe / 36524 - doe / 146096) / 365 in
  let doy := doe - (365 * yoe + yoe / 4 - yoe / 100) in
  let mp := (5 * doy + 2) / 153 in
  let d := doy - (153 * mp + 2) / 5 + 1 in
  let m := if mp <? 10 then mp + 3 else mp - 9 in
  let y := yoe + era * 400 + (if m <=? 2 then 1 else 0) in
  zero_padded 4 y +:+ "-" +:+ zero_padded 2 m +:+ "-" +:+ zero_padded 2 d.

(** A value of a result row as Python receives it. *)
Inductive value :=
| Str (text : string)     (* a str *)
| Date (day : Z).         (* a datetime.date *)

(** [func.date(Response.responded_at)] as it reaches Python.  [func.date]
    is a generic SQL function without a declared result type, so the value
    is what the driver hands over; the configured database is SQLite
    ([database_url] in config.py), whose [date()] yields the text
    'YYYY-MM-DD'. *)
Definition func_date (day : Z) : value := Str (isoformat day).

(** Insertion into a list kept in strictly descending order. *)
Fixpoint insert_desc (d : Z) (l : list Z) : list Z :=
  match l with
  | [] => [d]
  | x :: rest =>
      if x <? d then d :: l
      else if x =? d then l
      else x :: insert_desc d rest
  end.

(** SELECT DISTINCT date(responded_at) ... WHERE user_id = ... ORDER BY
    date(responded_at) DESC, inside the database: the calendar days with a
    response of the user, each once, latest first.  (The texts
    'YYYY-MM-DD' are distinct and ordered as their days are.) *)
Definition response_dates (db : DB) (user_id : Z) : list Z :=
  foldr insert_desc []
    (map (fun r => date (Response.responded_at r))
         (filter (fun r => Response.user_id r = user_id) (responses db))).

(** The rows of that query as [.all()] returns them. *)
Definition response_date_rows (db : DB) (user_id : Z) : list value :=
  map func_date (response_dates db user_id).

(** The loop of [get_user_streak]: [current_date] and [streak] are the loop
    variables; [break] leaves with the streak reached so far.  Python's [==]
    between a str and a [datetime.date] is False, so for a str both
    comparisons fail and the loop breaks. *)
Fixpoint streak_loop (response_dates : list value) (current_date : Z) (streak : Z) : Z :=
  match response_dates with
  | [] => streak
  | Date response_date :: rest =>
      if (response_date =? current_date) || (response_date =? current_date - 1)
      then streak_loop rest (response_date - 1) (streak + 1)
      else streak
  | Str _ :: _ => streak
  end.

(** Calculate user's current journaling streak (consecutive days).
    [utcnow] is the clock read by the call. *)
Definition get_user_streak (db : DB) (user_id : Z) (utcnow : Z) : Z :=
  match response_date_rows db user_id with
  | [] => 0
  | response_dates =>
      let today := date utcnow in
      streak_loop response_dates today 0
  end.

(** The rows of a user with [Response.responded_at >= since] *)
Definition responses_since (db : DB) (user_id : Z) (since : Z) : list Response.t :=
  filter (fun r => Response.user_id r = user_id /\ since <= Response.responded_at r)
         (responses db).

Record weekly_summary := mk_summary
  { total_responses : Z;
    sessions_completed : Z }.

(** Get summary of user's activity for the past week: the count of the
    rows, and the count of the rows of SELECT DISTINCT session_id (a null
    session id is one of them). *)
Definition get_weekly_summary (db : DB) (user_id : Z) (utcnow : Z) : weekly_summary :=
  let week_ago := utcnow - 7 * 86400 in
  let rows := responses_since db user_id week_ago in
  {| total_responses := Z.of_nat (length rows);
     sessions_completed :=
       Z.of_nat (length (remove_dups (map Response.session_id rows))) |}.

End Analytics.

(** ** config.py *)

Module Config.

(** Parse schedule times from comma-separated string: the value of
    [get_schedule_times] for the setting [default_schedule_times]. *)
Definition get_schedule_times (default_schedule_times : string) : list string :=
  map Py.strip (Py.split "," default_schedule_times).

(** The default of the setting *)
Definition default_schedule_times : string := "09:00,20:00".

End Config.

(** ** Vocabulary of the properties *)

(** The calendar days [d], [d-1], ..., [n] of them. *)
Fixpoint consecutive_days (d : Z) (n : nat) : list Z :=
  match n with
  | O => []
  | S k => d :: consecutive_days (d - 1) k
  end.

(** A descending chain of dates without a gap of more than one day: from
    one date to the next at most one calendar day has no response. *)
Fixpoint linked (l : list Z) : Prop :=
  match l with
  | a :: (b :: _) as rest => 1 <= a - b <= 2 /\ linked rest
  | _ => True
  end.

(** The dates the streak loop accepts one after the other from
    [current_date]. *)
Fixpoint follows (current_date : Z) (l : list Z) : Prop :=
  match l with
  | [] => True
  | a :: rest => (a = current_date \/ a = current_date - 1) /\ follows (a - 1) rest
  end.

(** [current_date] of the streak loop after it accepted the dates [l]. *)
Fixpoint cursor (current_date : Z) (l : list Z) : Z :=
  match l with
  | [] => current_date
  | a :: rest => cursor (a - 1) rest
  end.

(** Strings without white space and without underscore, such as a printed
    number. *)
Definition plain_char (c : ascii) : bool :=
  negb (Py.is_space c) && negb (bool_decide (c = "_"%char)).

Fixpoint plain (s : string) : bool :=
  match s with
  | EmptyString => true
  | String c s' => plain_char c && plain s'
  end.

(** The next active question after the question [cq], as
    [get_next_question] selects it. *)
Definition next_after (db : DB) (cq : Question.t) : option Question.t :=
  Bot.first_by_order
    (filter (fun q => Question.is_active q = true
                      /\ Question.order cq < Question.order q)
            (questions db)).

(** The state object of [handle_answer_callback] when it commits: advanced
    to the next question, or marked complete. *)
Definition advance (conv : ConversationState.t) (next : option Question.t)
  : ConversationState.t :=
  match next with
  | Some next_question =>
      ConversationState.mk (ConversationState.telegram_id conv)
        (Some (Question.id next_question))
        (ConversationState.session_id conv) (ConversationState.state conv)
  | None =>
      ConversationState.mk (ConversationState.telegram_id conv) None
        (ConversationState.session_id conv) None
  end.

(** What [handle_answer_callback] sends after an accepted answer. *)
Definition reply_after (next : option Question.t) : Bot.message :=
  match next with
  | Some next_question =>
      Bot.AskQuestion next_question (Bot.get_question_options next_question)
  | None => Bot.SessionComplete
  end.

(** The response row written for an answer. *)
Definition response_row (user : User.t) (conv : ConversationState.t)
    (question_id : Z) (answer : string) (now : Z) : Response.t :=
  Response.mk (User.id user) question_id answer now (ConversationState.session_id conv).

(** The invariant of a conversation state row: mode "journaling" exactly
    when a question is outstanding and a session id is set. *)
Definition state_ok (c : ConversationState.t) : Prop :=
  ConversationState.state c = Some "journaling"
  <-> (ConversationState.current_question_id c <> None
       /\ ConversationState.session_id c <> None).

Definition invariant (db : DB) : Prop :=
  Forall state_ok (conversation_states db).

(** The operations that reach the store: the commands, the callback
    handlers (through the dispatcher or called on their own), the creation of
    a state row, the schedule registry and the seeding of the catalog. *)
Inductive operation :=
| OpStart (telegram_id : Z) (username : option string)
| OpJournal (telegram_id : Z) (username : option string) (uuid : string)
| OpButton (telegram_id : Z) (callback_data : string) (now : Z)
| OpAnswer (telegram_id : Z) (callback_data : string) (now : Z)
| OpSchedule (telegram_id : Z) (callback_data : string)
| OpSettings (telegram_id : Z) (callback_data : string)
| OpGetState (telegram_id : Z)
| OpAddSchedule (telegram_id : Z) (times : list string) (timezone_str : option string)
| OpRemoveSchedule (telegram_id : Z) (time_str : option string)
| OpInitQuestions.

Definition perform (op : operation) : M unit :=
  match op with
  | OpStart tid username => do! Bot.start_command tid username in ret tt
  | OpJournal tid username uuid => do! Bot.journal_command tid username uuid in ret tt
  | OpButton tid cb now => do! Bot.button_callback tid cb now in ret tt
  | OpAnswer tid cb now => do! Bot.handle_answer_callback tid cb now in ret tt
  | OpSchedule tid cb => do! Bot.handle_schedule_callback tid cb in ret tt
  | OpSettings tid cb => do! Bot.handle_settings_callback tid cb in ret tt
  | OpGetState tid => do! Bot.get_conversation_state tid in ret tt
  | OpAddSchedule tid times tz => Scheduler.add_user_schedule tid times tz
  | OpRemoveSchedule tid time => Scheduler.remove_user_schedule tid time
  | OpInitQuestions => Questions.init_questions
  end.

(** The stores reached from one without conversation state rows. *)
Inductive reachable : DB -> Prop :=
| reachable_init (db : DB) : conversation_states db = [] -> reachable db
| reachable_step (db : DB) (op : operation) :
    reachable db -> reachable (db_after (perform op) db).

(** [m] keeps [P]: from a store whose persisted database and snapshots
    satisfy [P], so do the database and the snapshots it leaves. *)
Definition keeps (P : DB -> Prop) {A : Type} (m : M A) : Prop :=
  forall s : store,
    P (persisted s) -> Forall P (commits s) ->
    P (persisted (fst (m s))) /\ Forall P (commits (fst (m s))).

(** ** Vocabulary of the further properties *)

(** The primitive writes: every update that some [session.commit()] of the
    handlers flushes, with what the handler knows of the database it writes
    to.  The deletion of a user with its cascade ([delete_user]) and the
    seeding of the question table ([seeded]) are apart. *)
Inductive write : DB -> DB -> Prop :=
| write_user (db : DB) (tid : Z) (username : option string) :
    Store.find_user db tid = None ->
    write db (Store.with_users
                (fun l => l ++ [User.mk (next_user_id (users db)) tid username
                                        default_timezone true]) db)
| write_state (db : DB) (tid : Z) :
    Store.find_state db tid = None ->
    write db (Store.with_states
                (fun l => l ++ [ConversationState.mk tid None None None]) db)
| write_start (db : DB) (tid : Z) (user : User.t) (first : Question.t) (uuid : string) :
    Store.find_user db tid = Some user ->
    In first (questions db) ->
    write db (Store.put_state
                (ConversationState.mk tid (Some (Question.id first)) (Some uuid)
                                      (Some "journaling")) db)
| write_response (db : DB) (tid : Z) (user : User.t) (conv : ConversationState.t)
    (q : Z) (a : string) (now : Z) :
    Store.find_user db tid = Some user ->
    Store.find_state db tid = Some conv ->
    write db (Store.with_responses (fun l => l ++ [response_row user conv q a now]) db)
| write_advance (db : DB) (tid : Z) (conv : ConversationState.t) (cq : Question.t) :
    Store.find_state db tid = Some conv ->
    ConversationState.state conv = Some "journaling" ->
    In cq (questions db) ->
    write db (Store.put_state (advance conv (next_after db cq)) db)
| write_schedules (db : DB) (tid : Z) (user : User.t) (times : list string)
    (tz : option string) :
    Store.find_user db tid = Some user ->
    write db (Store.with_schedules
                (fun l => l ++ map (fun t => Schedule.mk (User.id user) t true) times)
                (Scheduler.delete_schedules_of (User.id user)
                   (if Scheduler.truthy tz
                    then Scheduler.set_timezone (User.id user) (default "" tz) db
                    else db)))
| write_remove_time (db : DB) (tid : Z) (user : User.t) (time : string) :
    Store.find_user db tid = Some user ->
    write db (Store.with_schedules
                (Scheduler.delete_first
                   (fun s => (Schedule.user_id s =? User.id user)
                             && String.eqb (Schedule.time s) time)) db)
| write_remove_all (db : DB) (tid : Z) (user : User.t) :
    Store.find_user db tid = Some user ->
    write db (Scheduler.delete_schedules_of (User.id user) db)
| write_toggle (db : DB) (tid : Z) (user : User.t) :
    Store.find_user db tid = Some user ->
    write db (Bot.toggle_active (User.id user) db).

(** The store after the seeding of the question table. *)
Definition seeded (db : DB) : DB :=
  mkDB (users db) (schedules db) (Questions.seed 1 Questions.QUESTION_BANK)
       (responses db) (conversation_states db).

(** Successive snapshots, each written from the one before. *)
Fixpoint chain (R : DB -> DB -> Prop) (db : DB) (log : list DB) : Prop :=
  match log with
  | [] => True
  | snapshot :: rest => R db snapshot /\ chain R snapshot rest
  end.

(** The store after a sequence of operations. *)
Definition perform_all (ops : list operation) (db : DB) : DB :=
  foldl (fun d op => db_after (perform op) d) db ops.

(** The log of an operation is a chain of primitive writes ending in the
    database it leaves, or it is the one deletion of the confirmed erasure,
    or the seeding of an empty question table. *)
Definition writes_or_erases (op : operation) (db : DB) : Prop :=
  db_after (perform op) db = default db (last (log_of (perform op) db))
  /\ ((chain write db (log_of (perform op) db)
       /\ (op = OpInitQuestions -> log_of (perform op) db = []))
      \/ (exists tid user, op = OpSettings tid "confirm_clear_yes"
            /\ Store.find_user db tid = Some user
            /\ log_of (perform op) db = [Bot.delete_user (User.id user) db])
      \/ (op = OpInitQuestions /\ questions db = []
          /\ log_of (perform op) db = [seeded db])).

(** The log of a handler is a chain of primitive writes ending in the
    database it leaves. *)
Definition writes_only {A} (m : M A) (db : DB) : Prop :=
  db_after m db = default db (last (log_of m db)) /\ chain write db (log_of m db).

(** The character [c] does not occur in [s]. *)
Fixpoint free_of (c : ascii) (s : string) : bool :=
  match s with
  | EmptyString => true
  | String x s' => negb (bool_decide (x = c)) && free_of c s'
  end.


(** Every character of [s] is an ASCII character, where the white space
    of [Py.strip] is all the white space there is. *)
Fixpoint is_ascii (s : string) : bool :=
  match s with
  | EmptyString => true
  | String x s' => (nat_of_ascii x <? 128)%nat && is_ascii s'
  end.

(** Keys are unique: one user row per chat id and per user id, one
    conversation state row per chat id. *)
Definition keys_unique (db : DB) : Prop :=
  NoDup (map User.telegram_id (users db))
  /\ NoDup (map User.id (users db))
  /\ NoDup (map ConversationState.telegram_id (conversation_states db)).

(** Every schedule row and every response row points to a user row. *)
Definition owners_exist (db : DB) : Prop :=
  (forall s, In s (schedules db) -> exists u, In u (users db) /\ User.id u = Schedule.user_id s)
  /\ (forall r, In r (responses db) -> exists u, In u (users db) /\ User.id u = Response.user_id r).

(** The current question of every conversation state is a question row. *)
Definition current_exists (db : DB) : Prop :=
  forall c q, In c (conversation_states db) ->
              ConversationState.current_question_id c = Some q ->
              Store.find_question db q <> None.

(** ** The claims of the specification, as it states them *)

(** An answer for question [q] that meets a stored state whose mode is not
    "journaling" or whose current question is not [q] is rejected as stale:
    the expiry reply, nothing committed, the store as before. *)
Definition stale_submission_rejected (db : DB) (tid : Z) (cb : string) (now : Z)
  : Prop :=
  forall (q : Z) (a : string) (conv : ConversationState.t),
    Bot.parse_callback cb = Ok (q, a) ->
    Store.find_state db tid = Some conv ->
    ConversationState.state conv <> Some "journaling"
    \/ ConversationState.current_question_id conv <> Some q ->
    run (Bot.handle_answer_callback tid cb now) db = (mkStore db [], Ok Bot.SessionExpired).

(** The response insert and the state update are one atomic unit: no
    committed snapshot holds a new response while the chat's state is still
    the old one, and a failed call leaves the store as it was. *)
Definition answer_is_atomic (db : DB) (tid : Z) (cb : string) (now : Z) : Prop :=
  let h := Bot.handle_answer_callback tid cb now in
  (forall snapshot : DB,
      In snapshot (log_of h db) ->
      responses snapshot <> responses db ->
      Store.find_state snapshot tid <> Store.find_state db tid)
  /\ (forall e : exn, result_of h db = Raise e -> db_after h db = db).

(** An accepted answer to the last question leaves question, session and
    mode all null and returns the completion signal. *)
Definition completion_clears_state (db : DB) (tid : Z) (cb : string) (now : Z)
  : Prop :=
  forall (q : Z) (a : string) (conv : ConversationState.t) (cq : Question.t)
         (user : User.t),
    Bot.parse_callback cb = Ok (q, a) ->
    Store.find_state db tid = Some conv ->
    ConversationState.state conv = Some "journaling" ->
    Store.find_user db tid = Some user ->
    Store.find_question db q = Some cq ->
    next_after db cq = None ->
    let h := Bot.handle_answer_callback tid cb now in
    result_of h db = Ok Bot.SessionComplete
    /\ Store.find_state (db_after h db) tid
       = Some (ConversationState.mk tid None None None).

(** [setSchedules] followed by [listSchedules] gives the given times
    deduplicated on time of day, each enabled. *)
Definition schedules_replaced_deduplicated (db : DB) (tid : Z)
    (times : list string) (tz : option string) : Prop :=
  forall user : User.t,
    Store.find_user db tid = Some user ->
    exists listed : list (string * bool),
      result_of (do! Scheduler.add_user_schedule tid times tz in
                 Scheduler.get_user_schedules tid) db = Ok listed
      /\ NoDup (map fst listed)
      /\ (forall t, In t (map fst listed) <-> In t times)
      /\ Forall (fun entry => snd entry = true) listed.

(** The specification's format of a time of day, in its words: a
    zero-padded 24-hour "HH:MM" string. *)
Definition valid_time_of_day (s : string) : bool :=
  match s with
  | String h1 (String h2 (String ":" (String m1 (String m2 EmptyString)))) =>
      match Py.digit_val h1, Py.digit_val h2, Py.digit_val m1, Py.digit_val m2 with
      | Some a, Some b, Some c, Some d => (10 * a + b <=? 23) && (10 * c + d <=? 59)
      | _, _, _, _ => false
      end
  | _ => false
  end.

(** A registration with an invalid time of day or an invalid zone name
    fails and persists no schedule row; [valid_zone] is the set of IANA
    names. *)
Definition invalid_schedule_rejected (valid_zone : string -> bool) (db : DB)
    (tid : Z) (times : list string) (tz : option string) : Prop :=
  forall user : User.t,
    Store.find_user db tid = Some user ->
    (exists t, In t times /\ valid_time_of_day t = false)
    \/ (exists z, tz = Some z /\ valid_zone z = false) ->
    (exists e, result_of (Scheduler.add_user_schedule tid times tz) db = Raise e)
    /\ schedules (db_after (Scheduler.add_user_schedule tid times tz) db)
       = schedules db.

(** ** Sample data *)

Definition q_mood : Question.t :=
  Question.mk 1 "mood" "How are you feeling right now?" "yes_no" 1 true.
Definition q_gratitude : Question.t :=
  Question.mk 2 "gratitude" "Did something make you smile today?" "yes_no" 2 true.
Definition q_focus : Question.t :=
  Question.mk 3 "productivity" "Did you focus well today?" "yes_no" 3 true.

(** The catalog [mood#1, gratitude#2], no user yet. *)
Definition catalog2 : DB := mkDB [] [] [q_mood; q_gratitude] [] [].

(** Chat 42 after /start and /journal on [catalog2]. *)
Definition started2 : DB :=
  Eval vm_compute in
    db_after (do! Bot.start_command 42 (Some "ann") in
              Bot.journal_command 42 (Some "ann") "session-1") catalog2.

(** ... and after the answer "yes" to mood#1. *)
Definition answered2 : DB :=
  Eval vm_compute in db_after (Bot.handle_answer_callback 42 "answer_yes_1" 100) started2.

(** ... and after skipping gratitude#2. *)
Definition finished2 : DB :=
  Eval vm_compute in db_after (Bot.handle_answer_callback 42 "skip_2" 200) answered2.

(** A catalog of three questions; chat 42 started a session and pressed
    "yes" on question 1 once. *)
Definition catalog3 : DB := mkDB [] [] [q_mood; q_gratitude; q_focus] [] [].

Definition clicked_once3 : DB :=
  Eval vm_compute in
    db_after (do! Bot.start_command 42 (Some "ann") in
              do! Bot.journal_command 42 (Some "ann") "session-1" in
              Bot.handle_answer_callback 42 "answer_yes_1" 100) catalog3.

Definition unknown_question : Question.t :=
  Question.mk 7 "mood" "Did you see the sun today?" "yes_no" 17 true.

(** Responses of user 1 on the days 10, 9, 8 and 4, and one of user 2. *)
Definition streak_db : DB :=
  mkDB [] [] []
       [ Response.mk 1 1 "yes" (8 * 86400 + 77) (Some "a");
         Response.mk 1 2 "no" (10 * 86400 + 5) (Some "c");
         Response.mk 2 1 "yes" (7 * 86400) (Some "x");
         Response.mk 1 1 "yes" (4 * 86400) (Some "z");
         Response.mk 1 1 "Great" (9 * 86400 + 86399) (Some "b");
         Response.mk 1 2 "skip" (10 * 86400 + 9) (Some "c") ]
       [].

(** One registered chat, 42, and nothing else. *)
Definition registered : DB :=
  Eval vm_compute in db_after (Bot.start_command 42 (Some "ann")) empty_db.

(** A few zone names, standing for the zone database. *)
Definition sample_zones (z : string) : bool :=
  bool_decide (z ∈ ["UTC"; "Europe/London"; "America/New_York"]).

(** Chat 42 in the middle of a session, with an answer and a schedule. *)
Definition with_user_data : DB :=
  Eval vm_compute in
    db_after (Scheduler.add_user_schedule 42 ["09:00"] None) answered2.

(** * Properties *)

Import Store.

(** ** Python primitives on examples *)

Example split_ex : Py.split "_" "answer_Not great_12" = ["answer"; "Not great"; "12"].
Proof. reflexivity. Qed.

Example int_ex : Py.int " 0_12 " = Some 12 /\ Py.int "1__2" = None /\ Py.int "-7" = Some (-7)
  /\ Py.int "" = None /\ Py.str 120 = "120" /\ Py.str 0 = "0" /\ Py.str (-3) = "-3".
Proof. vm_compute. repeat split. Qed.

(** ** The option keyboard *)

Section Keyboard.
Import Bot.

Lemma find_text_none (txt : string) :
  Forall (fun e => Questions.question_text e <> txt) Questions.QUESTION_BANK ->
  find (fun q => String.eqb (Questions.question_text q) txt) Questions.QUESTION_BANK
  = None.
Proof.
  generalize Questions.QUESTION_BANK as bank.
  induction 1 as [|e bank Hne _ IH]; simpl; [reflexivity|].
  destruct (String.eqb_spec (Questions.question_text e) txt); [contradiction|exact IH].
Qed.

Lemma last_snoc_row (kb : keyboard) (row : list Button) :
  last (kb ++ [row]) = Some row.
Proof. apply last_snoc. Qed.

(** C10. Every keyboard ends with the Skip row; a question whose text is
    no entry of the static bank gets exactly the Yes/No row and the Skip
    row; and the keyboard is a function of the question's text (matched by
    equality against the bank) and of its id alone: with a bank entry of
    that text, the buttons are that entry's options. *)
Theorem get_question_options_skip_and_fallback (question : Question.t) :
  last (get_question_options question) = Some (skip_row (Question.id question))
  /\ (Forall (fun e => Questions.question_text e <> Question.question_text question)
             Questions.QUESTION_BANK ->
      get_question_options question
      = [ yes_no_row (Question.id question); skip_row (Question.id question) ])
  /\ (forall question' : Question.t,
        Question.question_text question' = Question.question_text question ->
        Question.id question' = Question.id question ->
        get_question_options question' = get_question_options question)
  /\ (forall e options,
        find (fun q => String.eqb (Questions.question_text q)
                                  (Question.question_text question))
             Questions.QUESTION_BANK = Some e ->
        Questions.options e = Some options ->
        get_question_options question
        = option_rows (Question.id question) options []
            ++ [ skip_row (Question.id question) ]).
Proof.
  repeat split.
  - unfold get_question_options. apply last_snoc_row.
  - intros Hno. unfold get_question_options.
    rewrite (find_text_none _ Hno). reflexivity.
  - intros question' Htxt Hid. unfold get_question_options.
    rewrite Htxt, Hid. reflexivity.
  - intros e options Hfind Hopts. unfold get_question_options.
    rewrite Hfind. simpl. rewrite Hopts. reflexivity.
Qed.

Lemma get_question_options_skip_and_fallback_witness :
  get_question_options unknown_question
  = [ [ mkButton "Yes ✅" "answer_yes_7"; mkButton "No ❌" "answer_no_7" ];
      [ mkButton "Skip ⏭️" "skip_7" ] ].
Proof.
  refine (proj1 (proj2 (get_question_options_skip_and_fallback unknown_question)) _).
  apply (bool_decide_unpack _). vm_compute. exact I.
Defined.

Example first_question_keyboard :
  get_question_options
    (Question.mk 1 "mood" "How are you feeling right now?" "yes_no" 1 true)
  = [ [ mkButton "Great 😊" "answer_Great 😊_1"; mkButton "Good 🙂" "answer_Good 🙂_1" ];
      [ mkButton "Okay 😐" "answer_Okay 😐_1";
        mkButton "Not great 😔" "answer_Not great 😔_1" ];
      [ mkButton "Skip ⏭️" "skip_1" ] ].
Proof. vm_compute. reflexivity. Qed.

End Keyboard.

(** ** The callback tokens *)

Section Tokens.
Import Bot.

Lemma plain_uint (d : Decimal.uint) : plain (NilEmpty.string_of_uint d) = true.
Proof. induction d; simpl; try reflexivity; exact IHd. Qed.

Lemma plain_str (n : Z) : plain (Py.str n) = true.
Proof.
  unfold Py.str. destruct (Z.to_int n) as [d|d]; simpl;
    (destruct d; [reflexivity|..]; simpl; apply plain_uint).
Qed.

Lemma plain_char_space (c : ascii) : plain_char c = true -> Py.is_space c = false.
Proof. unfold plain_char. destruct (Py.is_space c); [discriminate|reflexivity]. Qed.

Lemma rstrip_plain (s : string) : plain s = true -> Py.rstrip s = s.
Proof.
  induction s as [|c s IH]; simpl; [reflexivity|].
  intros H. apply andb_prop in H. destruct H as [Hc Hs].
  rewrite (IH Hs). destruct s; [|reflexivity].
  rewrite (plain_char_space c Hc). reflexivity.
Qed.

Lemma strip_plain (s : string) : plain s = true -> Py.strip s = s.
Proof.
  intros H. unfold Py.strip.
  assert (Hl : Py.lstrip s = s).
  { destruct s as [|c s]; [reflexivity|]. simpl in *.
    apply andb_prop in H. destruct H as [Hc _].
    rewrite (plain_char_space c Hc). reflexivity. }
  rewrite Hl. apply rstrip_plain, H.
Qed.

Lemma split_plain (s : string) : plain s = true -> Py.split "_" s = [s].
Proof.
  induction s as [|c s IH]; simpl; [reflexivity|].
  intros H. apply andb_prop in H. destruct H as [Hc Hs].
  rewrite (IH Hs). destruct (decide (c = "_"%char)) as [->|_]; [discriminate Hc|reflexivity].
Qed.

Lemma digit_step (c : ascii) (v : Z) (s : string) (acc : Z) (prev : bool) :
  Py.digit_val c = Some v ->
  Py.digits (String c s) acc prev = Py.digits s (10 * acc + v) true.
Proof. intros H. simpl. rewrite H. reflexivity. Qed.

Ltac digit_case IH v :=
  cbn [NilEmpty.string_of_uint Decimal.revapp];
  rewrite (digit_step _ v) by reflexivity;
  lazymatch goal with
  | |- Py.digits _ ?acc true
       = Some (Z.of_N (Unsigned.of_lu (Decimal.revapp _ ?e'))) =>
      replace acc with (Z.of_N (Unsigned.of_lu e'))
        by (cbn [Unsigned.of_lu]; lia)
  end;
  apply IH; right; reflexivity.

(** Reading the digits of [d] from the accumulator left by the digits [e]
    read before (most recent first). *)
Lemma digits_uint (d : Decimal.uint) : forall (e : Decimal.uint) (prev : bool),
  d <> Decimal.Nil \/ prev = true ->
  Py.digits (NilEmpty.string_of_uint d) (Z.of_N (Unsigned.of_lu e)) prev
  = Some (Z.of_N (Unsigned.of_lu (Decimal.revapp d e))).
Proof.
  induction d as [|d IH|d IH|d IH|d IH|d IH|d IH|d IH|d IH|d IH|d IH];
    intros e prev Hd.
  - simpl. destruct Hd as [Hd| ->]; [contradiction|reflexivity].
  - digit_case IH 0.
  - digit_case IH 1.
  - digit_case IH 2.
  - digit_case IH 3.
  - digit_case IH 4.
  - digit_case IH 5.
  - digit_case IH 6.
  - digit_case IH 7.
  - digit_case IH 8.
  - digit_case IH 9.
Qed.

Lemma int_space_is_space (c : ascii) : Py.is_int_space c = true -> Py.is_space c = true.
Proof. destruct c as [[] [] [] [] [] [] [] []]; vm_compute; congruence. Qed.

Lemma not_space_not_int_space (c : ascii) : Py.is_space c = false -> Py.is_int_space c = false.
Proof.
  intros H. destruct (Py.is_int_space c) eqn:E; [|reflexivity].
  rewrite (int_space_is_space c E) in H. discriminate H.
Qed.

Lemma int_rstrip_plain (s : string) : plain s = true -> Py.int_rstrip s = s.
Proof.
  induction s as [|c s IH]; simpl; [reflexivity|].
  intros H. apply andb_prop in H. destruct H as [Hc Hs].
  rewrite (IH Hs). destruct s; [|reflexivity].
  rewrite (not_space_not_int_space c (plain_char_space c Hc)). reflexivity.
Qed.

Lemma int_strip_plain (s : string) :
  plain s = true -> Py.int_rstrip (Py.int_lstrip s) = s.
Proof.
  intros H.
  assert (Hl : Py.int_lstrip s = s).
  { destruct s as [|c s]; [reflexivity|]. simpl in *.
    apply andb_prop in H. destruct H as [Hc _].
    rewrite (not_space_not_int_space c (plain_char_space c Hc)). reflexivity. }
  rewrite Hl. apply int_rstrip_plain, H.
Qed.

Lemma digits_of_uint (d : Decimal.uint) :
  d <> Decimal.Nil ->
  Py.digits (NilEmpty.string_of_uint d) 0 false = Some (Z.of_uint d).
Proof.
  intros Hd. unfold Z.of_uint. rewrite Unsigned.of_uint_alt.
  apply (digits_uint d Decimal.Nil false). left. exact Hd.
Qed.

Lemma int_str (n : Z) : Py.int (Py.str n) = Some n.
Proof.
  unfold Py.int. rewrite (int_strip_plain _ (plain_str n)).
  rewrite <- (DecimalZ.of_to n) at 2. unfold Py.str.
  destruct n as [|p|p]; [reflexivity| |].
  - simpl Z.to_int. cbn [NilZero.string_of_int Z.of_int].
    pose proof (Unsigned.to_uint_nonnil p) as Hn.
    rewrite <- (digits_of_uint _ Hn).
    destruct (Pos.to_uint p); try contradiction; reflexivity.
  - simpl Z.to_int. cbn [NilZero.string_of_int Z.of_int].
    pose proof (Unsigned.to_uint_nonnil p) as Hn.
    assert (Hs : NilZero.string_of_uint (Pos.to_uint p) = NilEmpty.string_of_uint (Pos.to_uint p))
      by (destruct (Pos.to_uint p); try contradiction; reflexivity).
    rewrite Hs, (digits_of_uint _ Hn). reflexivity.
Qed.

Lemma split_nonempty (sep : ascii) (s : string) : Py.split sep s <> [].
Proof.
  destruct s as [|c s]; simpl; [discriminate|].
  destruct (decide (c = sep)); [discriminate|]. destruct (Py.split sep s); discriminate.
Qed.

Lemma split_app_sep (sep : ascii) (s1 s2 : string) :
  Py.split sep (s1 +:+ String sep s2) = Py.split sep s1 ++ Py.split sep s2.
Proof.
  induction s1 as [|c s1 IH]; simpl.
  - destruct (decide (sep = sep)); [reflexivity|contradiction].
  - rewrite IH. destruct (decide (c = sep)); [reflexivity|].
    pose proof (split_nonempty sep s1) as Hne.
    destruct (Py.split sep s1); [contradiction|reflexivity].
Qed.

Lemma join_cons (sep p q : string) (l : list string) :
  Py.join sep (p :: q :: l) = p +:+ sep +:+ Py.join sep (q :: l).
Proof. reflexivity. Qed.

Lemma join_split (sep : ascii) (s : string) :
  Py.join (String sep "") (Py.split sep s) = s.
Proof.
  induction s as [|c s IH]; [reflexivity|]. cbn [Py.split].
  pose proof (split_nonempty sep s) as Hne.
  destruct (Py.split sep s) as [|p ps]; [contradiction|].
  destruct (decide (c = sep)) as [->|_].
  - rewrite join_cons, IH. reflexivity.
  - destruct ps as [|p' ps].
    + simpl in *. f_equal. exact IH.
    + rewrite join_cons. rewrite join_cons in IH. rewrite <- IH. reflexivity.
Qed.

Lemma removelast_snoc {A} (l : list A) (x : A) : removelast (l ++ [x]) = l.
Proof. apply removelast_last. Qed.

(** The callback tokens round-trip: the data of an answer button gives back
    the question id and the option, the data of the skip button the question
    id and the skip sentinel. *)
Lemma parse_callback_round_trip (question_id : Z) (option : string) :
  parse_callback ("answer_" +:+ option +:+ "_" +:+ Py.str question_id)
  = Ok (question_id, option)
  /\ parse_callback ("skip_" +:+ Py.str question_id) = Ok (question_id, "skipped").
Proof.
  split.
  - unfold parse_callback.
    change (Py.startswith _ "skip_") with false. cbv iota.
    change ("answer_" +:+ option +:+ "_" +:+ Py.str question_id)
      with ("answer" +:+ String "_" (option +:+ String "_" (Py.str question_id))).
    rewrite !split_app_sep, (split_plain _ (plain_str question_id)).
    unfold Py.last_item. rewrite app_assoc, last_snoc, int_str.
    unfold Py.slice_1_m1. simpl tail. rewrite removelast_snoc, join_split. reflexivity.
  - unfold parse_callback.
    assert (Hs : Py.startswith ("skip_" +:+ Py.str question_id) "skip_" = true)
      by (unfold Py.startswith; simpl; destruct (Py.str question_id); reflexivity).
    rewrite Hs.
    change ("skip_" +:+ Py.str question_id)
      with ("skip" +:+ String "_" (Py.str question_id)).
    rewrite split_app_sep, (split_plain _ (plain_str question_id)).
    simpl. rewrite int_str. reflexivity.
Qed.

Lemma option_rows_buttons (qid : Z) (options : list string) :
  forall (row : list Button) (b : Button),
    In b (concat (option_rows qid options row)) ->
    In b row
    \/ exists option, In option options
         /\ b = mkButton option ("answer_" +:+ option +:+ "_" +:+ Py.str qid).
Proof.
  induction options as [|o options IH]; intros row b Hb.
  - left. destruct row; simpl in Hb; [contradiction|].
    rewrite app_nil_r in Hb. exact Hb.
  - cbn [option_rows] in Hb.
    assert (Hrow : forall x, In x (row ++ [mkButton o ("answer_" +:+ o +:+ "_" +:+ Py.str qid)]) ->
                     In x row \/ exists option, In option (o :: options)
                       /\ x = mkButton option ("answer_" +:+ option +:+ "_" +:+ Py.str qid)).
    { intros x Hx. apply in_app_or in Hx. destruct Hx as [Hx|[<-|[]]]; [left; exact Hx|].
      right. exists o. split; [left|]; reflexivity. }
    destruct (_ =? _)%nat.
    + simpl in Hb. apply in_app_or in Hb. destruct Hb as [Hb|Hb]; [apply Hrow, Hb|].
      destruct (IH [] b Hb) as [[]|(o' & Ho' & ->)].
      right. exists o'. split; [right; exact Ho'|reflexivity].
    + destruct (IH _ b Hb) as [Hx|(o' & Ho' & ->)]; [apply Hrow, Hx|].
      right. exists o'. split; [right; exact Ho'|reflexivity].
Qed.

(** Every button of a question's keyboard carries callback data that parses
    back to the id of that question; the Skip button parses to the skip
    sentinel. *)
Lemma keyboard_buttons_parse (question : Question.t) (b : Button) :
  In b (concat (get_question_options question)) ->
  exists answer, parse_callback (callback_data b) = Ok (Question.id question, answer).
Proof.
  unfold get_question_options. rewrite concat_app. intros Hb.
  apply in_app_or in Hb. destruct Hb as [Hb|Hb].
  - destruct (_ ≫= _) as [options|].
    + apply option_rows_buttons in Hb. destruct Hb as [[]|(o & _ & ->)].
      exists o. apply parse_callback_round_trip.
    + simpl in Hb. destruct Hb as [<-|[<-|[]]].
      * exists "yes". apply (parse_callback_round_trip (Question.id question) "yes").
      * exists "no". apply (parse_callback_round_trip (Question.id question) "no").
  - simpl in Hb. destruct Hb as [<-|[]].
    exists "skipped". apply (parse_callback_round_trip (Question.id question) "").
Qed.

(** Callback data of a skip button parses to the skip sentinel. *)
Lemma skip_prefix_skipped (cb : string) (q : Z) (a : string) :
  Py.startswith cb "skip_" = true ->
  parse_callback cb = Ok (q, a) -> a = "skipped".
Proof.
  unfold parse_callback. intros ->.
  destruct (Py.item_1 _) as [part|]; [|discriminate].
  destruct (Py.int part); [|discriminate]. intros [= _ <-]. reflexivity.
Qed.

End Tokens.

(** ** The streak *)

Section Streak.
Import Analytics.

Lemma insert_desc_In (d x : Z) (l : list Z) :
  In x (insert_desc d l) <-> x = d \/ In x l.
Proof.
  induction l as [|y l IH]; simpl.
  - intuition.
  - destruct (Z.ltb_spec y d); simpl; [intuition|].
    destruct (Z.eqb_spec y d); simpl; [subst; intuition|].
    rewrite IH. intuition.
Qed.

Lemma insert_desc_sorted (d : Z) (l : list Z) :
  StronglySorted Z.gt l -> StronglySorted Z.gt (insert_desc d l).
Proof.
  induction 1 as [|y l Hs IH Hall]; simpl.
  - repeat constructor.
  - destruct (Z.ltb_spec y d).
    + constructor; [constructor; assumption|].
      constructor; [lia|].
      eapply Forall_impl; [exact Hall|]. simpl. intros; lia.
    + destruct (Z.eqb_spec y d); [constructor; assumption|].
      constructor; [exact IH|].
      apply Forall_forall. intros x Hx.
      apply list_elem_of_In, insert_desc_In in Hx. destruct Hx as [->|Hx]; [lia|].
      rewrite Forall_forall in Hall. apply Hall, list_elem_of_In, Hx.
Qed.

(** The query yields each response date of the user once, latest first. *)
Lemma response_dates_sorted (db : DB) (user_id : Z) :
  StronglySorted Z.gt (response_dates db user_id).
Proof.
  unfold response_dates.
  induction (map _ _) as [|d l IH]; simpl; [constructor|].
  apply insert_desc_sorted, IH.
Qed.

Lemma response_dates_In (db : DB) (user_id x : Z) :
  In x (response_dates db user_id) <->
  exists r, In r (responses db) /\ Response.user_id r = user_id
            /\ date (Response.responded_at r) = x.
Proof.
  unfold response_dates.
  assert (Hfold : forall l, In x (foldr insert_desc [] l) <-> In x l).
  { induction l as [|d l IH]; simpl; [tauto|]. rewrite insert_desc_In, IH. intuition. }
  rewrite Hfold, in_map_iff. split.
  - intros (r & Hd & Hr). apply list_elem_of_In, list_elem_of_filter in Hr.
    destruct Hr as [Hu Hr]. exists r. rewrite <- list_elem_of_In. auto.
  - intros (r & Hr & Hu & Hd). exists r. split; [exact Hd|].
    apply list_elem_of_In, list_elem_of_filter. rewrite list_elem_of_In. auto.
Qed.

(** A strictly descending list that holds exactly the days of an interval is
    the countdown of that interval. *)
Lemma sorted_interval (n : nat) : forall (d : Z) (l : list Z),
  StronglySorted Z.gt l ->
  (forall x, In x l <-> d - Z.of_nat n < x <= d) ->
  l = consecutive_days d n.
Proof.
  induction n as [|n IH]; intros d l Hs Hin.
  - destruct l as [|x l]; [reflexivity|].
    exfalso. assert (H : d - Z.of_nat 0 < x <= d) by (apply Hin; left; reflexivity). lia.
  - destruct l as [|x l].
    + exfalso. apply (proj2 (Hin d)). lia.
    + apply StronglySorted_inv in Hs. destruct Hs as [Hs Hall].
      rewrite Forall_forall in Hall.
      assert (Hx : d - Z.of_nat (S n) < x <= d) by (apply Hin; left; reflexivity).
      assert (Hd : In d (x :: l)) by (apply Hin; lia).
      assert (x = d) as ->.
      { destruct Hd as [?|Hd]; [assumption|].
        apply list_elem_of_In, Hall in Hd. lia. }
      simpl. f_equal. apply IH; [exact Hs|].
      intros y. split.
      * intros Hy. pose proof (Hall y (proj2 (list_elem_of_In _ _) Hy)).
        assert (d - Z.of_nat (S n) < y <= d) by (apply Hin; right; exact Hy). lia.
      * intros Hy. assert (Hy' : In y (d :: l)) by (apply Hin; lia).
        destruct Hy' as [?|?]; [lia|assumption].
Qed.

Lemma streak_loop_app (chain : list Z) : forall (rest : list value) (cur acc : Z),
  follows cur chain ->
  streak_loop (map Date chain ++ rest) cur acc
  = streak_loop rest (cursor cur chain) (acc + Z.of_nat (length chain)).
Proof.
  induction chain as [|a chain IH]; intros rest cur acc Hf.
  - simpl. f_equal. lia.
  - destruct Hf as [Ha Hf]. cbn [map app streak_loop cursor].
    replace ((a =? cur) || (a =? cur - 1)) with true
      by (symmetry; apply orb_true_iff; rewrite !Z.eqb_eq; exact Ha).
    rewrite (IH rest _ _ Hf). f_equal. rewrite length_cons. lia.
Qed.

Lemma cursor_last (chain : list Z) : forall (cur a : Z),
  last chain = Some a -> cursor cur chain = a - 1.
Proof.
  induction chain as [|x chain IH]; intros cur a Hl; [discriminate|].
  destruct chain as [|y chain].
  - simpl in *. congruence.
  - cbn [cursor]. apply (IH (x - 1) a). exact Hl.
Qed.

Lemma linked_follows (chain : list Z) : forall cur : Z,
  linked chain ->
  (head chain = Some cur \/ head chain = Some (cur - 1)) ->
  follows cur chain.
Proof.
  induction chain as [|a chain IH]; intros cur Hl Hh; [exact I|].
  split.
  - simpl in Hh. destruct Hh; [left|right]; congruence.
  - destruct chain as [|b chain]; [exact I|].
    destruct Hl as [Hab Hl]. apply IH; [exact Hl|].
    simpl. assert (b = a - 1 \/ b = a - 1 - 1) as [->| ->] by lia; auto.
Qed.

Lemma consecutive_days_follows (n : nat) : forall d cur : Z,
  d = cur \/ d = cur - 1 -> follows cur (consecutive_days d n).
Proof.
  induction n as [|n IH]; intros d cur Hd; [exact I|].
  split; [exact Hd|]. apply IH. left. reflexivity.
Qed.

Lemma length_consecutive_days (n : nat) (d : Z) : length (consecutive_days d n) = n.
Proof. revert d. induction n as [|n IH]; intros d; simpl; [reflexivity|]. f_equal. apply IH. Qed.

Lemma get_user_streak_loop (db : DB) (user_id utcnow : Z) :
  get_user_streak db user_id utcnow
  = streak_loop (response_date_rows db user_id) (date utcnow) 0.
Proof. unfold get_user_streak. destruct (response_date_rows db user_id); reflexivity. Qed.

(** Had the query yielded dates, the loop would count as its docstring says:
    0 without a response; the number of covered days when the response dates
    are exactly the consecutive calendar days ending today or yesterday; the
    length of the leading chain when the next date lies beyond a gap of more
    than one day; 0 when the latest response is older than yesterday. *)
Lemma streak_loop_on_dates (db : DB) (user_id utcnow : Z) :
  let today := date utcnow in
  let on_dates := streak_loop (map Date (response_dates db user_id)) today 0 in
  ((forall r, In r (responses db) -> Response.user_id r <> user_id) -> on_dates = 0)
  /\ (forall (d : Z) (n : nat),
        d = today \/ d = today - 1 ->
        (forall x, (exists r, In r (responses db) /\ Response.user_id r = user_id
                              /\ date (Response.responded_at r) = x)
                   <-> d - Z.of_nat n < x <= d) ->
        on_dates = Z.of_nat n)
  /\ (forall (chain : list Z) (a b : Z) (rest : list Z),
        response_dates db user_id = chain ++ b :: rest ->
        head chain = Some today \/ head chain = Some (today - 1) ->
        linked chain ->
        last chain = Some a ->
        a - b > 2 ->
        on_dates = Z.of_nat (length chain))
  /\ (forall (d : Z) (rest : list Z),
        response_dates db user_id = d :: rest ->
        d < today - 1 ->
        on_dates = 0).
Proof.
  intros today on_dates. subst on_dates. repeat split.
  - intros Hnone. destruct (response_dates db user_id) as [|x l] eqn:E; [reflexivity|].
    exfalso. assert (Hx : In x (response_dates db user_id)) by (rewrite E; left; reflexivity).
    apply response_dates_In in Hx. destruct Hx as (r & Hr & Hu & _).
    exact (Hnone r Hr Hu).
  - intros d n Hd Hset.
    rewrite (sorted_interval n d (response_dates db user_id)).
    + rewrite <- (app_nil_r (map Date (consecutive_days d n))), streak_loop_app
        by (apply consecutive_days_follows; exact Hd).
      simpl. rewrite length_consecutive_days. reflexivity.
    + apply response_dates_sorted.
    + intros x. rewrite response_dates_In. apply Hset.
  - intros chain a b rest E Hh Hl Ha Hgap. rewrite E, map_app.
    rewrite streak_loop_app by (apply linked_follows; assumption).
    rewrite (cursor_last chain today a Ha). simpl.
    destruct (Z.eqb_spec b (a - 1)); [lia|].
    destruct (Z.eqb_spec b (a - 1 - 1)); [lia|]. reflexivity.
  - intros d rest E Hold. rewrite E. simpl.
    destruct (Z.eqb_spec d today); [lia|].
    destruct (Z.eqb_spec d (today - 1)); [lia|]. reflexivity.
Qed.

(** One calendar day without a response does not end the chain. *)
Example streak_single_missing_day :
  streak_loop (map Date [10; 8; 7; 5; 2]) 10 0 = 4.
Proof. reflexivity. Qed.

(** The rows are texts, and the loop leaves at the first of them. *)
Lemma get_user_streak_zero (db : DB) (user_id utcnow : Z) :
  get_user_streak db user_id utcnow = 0.
Proof.
  rewrite get_user_streak_loop. unfold response_date_rows.
  destruct (response_dates db user_id); reflexivity.
Qed.

(** C9. The streak that [get_user_streak] returns is 0 for every user,
    whatever the user has answered: the query hands the response dates over
    as texts 'YYYY-MM-DD', no text equals the [datetime.date] the loop
    compares it with, and the loop leaves at the first row.  So for user 1
    of [streak_db], who answered on the three consecutive days 1970-01-09,
    1970-01-10 and 1970-01-11 (and on 1970-01-05), the streak computed on
    1970-01-11 is 0, where the count of consecutive covered days is 3, which
    is also what the loop gives on dates. *)
Theorem get_user_streak_returns_zero :
  (forall db user_id utcnow, get_user_streak db user_id utcnow = 0)
  /\ response_dates streak_db 1 = [10; 9; 8; 4]
  /\ response_date_rows streak_db 1
     = [Str "1970-01-11"; Str "1970-01-10"; Str "1970-01-09"; Str "1970-01-05"]
  /\ date (10 * 86400 + 3600) = 10
  /\ get_user_streak streak_db 1 (10 * 86400 + 3600) = 0
  /\ streak_loop (map Date (response_dates streak_db 1)) (date (10 * 86400 + 3600)) 0 = 3.
Proof.
  split; [exact get_user_streak_zero|].
  split; [vm_compute; reflexivity|].
  split; [vm_compute; reflexivity|].
  split; [reflexivity|].
  split; [apply get_user_streak_zero|].
  vm_compute. reflexivity.
Qed.

End Streak.

(** ** The conversation engine *)

Section Engine.
Import Bot.

Lemma find_state_key (db : DB) (tid : Z) (conv : ConversationState.t) :
  find_state db tid = Some conv -> ConversationState.telegram_id conv = tid.
Proof.
  unfold find_state. intros H. apply find_some in H. destruct H as [_ H].
  apply Z.eqb_eq, H.
Qed.

Lemma find_update_first {A} (p : A -> bool) (f : A -> A) (l : list A) (x : A) :
  find p l = Some x -> p (f x) = true -> find p (update_first p f l) = Some (f x).
Proof.
  induction l as [|y l IH]; simpl; [discriminate|].
  destruct (p y) eqn:E; simpl.
  - intros [= ->] Hf. rewrite Hf. reflexivity.
  - intros H Hf. rewrite E. apply IH; assumption.
Qed.

(** Writing a state object back and reading the chat's state again. *)
Lemma find_state_put_state (db : DB) (c conv : ConversationState.t) :
  find_state db (ConversationState.telegram_id c) = Some conv ->
  find_state (put_state c db) (ConversationState.telegram_id c) = Some c.
Proof.
  intros H. unfold put_state. rewrite H. unfold find_state, with_states. simpl.
  apply (find_update_first _ (fun _ => c) _ conv); [exact H|apply Z.eqb_refl].
Qed.

Lemma find_state_put_advance (db : DB) (tid : Z) (conv : ConversationState.t)
    (next : option Question.t) :
  find_state db tid = Some conv ->
  find_state (put_state (advance conv next) db) tid = Some (advance conv next).
Proof.
  intros H. pose proof (find_state_key _ _ _ H) as Hkey.
  assert (Hk : ConversationState.telegram_id (advance conv next) = tid)
    by (destruct next; exact Hkey).
  rewrite <- Hk at 1. apply (find_state_put_state db _ conv). rewrite Hk. exact H.
Qed.

Lemma put_state_tables (c : ConversationState.t) (db : DB) :
  users (put_state c db) = users db
  /\ schedules (put_state c db) = schedules db
  /\ questions (put_state c db) = questions db
  /\ responses (put_state c db) = responses db.
Proof. unfold put_state. destruct (find_state db _); repeat split. Qed.

(** An accepted skip: one commit, the state update. *)
Lemma handle_answer_skip (s : store) (tid q now : Z)
    (conv : ConversationState.t) (cq : Question.t) :
  find_state (persisted s) tid = Some conv ->
  ConversationState.state conv = Some "journaling" ->
  find_question (persisted s) q = Some cq ->
  let db := persisted s in
  let next := next_after db cq in
  let db2 := put_state (advance conv next) db in
  handle_answer tid q "skipped" now s
  = (mkStore db2 (commits s ++ [db2]), Ok (reply_after next)).
Proof.
  intros Hst Hj Hq db next db2.
  unfold handle_answer, bind, read. simpl. rewrite Hst, Hj. simpl.
  unfold get_next_question, bind, read, deref. simpl. rewrite Hq. simpl.
  fold (next_after (persisted s) cq). fold db. fold next.
  subst db2. destruct next as [nq|] eqn:E; unfold advance, reply_after, ret;
    rewrite ?Hj; reflexivity.
Qed.

(** An accepted answer: two commits, the response row first and the state
    update second. *)
Lemma handle_answer_saved (s : store) (tid q now : Z) (a : string)
    (conv : ConversationState.t) (cq : Question.t) (user : User.t) :
  find_state (persisted s) tid = Some conv ->
  ConversationState.state conv = Some "journaling" ->
  find_question (persisted s) q = Some cq ->
  find_user (persisted s) tid = Some user ->
  a <> "skipped" ->
  let db := persisted s in
  let next := next_after db cq in
  let db1 := with_responses (fun l => l ++ [response_row user conv q a now]) db in
  let db2 := put_state (advance conv next) db1 in
  handle_answer tid q a now s
  = (mkStore db2 (commits s ++ [db1; db2]), Ok (reply_after next)).
Proof.
  intros Hst Hj Hq Hu Ha db next db1 db2.
  unfold handle_answer, bind, read. simpl. rewrite Hst, Hj. simpl.
  destruct (String.eqb_spec a "skipped") as [|_]; [contradiction|]. simpl.
  rewrite Hu. simpl.
  unfold get_next_question, bind, read, deref, commit. simpl.
  change (find_question (with_responses _ (persisted s)) q)
    with (find_question (persisted s) q). rewrite Hq. simpl.
  change (first_by_order _) with next.
  subst db2. destruct next as [nq|] eqn:E; unfold advance, reply_after, ret;
    simpl; rewrite ?Hj, <- app_assoc; reflexivity.
Qed.

Lemma handle_answer_callback_parsed (tid now q : Z) (cb a : string) :
  parse_callback cb = Ok (q, a) ->
  handle_answer_callback tid cb now = handle_answer tid q a now.
Proof. intros H. unfold handle_answer_callback. rewrite H. reflexivity. Qed.

(** The mode guard: without a stored state in mode "journaling" the handler
    answers with the expiry message and touches nothing. *)
Lemma handle_answer_expired (s : store) (tid q now : Z) (a : string) :
  match find_state (persisted s) tid with
  | None => True
  | Some conv => ConversationState.state conv <> Some "journaling"
  end ->
  handle_answer tid q a now s = (s, Ok SessionExpired).
Proof.
  intros H. unfold handle_answer, bind, read. simpl.
  destruct (find_state (persisted s) tid) as [conv|]; [|reflexivity].
  rewrite bool_decide_eq_false_2 by exact H. reflexivity.
Qed.

Example scenario_two_questions :
  result_of (journal_command 42 (Some "ann") "session-1")
            (db_after (start_command 42 (Some "ann")) catalog2)
  = Ok (AskQuestion q_mood (get_question_options q_mood))
  /\ result_of (handle_answer_callback 42 "answer_yes_1" 100) started2
     = Ok (AskQuestion q_gratitude (get_question_options q_gratitude))
  /\ result_of (handle_answer_callback 42 "skip_2" 200) answered2 = Ok SessionComplete
  /\ responses finished2 = [ Response.mk 1 1 "yes" 100 (Some "session-1") ]
  /\ find_state finished2 42
     = Some (ConversationState.mk 42 None (Some "session-1") None).
Proof. vm_compute. repeat split. Qed.

(** C1, as the specification states it, fails: after the first press on
    question 1 the stored current question is 2, and a second identical
    press for question 1 is accepted and writes a second response row. *)
Lemma stale_question_id_accepted :
  ~ stale_submission_rejected clicked_once3 42 "answer_yes_1" 200.
Proof.
  intros H.
  specialize (H 1 "yes" (ConversationState.mk 42 (Some 2) (Some "session-1")
                                              (Some "journaling"))
                eq_refl eq_refl).
  assert (Hne : Some 2 <> Some 1) by discriminate.
  specialize (H (or_intror Hne)). vm_compute in H. discriminate H.
Qed.

Example double_click_two_rows :
  responses clicked_once3 = [ Response.mk 1 1 "yes" 100 (Some "session-1") ]
  /\ run (handle_answer_callback 42 "answer_yes_1" 200) clicked_once3
     = (let db1 := with_responses
                     (fun l => l ++ [Response.mk 1 1 "yes" 200 (Some "session-1")])
                     clicked_once3 in
        (mkStore db1 [db1; db1], Ok (AskQuestion q_gratitude (get_question_options q_gratitude)))).
Proof. vm_compute. split; reflexivity. Qed.

(** C1, amended. A submission that finds no stored state for the chat, or a
    stored state whose mode is not "journaling", is answered with the expiry
    message, commits nothing and leaves the store as it was, whatever its
    question id; in particular, once an answer has completed the session, the
    same submission sent again is rejected in this way. *)
Theorem expired_session_rejected (db : DB) (tid : Z) (cb : string) (now : Z)
    (q : Z) (a : string) :
  parse_callback cb = Ok (q, a) ->
  (match find_state db tid with
   | None => True
   | Some conv => ConversationState.state conv <> Some "journaling"
   end ->
   run (handle_answer_callback tid cb now) db = (mkStore db [], Ok SessionExpired))
  /\ (result_of (handle_answer_callback tid cb now) db = Ok SessionComplete ->
      forall now' : Z,
        let db' := db_after (handle_answer_callback tid cb now) db in
        run (handle_answer_callback tid cb now') db' = (mkStore db' [], Ok SessionExpired)).
Proof.
  intros Hp. rewrite (handle_answer_callback_parsed tid now q cb a Hp). split.
  - intros Hg. unfold run. apply handle_answer_expired. exact Hg.
  - intros Hres now' db'.
    rewrite (handle_answer_callback_parsed tid now' q cb a Hp).
    unfold run. apply handle_answer_expired. simpl.
    subst db'. unfold db_after, result_of, run in *.
    destruct (find_state db tid) as [conv|] eqn:Hst;
      [|rewrite handle_answer_expired in Hres by (simpl; rewrite Hst; exact I);
        discriminate Hres].
    destruct (decide (ConversationState.state conv = Some "journaling")) as [Hj|Hj];
      [|rewrite handle_answer_expired in Hres by (simpl; rewrite Hst; exact Hj);
        discriminate Hres].
    pose proof (find_state_key _ _ _ Hst) as Hkey.
    destruct (find_question db q) as [cq|] eqn:Hq.
    + destruct (String.eqb_spec a "skipped") as [->|Ha].
      * rewrite (handle_answer_skip (mkStore db []) tid q now conv cq Hst Hj Hq) in *.
        simpl in *. destruct (next_after db cq); [discriminate Hres|].
        rewrite (find_state_put_advance db tid conv None Hst). simpl. discriminate.
      * destruct (find_user db tid) as [user|] eqn:Hu.
        -- rewrite (handle_answer_saved (mkStore db []) tid q now a conv cq user
                      Hst Hj Hq Hu Ha) in *.
           simpl in *. destruct (next_after db cq); [discriminate Hres|].
           rewrite (find_state_put_advance _ tid conv None) by exact Hst.
           simpl. discriminate.
        -- exfalso. revert Hres. unfold handle_answer, bind, read. simpl.
           rewrite Hst, Hj. simpl.
           destruct (String.eqb_spec a "skipped"); [contradiction|]. simpl.
           rewrite Hu. simpl. discriminate.
    + exfalso. revert Hres. unfold handle_answer, bind, read. simpl.
      rewrite Hst, Hj. simpl.
      destruct (String.eqb_spec a "skipped"); simpl.
      * unfold get_next_question, bind, read, deref. simpl. rewrite Hq. simpl. discriminate.
      * destruct (find_user db tid); simpl; [|discriminate].
        unfold get_next_question, bind, read, deref, commit. simpl.
        change (find_question (with_responses _ db) q) with (find_question db q).
        rewrite Hq. simpl. discriminate.
Qed.

Lemma expired_session_rejected_witness :
  run (handle_answer_callback 42 "skip_2" 300) finished2
  = (mkStore finished2 [], Ok SessionExpired).
Proof.
  refine (proj1 (expired_session_rejected finished2 42 "skip_2" 300 2 "skipped" _) _).
  - reflexivity.
  - vm_compute. discriminate.
Defined.

(** The accepted submission, run from a persisted database. *)
Lemma handle_answer_callback_accepted (db : DB) (tid : Z) (cb : string) (now q : Z)
    (a : string) (conv : ConversationState.t) (cq : Question.t) (user : User.t) :
  parse_callback cb = Ok (q, a) ->
  find_state db tid = Some conv ->
  ConversationState.state conv = Some "journaling" ->
  find_question db q = Some cq ->
  find_user db tid = Some user ->
  let next := next_after db cq in
  let db1 := with_responses (fun l => l ++ [response_row user conv q a now]) db in
  run (handle_answer_callback tid cb now) db
  = if String.eqb a "skipped"
    then (mkStore (put_state (advance conv next) db)
                  [put_state (advance conv next) db], Ok (reply_after next))
    else (mkStore (put_state (advance conv next) db1)
                  [db1; put_state (advance conv next) db1], Ok (reply_after next)).
Proof.
  intros Hp Hst Hj Hq Hu next db1.
  rewrite (handle_answer_callback_parsed tid now q cb a Hp). unfold run.
  destruct (String.eqb_spec a "skipped") as [->|Ha].
  - apply (handle_answer_skip (mkStore db []) tid q now conv cq Hst Hj Hq).
  - apply (handle_answer_saved (mkStore db []) tid q now a conv cq user Hst Hj Hq Hu Ha).
Qed.

(** C2, as the specification states it, fails: the answer "yes" to the
    first question is committed in a snapshot of its own, in which the chat's
    state is still the one before the call. *)
Lemma response_committed_before_state :
  ~ answer_is_atomic started2 42 "answer_yes_1" 100.
Proof.
  intros [H _].
  apply (H (with_responses
              (fun l => l ++ [Response.mk 1 1 "yes" 100 (Some "session-1")]) started2)).
  - vm_compute. left. reflexivity.
  - vm_compute. discriminate.
  - vm_compute. reflexivity.
Qed.

(** A question id that is not in the table: the response row is already
    committed when the lookup of the next question raises. *)
Example unknown_question_id_partial_write :
  run (handle_answer_callback 42 "answer_yes_999" 100) started2
  = (let db1 := with_responses
                  (fun l => l ++ [Response.mk 1 999 "yes" 100 (Some "session-1")])
                  started2 in
     (mkStore db1 [db1], Raise AttributeError)).
Proof. vm_compute. reflexivity. Qed.

(** C2, amended. Callback data that does not parse, and a submission
    stopped by the mode guard, commit nothing.  An accepted submission (mode
    "journaling", user row and question row present) completes, and then both
    the response row (unless skipped) and the state update are persisted: by
    two successive commits, the response row first and the state update
    second; a skip has the state commit alone. *)
Theorem answer_commits (db : DB) (tid : Z) (cb : string) (now : Z) :
  (forall e : exn,
      parse_callback cb = Raise e ->
      run (handle_answer_callback tid cb now) db = (mkStore db [], Raise e))
  /\ (forall (q : Z) (a : string),
        parse_callback cb = Ok (q, a) ->
        match find_state db tid with
        | None => True
        | Some conv => ConversationState.state conv <> Some "journaling"
        end ->
        run (handle_answer_callback tid cb now) db = (mkStore db [], Ok SessionExpired))
  /\ (forall (q : Z) (a : string) (conv : ConversationState.t) (cq : Question.t)
             (user : User.t),
        parse_callback cb = Ok (q, a) ->
        find_state db tid = Some conv ->
        ConversationState.state conv = Some "journaling" ->
        find_question db q = Some cq ->
        find_user db tid = Some user ->
        let next := next_after db cq in
        let db1 := with_responses (fun l => l ++ [response_row user conv q a now]) db in
        run (handle_answer_callback tid cb now) db
        = if String.eqb a "skipped"
          then (mkStore (put_state (advance conv next) db)
                        [put_state (advance conv next) db], Ok (reply_after next))
          else (mkStore (put_state (advance conv next) db1)
                        [db1; put_state (advance conv next) db1],
                Ok (reply_after next))).
Proof.
  split; [|split].
  - intros e Hp. unfold run, handle_answer_callback. rewrite Hp. reflexivity.
  - intros q a Hp Hg. rewrite (handle_answer_callback_parsed tid now q cb a Hp).
    unfold run. apply handle_answer_expired. exact Hg.
  - intros q a conv cq user. apply handle_answer_callback_accepted.
Qed.

Lemma answer_commits_witness :
  log_of (handle_answer_callback 42 "answer_yes_1" 100) started2
  = [ with_responses (fun l => l ++ [Response.mk 1 1 "yes" 100 (Some "session-1")])
        started2;
      answered2 ].
Proof.
  unfold log_of.
  rewrite (proj2 (proj2 (answer_commits started2 42 "answer_yes_1" 100))
             1 "yes"
             (ConversationState.mk 42 (Some 1) (Some "session-1") (Some "journaling"))
             q_mood
             (User.mk 1 42 (Some "ann") "UTC" true)
             eq_refl eq_refl eq_refl eq_refl eq_refl).
  vm_compute. reflexivity.
Defined.

(** C3. In mode "journaling", for a question of the catalog: the skip
    sentinel (callback data of a skip button, which parses to the answer
    "skipped") writes no response row; any other answer appends exactly one
    row, with the user, the question id, the answer text, the session id of
    the state and the time of the call; either way the state moves to the
    next question, or to completion when there is none, and the reply is the
    next question or the completion message.  In the two-question scenario
    (answer, then skip) exactly one response row exists at the end. *)
Theorem answer_recorded_unless_skipped :
  (forall (db : DB) (tid : Z) (cb : string) (now q : Z) (a : string)
          (conv : ConversationState.t) (cq : Question.t) (user : User.t),
      parse_callback cb = Ok (q, a) ->
      find_state db tid = Some conv ->
      ConversationState.state conv = Some "journaling" ->
      find_question db q = Some cq ->
      find_user db tid = Some user ->
      let h := handle_answer_callback tid cb now in
      (Py.startswith cb "skip_" = true \/ a = "skipped" ->
       responses (db_after h db) = responses db)
      /\ (a <> "skipped" ->
          responses (db_after h db)
          = responses db
              ++ [ Response.mk (User.id user) q a now (ConversationState.session_id conv) ])
      /\ find_state (db_after h db) tid = Some (advance conv (next_after db cq))
      /\ result_of h db = Ok (reply_after (next_after db cq)))
  /\ (db_after (do! start_command 42 (Some "ann") in
                do! journal_command 42 (Some "ann") "session-1" in
                do! handle_answer_callback 42 "answer_yes_1" 100 in
                handle_answer_callback 42 "skip_2" 200) catalog2 = finished2
      /\ responses finished2 = [ Response.mk 1 1 "yes" 100 (Some "session-1") ]
      /\ find_state finished2 42
         = Some (ConversationState.mk 42 None (Some "session-1") None)).
Proof.
  split; [|vm_compute; repeat split].
  intros db tid cb now q a conv cq user Hp Hst Hj Hq Hu h.
  unfold db_after, result_of. subst h.
  rewrite (handle_answer_callback_accepted db tid cb now q a conv cq user Hp Hst Hj Hq Hu).
  destruct (String.eqb_spec a "skipped") as [->|Ha]; simpl.
  - repeat split.
    + intros _. apply put_state_tables.
    + intros Hne. contradiction.
    + apply find_state_put_advance. exact Hst.
  - repeat split.
    + intros [Hs|Hs]; [|contradiction].
      exfalso. apply Ha. exact (skip_prefix_skipped cb q a Hs Hp).
    + intros _. destruct (put_state_tables (advance conv (next_after db cq))
        (with_responses (fun l => l ++ [response_row user conv q a now]) db))
        as (_ & _ & _ & ->). reflexivity.
    + apply find_state_put_advance. exact Hst.
Qed.

Lemma answer_recorded_unless_skipped_witness :
  responses (db_after (handle_answer_callback 42 "answer_yes_1" 100) started2)
  = [ Response.mk 1 1 "yes" 100 (Some "session-1") ].
Proof.
  refine (proj1 (proj2 (proj1 answer_recorded_unless_skipped
            started2 42 "answer_yes_1" 100 1 "yes"
            (ConversationState.mk 42 (Some 1) (Some "session-1") (Some "journaling"))
            q_mood (User.mk 1 42 (Some "ann") "UTC" true)
            eq_refl eq_refl eq_refl eq_refl eq_refl)) _).
  discriminate.
Defined.

(** C4, as the specification states it, fails: skipping the last question
    completes the session, and the stored session id is still "session-1". *)
Lemma completion_keeps_session_id :
  ~ completion_clears_state answered2 42 "skip_2" 200.
Proof.
  intros H.
  destruct (H 2 "skipped"
              (ConversationState.mk 42 (Some 2) (Some "session-1") (Some "journaling"))
              q_gratitude (User.mk 1 42 (Some "ann") "UTC" true)
              eq_refl eq_refl eq_refl eq_refl eq_refl eq_refl) as [_ Hst].
  vm_compute in Hst. discriminate Hst.
Qed.

(** C4, amended. When the answer to the last remaining question is accepted
    the resulting state has current question null and mode null, its session
    id is the one the session had, and the completion message is returned
    instead of a next question. *)
Theorem completion_resets_question_and_mode (db : DB) (tid : Z) (cb : string)
    (now q : Z) (a : string) (conv : ConversationState.t) (cq : Question.t)
    (user : User.t) :
  parse_callback cb = Ok (q, a) ->
  find_state db tid = Some conv ->
  ConversationState.state conv = Some "journaling" ->
  find_user db tid = Some user ->
  find_question db q = Some cq ->
  next_after db cq = None ->
  let h := handle_answer_callback tid cb now in
  result_of h db = Ok SessionComplete
  /\ find_state (db_after h db) tid
     = Some (ConversationState.mk tid None (ConversationState.session_id conv) None).
Proof.
  intros Hp Hst Hj Hu Hq Hnext h. unfold db_after, result_of. subst h.
  rewrite (handle_answer_callback_accepted db tid cb now q a conv cq user Hp Hst Hj Hq Hu).
  rewrite Hnext. pose proof (find_state_key _ _ _ Hst) as Hkey.
  destruct (String.eqb a "skipped"); cbn [fst snd persisted]; (split; [reflexivity|]).
  - rewrite (find_state_put_advance db tid conv None Hst). simpl. rewrite Hkey. reflexivity.
  - rewrite (find_state_put_advance _ tid conv None) by exact Hst.
    simpl. rewrite Hkey. reflexivity.
Qed.

Lemma completion_resets_question_and_mode_witness :
  result_of (handle_answer_callback 42 "skip_2" 200) answered2 = Ok SessionComplete
  /\ find_state (db_after (handle_answer_callback 42 "skip_2" 200) answered2) 42
     = Some (ConversationState.mk 42 None (Some "session-1") None).
Proof.
  exact (completion_resets_question_and_mode answered2 42 "skip_2" 200 2 "skipped"
           (ConversationState.mk 42 (Some 2) (Some "session-1") (Some "journaling"))
           q_gratitude (User.mk 1 42 (Some "ann") "UTC" true)
           eq_refl eq_refl eq_refl eq_refl eq_refl eq_refl).
Defined.

End Engine.

(** ** The invariant of the conversation state *)

Section Invariant.
Import Bot.
Variable P : DB -> Prop.

Lemma keeps_ret {A} (a : A) : keeps P (ret a).
Proof. intros s H1 H2. split; assumption. Qed.

Lemma keeps_raise {A} (e : exn) : keeps P (@raise A e).
Proof. intros s H1 H2. split; assumption. Qed.

Lemma keeps_deref {A} (o : option A) (e : exn) : keeps P (deref o e).
Proof. destruct o; [apply keeps_ret|apply keeps_raise]. Qed.

Lemma keeps_bind {A B} (m : M A) (k : A -> M B) :
  keeps P m -> (forall a, keeps P (k a)) -> keeps P (bind m k).
Proof.
  intros Hm Hk s H1 H2. unfold bind.
  destruct (Hm s H1 H2) as [H3 H4]. destruct (m s) as [s' [a|e]]; simpl in *.
  - apply Hk; assumption.
  - split; assumption.
Qed.

Lemma keeps_bind_read {B} (k : DB -> M B) :
  (forall db, P db -> keeps P (k db)) -> keeps P (bind read k).
Proof. intros Hk s H1 H2. unfold bind, read. apply Hk; assumption. Qed.

Lemma keeps_commit (f : DB -> DB) :
  (forall db, P db -> P (f db)) -> keeps P (commit f).
Proof.
  intros Hf s H1 H2. unfold commit. simpl. split; [apply Hf, H1|].
  apply Forall_app. split; [exact H2|]. constructor; [apply Hf, H1|constructor].
Qed.

Lemma keeps_run {A} (m : M A) (db : DB) :
  keeps P m -> P db -> P (db_after m db) /\ Forall P (log_of m db).
Proof. intros Hm Hdb. apply (Hm (mkStore db [])); [exact Hdb|constructor]. Qed.

End Invariant.

Ltac keeps_step :=
  lazymatch goal with
  | |- keeps _ (ret _) => apply keeps_ret
  | |- keeps _ (raise _) => apply keeps_raise
  | |- keeps _ (deref _ _) => apply keeps_deref
  | |- keeps _ (bind read _) => apply keeps_bind_read; intros ? ?
  | |- keeps _ (bind _ _) => apply keeps_bind; [|intros ?]
  | |- keeps _ (commit _) => apply keeps_commit; intros ? ?
  | |- keeps _ (match ?x with _ => _ end) => destruct x eqn:?
  end.

Section InvariantProof.
Import Bot.

Lemma Forall_update_first {A} (Q : A -> Prop) (p : A -> bool) (f : A -> A) (l : list A) :
  Forall Q l -> (forall x, Q x -> Q (f x)) -> Forall Q (update_first p f l).
Proof.
  intros Hl Hf. induction Hl as [|x l Hx Hl IH]; simpl; [constructor|].
  destruct (p x); constructor; auto.
Qed.

Lemma invariant_put_state (c : ConversationState.t) (db : DB) :
  state_ok c -> invariant db -> invariant (put_state c db).
Proof.
  intros Hc Hdb. unfold put_state, invariant in *.
  destruct (find_state db _); simpl.
  - apply Forall_update_first; [exact Hdb|intros; exact Hc].
  - apply Forall_app. split; [exact Hdb|]. constructor; [exact Hc|constructor].
Qed.

Lemma state_ok_find (db : DB) (tid : Z) (conv : ConversationState.t) :
  invariant db -> find_state db tid = Some conv -> state_ok conv.
Proof.
  unfold invariant, find_state. intros Hdb H. apply find_some in H.
  rewrite Forall_forall in Hdb. apply Hdb, list_elem_of_In, H.
Qed.

Lemma state_ok_idle (tid : Z) (sid : option string) :
  state_ok (ConversationState.mk tid None sid None).
Proof. unfold state_ok. simpl. split; [discriminate|]. intros [H _]. contradiction. Qed.

Lemma state_ok_advance (conv : ConversationState.t) (next : option Question.t) :
  state_ok conv -> ConversationState.state conv = Some "journaling" ->
  state_ok (advance conv next).
Proof.
  intros Hc Hj. destruct next as [nq|]; [|apply state_ok_idle].
  unfold state_ok in *. simpl. split; [|intros _; exact Hj].
  intros _. split; [discriminate|]. apply Hc, Hj.
Qed.

Lemma keeps_get_or_create_user (tid : Z) (username : option string) :
  keeps invariant (get_or_create_user tid username).
Proof. unfold get_or_create_user. repeat keeps_step. assumption. Qed.

Lemma keeps_get_next_question (q : option Z) : keeps invariant (get_next_question q).
Proof. unfold get_next_question. repeat keeps_step. Qed.

Lemma keeps_journal_command (tid : Z) (username : option string) (uuid : string) :
  keeps invariant (journal_command tid username uuid).
Proof.
  unfold journal_command.
  apply keeps_bind; [apply keeps_get_or_create_user|intros user].
  apply keeps_bind; [unfold attr; repeat keeps_step|intros active].
  destruct (negb active); [apply keeps_ret|].
  apply keeps_bind; [apply keeps_get_next_question|intros [first|]]; [|apply keeps_ret].
  unfold update_conversation_state. repeat keeps_step;
    (apply invariant_put_state; [|assumption]);
    unfold state_ok; simpl; (split; [intros _; split; discriminate|reflexivity]).
Qed.

Lemma keeps_handle_answer (tid q now : Z) (a : string) :
  keeps invariant (handle_answer tid q a now).
Proof.
  unfold handle_answer. apply keeps_bind_read. intros db Hdb.
  destruct (find_state db tid) as [conv|] eqn:Hst; [|apply keeps_ret].
  destruct (bool_decide_reflect (ConversationState.state conv = Some "journaling"))
    as [Hj|Hj]; simpl; [|apply keeps_ret].
  pose proof (state_ok_find db tid conv Hdb Hst) as Hok.
  apply keeps_bind.
  { destruct (negb (String.eqb a "skipped")); repeat keeps_step. assumption. }
  intros _. apply keeps_bind; [apply keeps_get_next_question|].
  intros [nq|]; repeat keeps_step.
  - apply invariant_put_state; [|assumption].
    apply (state_ok_advance conv (Some nq) Hok Hj).
  - apply invariant_put_state; [|assumption]. apply state_ok_idle.
Qed.

Lemma keeps_handle_answer_callback (tid now : Z) (cb : string) :
  keeps invariant (handle_answer_callback tid cb now).
Proof.
  unfold handle_answer_callback.
  destruct (parse_callback cb) as [[q a]|e]; [apply keeps_handle_answer|apply keeps_raise].
Qed.

Lemma keeps_add_user_schedule (tid : Z) (times : list string) (tz : option string) :
  keeps invariant (Scheduler.add_user_schedule tid times tz).
Proof.
  unfold Scheduler.add_user_schedule. repeat keeps_step.
  unfold invariant in *. simpl. destruct (Scheduler.truthy tz); assumption.
Qed.

Lemma keeps_remove_user_schedule (tid : Z) (time : option string) :
  keeps invariant (Scheduler.remove_user_schedule tid time).
Proof.
  unfold Scheduler.remove_user_schedule. repeat keeps_step; assumption.
Qed.

Lemma keeps_handle_schedule_callback (tid : Z) (cb : string) :
  keeps invariant (handle_schedule_callback tid cb).
Proof.
  unfold handle_schedule_callback.
  destruct (String.eqb cb "schedule_view").
  { apply keeps_bind_read. intros db Hdb.
    destruct (match find_user db tid with Some u => _ | None => _ end); apply keeps_ret. }
  destruct (String.eqb cb "schedule_custom"); [apply keeps_ret|].
  apply keeps_bind; [apply keeps_deref|intros time].
  apply keeps_bind; [apply keeps_add_user_schedule|intros _; apply keeps_ret].
Qed.

Lemma keeps_handle_settings_callback (tid : Z) (cb : string) :
  keeps invariant (handle_settings_callback tid cb).
Proof.
  unfold handle_settings_callback. apply keeps_bind_read. intros db Hdb.
  repeat (lazymatch goal with
          | |- keeps _ (if ?c then _ else _) => destruct c
          | _ => keeps_step
          end); assumption.
Qed.

Lemma keeps_button_callback (tid now : Z) (cb : string) :
  keeps invariant (button_callback tid cb now).
Proof.
  unfold button_callback.
  destruct (_ || _); [apply keeps_handle_answer_callback|].
  destruct (Py.startswith cb "schedule_"); [apply keeps_handle_schedule_callback|].
  destruct (Py.startswith cb "settings_"); [apply keeps_handle_settings_callback|].
  apply keeps_ret.
Qed.

Lemma keeps_perform (op : operation) : keeps invariant (perform op).
Proof.
  destruct op; simpl.
  - apply keeps_bind; [|intros; apply keeps_ret].
    unfold start_command. apply keeps_bind; [apply keeps_get_or_create_user|].
    intros; apply keeps_ret.
  - apply keeps_bind; [apply keeps_journal_command|intros; apply keeps_ret].
  - apply keeps_bind; [apply keeps_button_callback|intros; apply keeps_ret].
  - apply keeps_bind; [apply keeps_handle_answer_callback|intros; apply keeps_ret].
  - apply keeps_bind; [apply keeps_handle_schedule_callback|intros; apply keeps_ret].
  - apply keeps_bind; [apply keeps_handle_settings_callback|intros; apply keeps_ret].
  - apply keeps_bind; [|intros; apply keeps_ret].
    unfold get_conversation_state. repeat keeps_step.
    unfold invariant in *. simpl. apply Forall_app. split; [assumption|].
    constructor; [apply state_ok_idle|constructor].
  - apply keeps_add_user_schedule.
  - apply keeps_remove_user_schedule.
  - unfold Questions.init_questions. apply keeps_bind_read. intros db Hdb.
    destruct (0 <? _); repeat keeps_step. assumption.
Qed.

(** C5. Every operation preserves the invariant of the conversation state
    rows (mode "journaling" iff the current question and the session id are
    both non-null), in the database it leaves and in every snapshot it
    commits; hence the invariant holds of every row of every store reached
    by any sequence of operations from a store without state rows. *)
Theorem journaling_iff_question_and_session :
  (forall (db : DB) (op : operation),
      invariant db ->
      invariant (db_after (perform op) db)
      /\ Forall invariant (log_of (perform op) db))
  /\ (forall db : DB,
        reachable db ->
        forall c : ConversationState.t,
          In c (conversation_states db) ->
          (ConversationState.state c = Some "journaling"
           <-> ConversationState.current_question_id c <> None
               /\ ConversationState.session_id c <> None)).
Proof.
  assert (Hstep : forall db op, invariant db ->
            invariant (db_after (perform op) db)
            /\ Forall invariant (log_of (perform op) db)).
  { intros db op Hdb. apply keeps_run; [apply keeps_perform|exact Hdb]. }
  split; [exact Hstep|].
  intros db Hr. assert (Hinv : invariant db).
  { induction Hr as [db Hnil|db op Hr IH].
    - unfold invariant. rewrite Hnil. constructor.
    - apply Hstep, IH. }
  intros c Hc. unfold invariant in Hinv. rewrite Forall_forall in Hinv.
  apply Hinv, list_elem_of_In, Hc.
Qed.

Lemma journaling_iff_question_and_session_witness :
  invariant (db_after (perform (OpAnswer 42 "answer_yes_1" 100)) started2).
Proof.
  refine (proj1 (proj1 journaling_iff_question_and_session started2
                   (OpAnswer 42 "answer_yes_1" 100) _)).
  unfold invariant. simpl. constructor; [|constructor].
  unfold state_ok. simpl. split; [intros _; split; discriminate|reflexivity].
Defined.

End InvariantProof.

(** ** The schedule registry *)

Section Registry.
Import Scheduler.

Lemma filter_other_then_own (uid : Z) (l : list Schedule.t) :
  filter (fun s => Schedule.user_id s = uid)
         (filter (fun s => Schedule.user_id s <> uid) l) = [].
Proof.
  induction l as [|x l IH]; [reflexivity|].
  rewrite (filter_cons (fun s => Schedule.user_id s <> uid)).
  destruct (decide (Schedule.user_id x <> uid)) as [Hne|He]; [|exact IH].
  rewrite filter_cons. destruct (decide (Schedule.user_id x = uid)); [contradiction|exact IH].
Qed.

Lemma filter_other_then_other (uid uid' : Z) (l : list Schedule.t) :
  uid' <> uid ->
  filter (fun s => Schedule.user_id s = uid')
         (filter (fun s => Schedule.user_id s <> uid) l)
  = filter (fun s => Schedule.user_id s = uid') l.
Proof.
  intros Hne. induction l as [|x l IH]; [reflexivity|].
  rewrite (filter_cons (fun s => Schedule.user_id s <> uid)).
  rewrite (filter_cons (fun s => Schedule.user_id s = uid') x l).
  destruct (decide (Schedule.user_id x <> uid)) as [Hx|Hx].
  - rewrite filter_cons. destruct (decide (Schedule.user_id x = uid')); [f_equal|]; exact IH.
  - destruct (decide (Schedule.user_id x = uid')) as [He|_]; [|exact IH].
    exfalso. apply Hx. congruence.
Qed.

Lemma filter_own_new (uid : Z) (times : list string) :
  filter (fun s => Schedule.user_id s = uid)
         (map (fun t => Schedule.mk uid t true) times)
  = map (fun t => Schedule.mk uid t true) times.
Proof.
  induction times as [|t times IH]; [reflexivity|].
  simpl. rewrite filter_cons. destruct (decide _) as [_|Hne]; [f_equal; exact IH|].
  exfalso. apply Hne. reflexivity.
Qed.

Lemma filter_other_new (uid uid' : Z) (times : list string) :
  uid' <> uid ->
  filter (fun s => Schedule.user_id s = uid')
         (map (fun t => Schedule.mk uid t true) times) = [].
Proof.
  intros Hne. induction times as [|t times IH]; [reflexivity|].
  simpl. rewrite filter_cons. destruct (decide _) as [He|_]; [|exact IH].
  simpl in He. congruence.
Qed.

(** An update of user rows that keeps the keys keeps the row that a chat id
    finds, up to the update. *)
Lemma find_user_update_first (p : User.t -> bool) (f : User.t -> User.t)
    (tid : Z) (l : list User.t) (u : User.t) :
  (forall x, User.telegram_id (f x) = User.telegram_id x) ->
  find (fun x => User.telegram_id x =? tid) l = Some u ->
  exists u', find (fun x => User.telegram_id x =? tid) (update_first p f l) = Some u'
             /\ (u' = u \/ u' = f u).
Proof.
  intros Hf. induction l as [|y l IH]; simpl; [discriminate|].
  destruct (p y) eqn:Hp; simpl.
  - rewrite Hf. destruct (User.telegram_id y =? tid).
    + intros [= ->]. eauto.
    + intros H. eauto.
  - destruct (User.telegram_id y =? tid); [intros [= ->]; eauto|exact IH].
Qed.

Lemma add_user_schedule_run (db : DB) (tid : Z) (times : list string)
    (tz : option string) (user : User.t) :
  find_user db tid = Some user ->
  let uid := User.id user in
  let db1 := if truthy tz then set_timezone uid (default "" tz) db else db in
  let db' := with_schedules
               (fun l => l ++ map (fun t => Schedule.mk uid t true) times)
               (delete_schedules_of uid db1) in
  run (add_user_schedule tid times tz) db = (mkStore db' [db'], Ok tt).
Proof.
  intros Hu uid db1 db'. unfold run, add_user_schedule, bind, read. simpl.
  rewrite Hu. reflexivity.
Qed.

Lemma find_user_after_add (db : DB) (tid : Z) (times : list string)
    (tz : option string) (user : User.t) :
  find_user db tid = Some user ->
  exists user', find_user (db_after (add_user_schedule tid times tz) db) tid = Some user'
                /\ User.id user' = User.id user.
Proof.
  intros Hu. unfold db_after. rewrite (add_user_schedule_run db tid times tz user Hu).
  simpl. unfold find_user. simpl. destruct (truthy tz); simpl.
  - destruct (find_user_update_first
                (fun u => User.id u =? User.id user)
                (fun u => User.mk (User.id u) (User.telegram_id u) (User.username u)
                                  (default "" tz) (User.is_active u))
                tid (users db) user (fun _ => eq_refl) Hu) as (u' & Hf & [->| ->]); eauto.
  - eauto.
Qed.

Lemma schedules_after_add (db : DB) (tid : Z) (times : list string)
    (tz : option string) (user : User.t) :
  find_user db tid = Some user ->
  let db' := db_after (add_user_schedule tid times tz) db in
  schedules_of db' (User.id user)
  = map (fun t => Schedule.mk (User.id user) t true) times
  /\ (forall uid, uid <> User.id user -> schedules_of db' uid = schedules_of db uid).
Proof.
  intros Hu db'. subst db'. unfold db_after.
  rewrite (add_user_schedule_run db tid times tz user Hu). simpl.
  unfold schedules_of. simpl.
  assert (Hs : schedules (if truthy tz
                          then set_timezone (User.id user) (default "" tz) db else db)
               = schedules db) by (destruct (truthy tz); reflexivity).
  rewrite Hs. split.
  - rewrite filter_app, filter_other_then_own, filter_own_new. reflexivity.
  - intros uid Hne. rewrite filter_app, filter_other_then_other, filter_other_new by exact Hne.
    apply app_nil_r.
Qed.

Lemma get_user_schedules_after_add (db : DB) (tid : Z) (times : list string)
    (tz : option string) (user : User.t) :
  find_user db tid = Some user ->
  run (get_user_schedules tid) (db_after (add_user_schedule tid times tz) db)
  = (mkStore (db_after (add_user_schedule tid times tz) db) [],
     Ok (map (fun t => (t, true)) times)).
Proof.
  intros Hu. destruct (find_user_after_add db tid times tz user Hu) as (u' & Hu' & Hid).
  unfold run, get_user_schedules, bind, read. simpl. rewrite Hu'. unfold ret.
  rewrite Hid, (proj1 (schedules_after_add db tid times tz user Hu)).
  rewrite map_map. reflexivity.
Qed.

(** C6, as the specification states it, fails: a time given twice is
    stored twice and listed twice. *)
Lemma repeated_time_listed_twice :
  ~ schedules_replaced_deduplicated registered 42 ["09:00"; "09:00"] (Some "UTC").
Proof.
  intros H. destruct (H (User.mk 1 42 (Some "ann") "UTC" true) eq_refl)
    as (listed & Hres & Hnd & _).
  vm_compute in Hres. injection Hres as <-.
  simpl in Hnd. apply NoDup_cons in Hnd. destruct Hnd as [Hnot _].
  apply Hnot. left.
Qed.

(** C6, amended. For an existing user, [add_user_schedule] replaces the
    user's whole schedule set by one enabled row per element of the given
    list, in order and without deduplication, and leaves the schedules of
    everyone else alone; a non-empty timezone is stored on the user's row.
    A following [get_user_schedules] returns exactly the given list, each
    entry enabled; so the listing has no repeated time exactly when the input
    has none, and after a second call only the second list is listed,
    whatever the two lists share. *)
Theorem schedules_replaced_verbatim (db : DB) (tid : Z) (times : list string)
    (tz : option string) (user : User.t) :
  find_user db tid = Some user ->
  let db' := db_after (add_user_schedule tid times tz) db in
  result_of (get_user_schedules tid) db' = Ok (map (fun t => (t, true)) times)
  /\ (NoDup (map fst (map (fun t : string => (t, true)) times)) <-> NoDup times)
  /\ (forall uid, uid <> User.id user -> schedules_of db' uid = schedules_of db uid)
  /\ (forall z, tz = Some z -> z <> "" -> NoDup (map User.id (users db)) ->
        exists user', find_user db' tid = Some user'
                      /\ User.id user' = User.id user /\ User.timezone user' = z)
  /\ (forall (times2 : list string) (tz2 : option string),
        result_of (get_user_schedules tid)
                  (db_after (add_user_schedule tid times2 tz2) db')
        = Ok (map (fun t => (t, true)) times2)).
Proof.
  intros Hu db'. repeat split.
  - unfold result_of. subst db'. rewrite (get_user_schedules_after_add db tid times tz user Hu).
    reflexivity.
  - rewrite map_map. simpl. rewrite map_id. auto.
  - rewrite map_map. simpl. rewrite map_id. auto.
  - apply (proj2 (schedules_after_add db tid times tz user Hu)).
  - intros z -> Hz Hnd. subst db'. unfold db_after.
    rewrite (add_user_schedule_run db tid times (Some z) user Hu). simpl.
    destruct (String.eqb_spec z "") as [|_]; [contradiction|]. simpl.
    unfold find_user in *. simpl.
    exists (User.mk (User.id user) (User.telegram_id user) (User.username user) z
                    (User.is_active user)).
    split; [|split; reflexivity].
    revert Hu Hnd. generalize (users db). intros l.
    induction l as [|y l IH]; simpl; [discriminate|].
    intros Hfind Hnd. apply NoDup_cons in Hnd. destruct Hnd as [Hy Hnd].
    destruct (User.telegram_id y =? tid) eqn:Ht.
    + injection Hfind as ->. rewrite Z.eqb_refl. simpl. rewrite Ht. reflexivity.
    + destruct (Z.eqb_spec (User.id y) (User.id user)) as [He|_].
      * exfalso. apply Hy. apply find_some in Hfind. destruct Hfind as [Hin _].
        rewrite He. apply list_elem_of_In, in_map, Hin.
      * simpl. rewrite Ht. apply IH; assumption.
  - intros times2 tz2. unfold result_of.
    destruct (find_user_after_add db tid times tz user Hu) as (u' & Hu' & _).
    fold db' in Hu'. rewrite (get_user_schedules_after_add db' tid times2 tz2 u' Hu').
    reflexivity.
Qed.

Lemma schedules_replaced_verbatim_witness :
  result_of (get_user_schedules 42)
            (db_after (add_user_schedule 42 ["09:00"; "20:00"] (Some "UTC")) registered)
  = Ok [("09:00", true); ("20:00", true)].
Proof.
  exact (proj1 (schedules_replaced_verbatim registered 42 ["09:00"; "20:00"] (Some "UTC")
                  (User.mk 1 42 (Some "ann") "UTC" true) eq_refl)).
Defined.

Example overlapping_lists_round_trip :
  result_of (do! add_user_schedule 42 ["09:00"; "14:00"] (Some "UTC") in
             do! add_user_schedule 42 ["09:00"; "20:00"] (Some "UTC") in
             get_user_schedules 42) registered
  = Ok [("09:00", true); ("20:00", true)].
Proof. vm_compute. reflexivity. Qed.

(** C8, as the specification states it, fails: "banana" is no time of day,
    and the registry stores it without any error. *)
Lemma malformed_time_persisted :
  ~ invalid_schedule_rejected sample_zones registered 42 ["banana"] None.
Proof.
  intros H.
  destruct (H (User.mk 1 42 (Some "ann") "UTC" true) eq_refl) as [[e He] _].
  - left. exists "banana". split; [left; reflexivity|reflexivity].
  - vm_compute in He. discriminate He.
Qed.

Example malformed_input_stored :
  run (add_user_schedule 42 ["banana"] (Some "Mars/Olympus")) registered
  = (let db' := mkDB [User.mk 1 42 (Some "ann") "Mars/Olympus" true]
                     [Schedule.mk 1 "banana" true] [] [] [] in
     (mkStore db' [db'], Ok tt)).
Proof. vm_compute. reflexivity. Qed.

Lemma delete_absent_job (jobs : gmap string Job) (id : string) :
  match jobs !! id with
  | Some _ => delete id jobs
  | None => jobs
  end = delete id jobs.
Proof.
  destruct (jobs !! id) eqn:E; [reflexivity|]. symmetry. apply delete_id. exact E.
Qed.

(** C8, amended. Nothing is validated at the registry: for an existing user
    [add_user_schedule] returns normally on every input and persists one row
    per given string exactly as given, valid time of day or not.  The timer
    engine's [add_job] never raises: when the time string is not two integers
    around one ":" or the zone name is unknown it leaves the job table as it
    is, and when the two integers are out of range the key of that input
    holds no job afterwards. *)
Theorem schedule_input_not_validated (known_zone : string -> bool) (db : DB)
    (tid : Z) (times : list string) (tz : option string) (user : User.t)
    (jobs : gmap string Job) (time_str timezone_str : string) :
  find_user db tid = Some user ->
  (result_of (add_user_schedule tid times tz) db = Ok tt
   /\ schedules_of (db_after (add_user_schedule tid times tz) db) (User.id user)
      = map (fun t => Schedule.mk (User.id user) t true) times)
  /\ (parse_time time_str = None \/ known_zone timezone_str = false ->
      add_job known_zone jobs tid time_str timezone_str = jobs)
  /\ (forall hour minute,
        parse_time time_str = Some (hour, minute) ->
        known_zone timezone_str = true ->
        cron_fields_ok hour minute = false ->
        add_job known_zone jobs tid time_str timezone_str
        = delete (job_id tid time_str) jobs).
Proof.
  intros Hu. repeat split.
  - unfold result_of. rewrite (add_user_schedule_run db tid times tz user Hu). reflexivity.
  - apply (proj1 (schedules_after_add db tid times tz user Hu)).
  - intros [Hp|Hz]; unfold add_job.
    + rewrite Hp. reflexivity.
    + destruct (parse_time time_str) as [[h m]|]; [|reflexivity]. rewrite Hz. reflexivity.
  - intros hour minute Hp Hz Hc. unfold add_job. rewrite Hp, Hz, Hc. simpl.
    apply delete_absent_job.
Qed.

Lemma schedule_input_not_validated_witness :
  schedules_of (db_after (add_user_schedule 42 ["25:99"; "banana"] None) registered) 1
  = [Schedule.mk 1 "25:99" true; Schedule.mk 1 "banana" true]
  /\ add_job sample_zones ∅ 42 "banana" "UTC" = ∅
  /\ add_job sample_zones ∅ 42 "25:99" "UTC" = delete (job_id 42 "25:99") ∅.
Proof.
  pose proof (schedule_input_not_validated sample_zones registered 42
                ["25:99"; "banana"] None (User.mk 1 42 (Some "ann") "UTC" true)
                ∅ "banana" "UTC" eq_refl) as (H1 & H2 & _).
  pose proof (schedule_input_not_validated sample_zones registered 42
                ["25:99"; "banana"] None (User.mk 1 42 (Some "ann") "UTC" true)
                ∅ "25:99" "UTC" eq_refl) as (_ & _ & H3).
  split; [exact (proj2 H1)|]. split.
  - apply H2. left. reflexivity.
  - apply (H3 25 99); reflexivity.
Defined.

Example valid_time_registers_job :
  add_job sample_zones ∅ 42 "09:00" "America/New_York"
  = {[ "journal_42_09:00" := mkJob 42 9 0 "America/New_York" ]}.
Proof. vm_compute. reflexivity. Qed.

End Registry.

(** ** Erasing a user's data *)

Section Erasure.
Import Bot.

Lemma confirm_clear_run (db : DB) (tid : Z) (user : User.t) :
  find_user db tid = Some user ->
  run (handle_settings_callback tid "confirm_clear_yes") db
  = (mkStore (delete_user (User.id user) db) [delete_user (User.id user) db],
     Ok DataCleared).
Proof.
  intros Hu. unfold run, handle_settings_callback, bind, read. simpl.
  rewrite Hu. reflexivity.
Qed.

(** Without a user row the confirmation commits nothing and raises nothing. *)
Lemma confirm_clear_absent (db : DB) (tid : Z) :
  find_user db tid = None ->
  run (handle_settings_callback tid "confirm_clear_yes") db
  = (mkStore db [], Ok DataCleared).
Proof.
  intros Hu. unfold run, handle_settings_callback, bind, read. simpl.
  rewrite Hu. reflexivity.
Qed.

Lemma filter_out_all {A} (key : A -> Z) (uid : Z) (l : list A) :
  filter (fun x => key x = uid) (filter (fun x => key x <> uid) l) = [].
Proof.
  induction l as [|x l IH]; [reflexivity|].
  rewrite (filter_cons (fun x => key x <> uid)).
  destruct (decide (key x <> uid)) as [Hne|He]; [|exact IH].
  rewrite filter_cons. destruct (decide (key x = uid)); [contradiction|exact IH].
Qed.

(** The user row, the schedules and the responses of the user are gone; the
    conversation states are the table as it was. *)
Lemma erase_removes_cascaded_rows (db : DB) (tid : Z) (user : User.t) :
  find_user db tid = Some user ->
  let db' := db_after (handle_settings_callback tid "confirm_clear_yes") db in
  responses_of db' (User.id user) = []
  /\ schedules_of db' (User.id user) = []
  /\ (forall u, In u (users db') -> User.id u <> User.id user)
  /\ conversation_states db' = conversation_states db.
Proof.
  intros Hu db'. subst db'. unfold db_after. rewrite (confirm_clear_run db tid user Hu).
  simpl. repeat split.
  - apply (filter_out_all Response.user_id).
  - apply (filter_out_all Schedule.user_id).
  - intros u Hin. apply list_elem_of_In, list_elem_of_filter in Hin. apply Hin.
Qed.

Lemma find_user_deleted (l : list User.t) (tid : Z) (user : User.t) :
  NoDup (map User.telegram_id l) ->
  find (fun u => User.telegram_id u =? tid) l = Some user ->
  find (fun u => User.telegram_id u =? tid)
       (filter (fun u => User.id u <> User.id user) l) = None.
Proof.
  intros Hnd Hf. apply find_some in Hf. destruct Hf as [Hin Ht]. apply Z.eqb_eq in Ht.
  destruct (find _ (filter _ l)) as [u|] eqn:E; [|reflexivity].
  exfalso. apply find_some in E. destruct E as [Hu Hut]. apply Z.eqb_eq in Hut.
  apply list_elem_of_In, list_elem_of_filter in Hu. destruct Hu as [Hid Hu].
  apply Hid. f_equal.
  revert Hnd Hin Hu. clear Hid. induction l as [|y l IH]; simpl; [contradiction|].
  intros Hnd [->|Hin] Hu; apply NoDup_cons in Hnd; destruct Hnd as [Hy Hnd];
    apply elem_of_cons in Hu; destruct Hu as [->|Hu]; try reflexivity.
  - exfalso. apply Hy. rewrite Ht, <- Hut. apply list_elem_of_In, in_map, list_elem_of_In, Hu.
  - exfalso. apply Hy. rewrite Hut, <- Ht. apply list_elem_of_In, in_map, Hin.
  - apply IH; assumption.
Qed.

(** With unique chat ids, a second confirmation in a row finds no user: it
    commits nothing and raises nothing. *)
Lemma erase_twice_noop (db : DB) (tid : Z) (user : User.t) :
  NoDup (map User.telegram_id (users db)) ->
  find_user db tid = Some user ->
  let db' := db_after (handle_settings_callback tid "confirm_clear_yes") db in
  run (handle_settings_callback tid "confirm_clear_yes") db' = (mkStore db' [], Ok DataCleared).
Proof.
  intros Hnd Hu db'. apply confirm_clear_absent. subst db'. unfold db_after.
  rewrite (confirm_clear_run db tid user Hu). simpl.
  apply find_user_deleted; assumption.
Qed.

(** C7, on the code: erasing the data of chat 42, which has a user row, a
    schedule, a response and a conversation state, removes the first three
    and leaves the conversation state row (no cascade reaches that table); a
    button of the old message then makes the answer handler raise on the
    missing user; and the dispatcher routes no callback to the confirmation
    branch. *)
Theorem erase_leaves_conversation_state :
  let db' := db_after (handle_settings_callback 42 "confirm_clear_yes") with_user_data in
  users with_user_data = [User.mk 1 42 (Some "ann") "UTC" true]
  /\ schedules with_user_data = [Schedule.mk 1 "09:00" true]
  /\ responses with_user_data = [Response.mk 1 1 "yes" 100 (Some "session-1")]
  /\ users db' = [] /\ schedules db' = [] /\ responses db' = []
  /\ conversation_states db'
     = [ConversationState.mk 42 (Some 2) (Some "session-1") (Some "journaling")]
  /\ result_of (handle_answer_callback 42 "answer_yes_2" 300) db' = Raise AttributeError
  /\ run (button_callback 42 "confirm_clear_yes" 300) with_user_data
     = (mkStore with_user_data [], Ok NoReply).
Proof. vm_compute. repeat split. Qed.

End Erasure.

(** ** The question sequence *)

Section Sequence.
Import Bot.

Lemma first_by_order_least (l : list Question.t) :
  match first_by_order l with
  | Some m => In m l /\ (forall q, In q l -> Question.order m <= Question.order q)
  | None => l = []
  end.
Proof.
  induction l as [|x l IH]; simpl; [reflexivity|].
  destruct (first_by_order l) as [m|].
  - destruct IH as [Hin Hle].
    destruct (Z.leb_spec (Question.order x) (Question.order m)).
    + split; [left; reflexivity|]. intros q [<-|Hq]; [lia|]. specialize (Hle q Hq). lia.
    + split; [right; exact Hin|]. intros q [<-|Hq]; [lia|]. apply Hle, Hq.
  - subst l. split; [left; reflexivity|]. intros q [<-|[]]. lia.
Qed.

(** The question after [cq]: an active question of the table of strictly
    greater order, and of least order among those; none exactly when no
    active question has a greater order. *)
Lemma next_after_least (db : DB) (cq : Question.t) :
  match next_after db cq with
  | Some nq =>
      In nq (questions db) /\ Question.is_active nq = true
      /\ Question.order cq < Question.order nq
      /\ (forall q, In q (questions db) -> Question.is_active q = true ->
                    Question.order cq < Question.order q ->
                    Question.order nq <= Question.order q)
  | None =>
      forall q, In q (questions db) -> Question.is_active q = true ->
                Question.order q <= Question.order cq
  end.
Proof.
  unfold next_after.
  pose proof (first_by_order_least
                (filter (fun q => Question.is_active q = true
                                  /\ Question.order cq < Question.order q)
                        (questions db))) as H.
  destruct (first_by_order _) as [nq|].
  - destruct H as [Hin Hle]. apply list_elem_of_In, list_elem_of_filter in Hin.
    destruct Hin as [[Ha Ho] Hin]. repeat split; [apply list_elem_of_In, Hin|exact Ha|exact Ho|].
    intros q Hq Hqa Hqo. apply Hle, list_elem_of_In, list_elem_of_filter.
    split; [split; assumption|apply list_elem_of_In, Hq].
  - intros q Hq Hqa. destruct (Z.le_gt_cases (Question.order q) (Question.order cq)) as [|Hlt];
      [assumption|]. exfalso.
    assert (Hin : q ∈ filter (fun q => Question.is_active q = true
                                       /\ Question.order cq < Question.order q)
                             (questions db)).
    { apply list_elem_of_filter. split; [split; assumption|apply list_elem_of_In, Hq]. }
    rewrite H in Hin. inversion Hin.
Qed.

(** X1. [get_next_question] reads only: with the id of a question row it
    returns the active question of least order above that row's order, or
    None when no active question lies above; with an id that no row has it
    raises; without an id it returns the active question of least order, or
    None when no question is active. *)
Theorem get_next_question_selects_successor (db : DB) :
  (forall qid, find_question db qid = None ->
      run (get_next_question (Some qid)) db = (mkStore db [], Raise AttributeError))
  /\ (forall qid cq, find_question db qid = Some cq ->
        exists r, run (get_next_question (Some qid)) db = (mkStore db [], Ok r)
          /\ match r with
             | Some nq =>
                 In nq (questions db) /\ Question.is_active nq = true
                 /\ Question.order cq < Question.order nq
                 /\ (forall q, In q (questions db) -> Question.is_active q = true ->
                               Question.order cq < Question.order q ->
                               Question.order nq <= Question.order q)
             | None =>
                 forall q, In q (questions db) -> Question.is_active q = true ->
                           Question.order q <= Question.order cq
             end)
  /\ (exists r, run (get_next_question None) db = (mkStore db [], Ok r)
        /\ match r with
           | Some first =>
               In first (questions db) /\ Question.is_active first = true
               /\ (forall q, In q (questions db) -> Question.is_active q = true ->
                             Question.order first <= Question.order q)
           | None => forall q, In q (questions db) -> Question.is_active q = false
           end).
Proof.
  split; [|split].
  - intros qid Hq. unfold run, get_next_question, bind, read, deref. simpl.
    rewrite Hq. reflexivity.
  - intros qid cq Hq. exists (next_after db cq). split.
    + unfold run, get_next_question, bind, read, deref. simpl. rewrite Hq. reflexivity.
    + apply next_after_least.
  - eexists. split; [reflexivity|].
    pose proof (first_by_order_least
                  (filter (fun q => Question.is_active q = true) (questions db))) as H.
    destruct (first_by_order _) as [m|].
    + destruct H as [Hin Hle]. apply list_elem_of_In, list_elem_of_filter in Hin.
      destruct Hin as [Ha Hin]. repeat split; [apply list_elem_of_In, Hin|exact Ha|].
      intros q Hq Hqa. apply Hle, list_elem_of_In, list_elem_of_filter.
      split; [exact Hqa|apply list_elem_of_In, Hq].
    + intros q Hq. destruct (Question.is_active q) eqn:Ha; [|reflexivity]. exfalso.
      assert (Hin : q ∈ filter (fun q => Question.is_active q = true) (questions db))
        by (apply list_elem_of_filter; split; [exact Ha|apply list_elem_of_In, Hq]).
      rewrite H in Hin. inversion Hin.
Qed.

Lemma get_next_question_selects_successor_witness :
  run (get_next_question (Some 9)) catalog3 = (mkStore catalog3 [], Raise AttributeError)
  /\ exists r, run (get_next_question (Some 1)) catalog3 = (mkStore catalog3 [], Ok r)
       /\ match r with
          | Some nq =>
              In nq (questions catalog3) /\ Question.is_active nq = true
              /\ Question.order q_mood < Question.order nq
              /\ (forall q, In q (questions catalog3) -> Question.is_active q = true ->
                            Question.order q_mood < Question.order q ->
                            Question.order nq <= Question.order q)
          | None =>
              forall q, In q (questions catalog3) -> Question.is_active q = true ->
                        Question.order q <= Question.order q_mood
          end.
Proof.
  split.
  - exact (proj1 (get_next_question_selects_successor catalog3) 9 eq_refl).
  - exact (proj1 (proj2 (get_next_question_selects_successor catalog3)) 1 q_mood eq_refl).
Defined.

End Sequence.

(** ** Starting and running a session *)

Section Commands.
Import Bot.

Lemma find_snoc_none {A} (p : A -> bool) (l : list A) (x : A) :
  find p l = None -> find p (l ++ [x]) = if p x then Some x else None.
Proof.
  induction l as [|y l IH]; simpl; [intros _; reflexivity|].
  destruct (p y); [discriminate|exact IH].
Qed.

Lemma find_update_first_other {A} (p q : A -> bool) (f : A -> A) (l : list A) :
  (forall x, p x = true -> q x = false /\ q (f x) = false) ->
  find q (update_first p f l) = find q l.
Proof.
  intros H. induction l as [|y l IH]; simpl; [reflexivity|].
  destruct (p y) eqn:E; simpl.
  - destruct (H y E) as [-> ->]. reflexivity.
  - rewrite IH. reflexivity.
Qed.

(** Reading back the row of a chat after [put_state], and the rows of the
    other chats. *)
Lemma find_state_put_state_any (c : ConversationState.t) (db : DB) (tid : Z) :
  find_state (put_state c db) tid
  = if ConversationState.telegram_id c =? tid then Some c else find_state db tid.
Proof.
  unfold put_state. destruct (find_state db (ConversationState.telegram_id c)) as [conv|] eqn:E.
  - destruct (Z.eqb_spec (ConversationState.telegram_id c) tid) as [<-|Hne].
    + pose proof (find_state_put_state db c conv E) as H. unfold put_state in H.
      rewrite E in H. exact H.
    + unfold find_state, with_states. simpl. apply find_update_first_other.
      intros x Hx. simpl in Hx. apply Z.eqb_eq in Hx. simpl.
      split; apply Z.eqb_neq; congruence.
  - unfold find_state, with_states in *. simpl.
    destruct (Z.eqb_spec (ConversationState.telegram_id c) tid) as [<-|Hne].
    + rewrite (find_snoc_none _ _ c E), Z.eqb_refl. reflexivity.
    + induction (conversation_states db) as [|y l IH]; simpl in *.
      * destruct (Z.eqb_spec (ConversationState.telegram_id c) tid); [contradiction|reflexivity].
      * destruct (ConversationState.telegram_id y =? ConversationState.telegram_id c) eqn:Ey;
          [discriminate|].
        destruct (ConversationState.telegram_id y =? tid); [reflexivity|]. apply IH, E.
Qed.

Lemma journal_command_known_user (db : DB) (tid : Z) (username : option string)
    (uuid : string) (user : User.t) :
  find_user db tid = Some user ->
  run (journal_command tid username uuid) db
  = if negb (User.is_active user) then (mkStore db [], Ok AccountInactive)
    else match first_by_order (filter (fun q => Question.is_active q = true) (questions db)) with
         | None => (mkStore db [], Ok NoQuestionsAvailable)
         | Some first =>
             let db' := put_state (ConversationState.mk tid (Some (Question.id first))
                                     (Some uuid) (Some "journaling")) db in
             (mkStore db' [db'], Ok (AskQuestion first (get_question_options first)))
         end.
Proof.
  intros Hu. unfold run, journal_command, get_or_create_user, attr, bind, read. simpl.
  rewrite Hu. simpl. destruct (User.is_active user); simpl; [|reflexivity].
  unfold get_next_question, bind, read. simpl.
  destruct (first_by_order _) as [first|]; [|reflexivity].
  unfold update_conversation_state, bind, read, commit. simpl.
  destruct (find_state db tid) as [conv|] eqn:Hst; simpl; [|reflexivity].
  rewrite (find_state_key db tid conv Hst). reflexivity.
Qed.

(** X2. /journal of a known, active user with an active question: the first
    question (least order) is sent with its keyboard, and one commit stores
    the state (that question, the fresh session id, "journaling") for the
    chat, whatever was stored before, so a running session is restarted; the
    other chats' states and the other tables are as before. *)
Theorem journal_command_starts_session (db : DB) (tid : Z) (username : option string)
    (uuid : string) (user : User.t) (first : Question.t) :
  find_user db tid = Some user ->
  User.is_active user = true ->
  first_by_order (filter (fun q => Question.is_active q = true) (questions db))
  = Some first ->
  let h := journal_command tid username uuid in
  result_of h db = Ok (AskQuestion first (get_question_options first))
  /\ log_of h db = [db_after h db]
  /\ find_state (db_after h db) tid
     = Some (ConversationState.mk tid (Some (Question.id first)) (Some uuid)
                                  (Some "journaling"))
  /\ (forall tid', tid' <> tid -> find_state (db_after h db) tid' = find_state db tid')
  /\ users (db_after h db) = users db
  /\ schedules (db_after h db) = schedules db
  /\ questions (db_after h db) = questions db
  /\ responses (db_after h db) = responses db.
Proof.
  intros Hu Ha Hf h. unfold result_of, log_of, db_after. subst h.
  rewrite (journal_command_known_user db tid username uuid user Hu), Ha, Hf.
  cbn [negb fst snd persisted commits].
  repeat split; try apply put_state_tables.
  - rewrite find_state_put_state_any. simpl. rewrite Z.eqb_refl. reflexivity.
  - intros tid' Hne. rewrite find_state_put_state_any. simpl.
    destruct (Z.eqb_spec tid tid'); [congruence|reflexivity].
Qed.

Lemma journal_command_starts_session_witness :
  find_state (db_after (journal_command 42 (Some "ann") "session-2") answered2) 42
  = Some (ConversationState.mk 42 (Some 1) (Some "session-2") (Some "journaling")).
Proof.
  exact (proj1 (proj2 (proj2
           (journal_command_starts_session answered2 42 (Some "ann") "session-2"
              (User.mk 1 42 (Some "ann") "UTC" true) q_mood eq_refl eq_refl eq_refl)))).
Defined.

(** X3. /journal refuses without writing: a known user whose account is
    inactive gets the inactive-account message, and an active user gets the
    no-questions message when no question is active; nothing is committed in
    either case. *)
Theorem journal_command_refusals (db : DB) (tid : Z) (username : option string)
    (uuid : string) (user : User.t) :
  find_user db tid = Some user ->
  (User.is_active user = false ->
   run (journal_command tid username uuid) db = (mkStore db [], Ok AccountInactive))
  /\ (User.is_active user = true ->
      (forall q, In q (questions db) -> Question.is_active q = false) ->
      run (journal_command tid username uuid) db = (mkStore db [], Ok NoQuestionsAvailable)).
Proof.
  intros Hu. rewrite (journal_command_known_user db tid username uuid user Hu). split.
  - intros ->. reflexivity.
  - intros -> Hnone. simpl.
    pose proof (first_by_order_least
                  (filter (fun q => Question.is_active q = true) (questions db))) as H.
    destruct (first_by_order _) as [m|]; [|reflexivity].
    destruct H as [Hin _]. apply list_elem_of_In, list_elem_of_filter in Hin.
    destruct Hin as [Ha Hin]. rewrite (Hnone m) in Ha by (apply list_elem_of_In, Hin).
    discriminate Ha.
Qed.

Lemma journal_command_refusals_witness :
  run (journal_command 42 None "s") registered = (mkStore registered [], Ok NoQuestionsAvailable).
Proof.
  refine (proj2 (journal_command_refusals registered 42 None "s"
                   (User.mk 1 42 (Some "ann") "UTC" true) eq_refl) eq_refl _).
  intros q [].
Defined.

(** X4. /journal as the first contact of a chat: the user row is created and
    committed, and the read of [is_active] on the returned instance, expired
    by that commit and detached by the close of its session, raises; no
    session is started.  After /start the same command starts the session. *)
Theorem journal_command_first_contact (db : DB) (tid : Z) (username : option string)
    (uuid : string) :
  find_user db tid = None ->
  let user := User.mk (next_user_id (users db)) tid username default_timezone true in
  let db1 := with_users (fun l => l ++ [user]) db in
  run (journal_command tid username uuid) db = (mkStore db1 [db1], Raise DetachedInstanceError)
  /\ find_user db1 tid = Some user
  /\ conversation_states db1 = conversation_states db
  /\ run (do! start_command tid username in journal_command tid username uuid) db
     = match first_by_order (filter (fun q => Question.is_active q = true) (questions db)) with
       | None => (mkStore db1 [db1], Ok NoQuestionsAvailable)
       | Some first =>
           let db2 := put_state (ConversationState.mk tid (Some (Question.id first))
                                   (Some uuid) (Some "journaling")) db1 in
           (mkStore db2 [db1; db2], Ok (AskQuestion first (get_question_options first)))
       end.
Proof.
  intros Hu user db1.
  assert (Hu1 : find_user db1 tid = Some user).
  { unfold find_user, db1, with_users. simpl. unfold find_user in Hu.
    rewrite (find_snoc_none _ _ user Hu). simpl. rewrite Z.eqb_refl. reflexivity. }
  split; [|split; [|split]].
  - unfold run, journal_command, get_or_create_user, attr, bind, read, commit. simpl.
    rewrite Hu. reflexivity.
  - exact Hu1.
  - reflexivity.
  - unfold run, start_command, get_or_create_user, bind, read, commit. simpl.
    rewrite Hu. simpl. fold user. fold db1.
    change (journal_command tid username uuid (mkStore db1 [db1]))
      with (journal_command tid username uuid (mkStore (persisted (mkStore db1 [db1]))
                                                      (commits (mkStore db1 [db1])))).
    unfold journal_command, get_or_create_user, attr, bind, read. simpl.
    rewrite Hu1. simpl.
    unfold get_next_question, bind, read. simpl.
    destruct (first_by_order _) as [first|]; [|reflexivity].
    unfold update_conversation_state, bind, read, commit. simpl.
    destruct (find_state db1 tid) as [conv|] eqn:Hst; simpl; [|reflexivity].
    rewrite (find_state_key db1 tid conv Hst). reflexivity.
Qed.

Lemma journal_command_first_contact_witness :
  run (journal_command 42 (Some "ann") "session-1") catalog2
  = (let db1 := with_users (fun l => l ++ [User.mk 1 42 (Some "ann") "UTC" true]) catalog2 in
     (mkStore db1 [db1], Raise DetachedInstanceError)).
Proof.
  exact (proj1 (journal_command_first_contact catalog2 42 (Some "ann") "session-1" eq_refl)).
Defined.

End Commands.

(** ** The writes of the operations *)

Section Writes.
Import Bot.

Ltac unfold_run :=
  unfold db_after, log_of, run, perform,
    start_command, journal_command, button_callback, handle_answer_callback,
    handle_answer, handle_schedule_callback, handle_settings_callback,
    get_conversation_state, get_or_create_user, update_conversation_state,
    get_next_question, attr, Scheduler.add_user_schedule,
    Scheduler.remove_user_schedule, Questions.init_questions,
    bind, read, commit, deref, ret, raise.

Ltac split_cases :=
  repeat (cbn [fst snd persisted commits app];
          match goal with
          | |- context [match ?x with _ => _ end] =>
              lazymatch x with
              | context [match _ with _ => _ end] => fail
              | _ => destruct x eqn:?
              end
          end).

Lemma In_find_question (db : DB) (q : Question.t) (qid : Z) :
  find_question db qid = Some q -> In q (questions db).
Proof. unfold find_question. intros H. apply find_some in H. apply H. Qed.

Lemma In_first_by_order (l : list Question.t) (q : Question.t) :
  first_by_order l = Some q -> In q l.
Proof.
  intros H. pose proof (first_by_order_least l) as Hl. rewrite H in Hl. apply Hl.
Qed.

Lemma perform_start db tid username : writes_or_erases (OpStart tid username) db.
Proof.
  unfold writes_or_erases. unfold_run. split_cases.
  all: split; [reflexivity|left; split; [|discriminate]]; simpl; auto.
  split; [|exact I]. apply write_user. assumption.
Qed.

Ltac leaf :=
  split; [reflexivity|left; split; [|discriminate]]; cbn [chain];
  repeat (split; [|try exact I]); try exact I.

Lemma journal_command_new_user (db : DB) (tid : Z) (username : option string)
    (uuid : string) :
  find_user db tid = None ->
  let db1 := with_users
               (fun l => l ++ [User.mk (next_user_id (users db)) tid username
                                       default_timezone true]) db in
  run (journal_command tid username uuid) db = (mkStore db1 [db1], Raise DetachedInstanceError).
Proof.
  intros Hu db1. unfold run, journal_command, get_or_create_user, attr, bind, read, commit.
  simpl. rewrite Hu. reflexivity.
Qed.

Lemma run_then_ret {A} (m : M A) (db : DB) :
  db_after (do! m in ret tt) db = db_after m db
  /\ log_of (do! m in ret tt) db = log_of m db.
Proof.
  unfold db_after, log_of, run, bind, ret. destruct (m _) as [s [a|e]]; split; reflexivity.
Qed.

Lemma perform_journal db tid username uuid : writes_or_erases (OpJournal tid username uuid) db.
Proof.
  unfold writes_or_erases, perform.
  destruct (run_then_ret (journal_command tid username uuid) db) as [-> ->].
  unfold db_after, log_of.
  destruct (find_user db tid) as [user|] eqn:Hu.
  - rewrite (journal_command_known_user db tid username uuid user Hu).
    destruct (negb (User.is_active user)); [leaf|].
    destruct (first_by_order _) as [first|] eqn:Hf; [|leaf]. leaf.
    apply (write_start db tid user first uuid Hu).
    apply In_first_by_order in Hf. apply list_elem_of_In, list_elem_of_filter in Hf.
    apply list_elem_of_In, Hf.
  - rewrite (journal_command_new_user db tid username uuid Hu). leaf.
    apply write_user, Hu.
Qed.

(** Every outcome of the answer handler. *)
Lemma handle_answer_outcomes (s : store) (tid q now : Z) (a : string) :
  let db := persisted s in
  handle_answer tid q a now s
  = match find_state db tid with
    | None => (s, Ok SessionExpired)
    | Some conv =>
        if negb (bool_decide (ConversationState.state conv = Some "journaling"))
        then (s, Ok SessionExpired)
        else if String.eqb a "skipped" then
          match find_question db q with
          | None => (s, Raise AttributeError)
          | Some cq =>
              let db2 := put_state (advance conv (next_after db cq)) db in
              (mkStore db2 (commits s ++ [db2]), Ok (reply_after (next_after db cq)))
          end
        else
          match find_user db tid with
          | None => (s, Raise AttributeError)
          | Some user =>
              let db1 := with_responses
                           (fun l => l ++ [response_row user conv q a now]) db in
              match find_question db q with
              | None => (mkStore db1 (commits s ++ [db1]), Raise AttributeError)
              | Some cq =>
                  let db2 := put_state (advance conv (next_after db cq)) db1 in
                  (mkStore db2 (commits s ++ [db1; db2]),
                   Ok (reply_after (next_after db cq)))
              end
          end
    end.
Proof.
  intros db. destruct (find_state db tid) as [conv|] eqn:Hst;
    [|apply handle_answer_expired; fold db; rewrite Hst; exact I].
  destruct (bool_decide_reflect (ConversationState.state conv = Some "journaling"))
    as [Hj|Hj]; cbn [negb];
    [|apply handle_answer_expired; fold db; rewrite Hst; exact Hj].
  destruct (String.eqb_spec a "skipped") as [->|Ha].
  - destruct (find_question db q) as [cq|] eqn:Hq.
    + apply (handle_answer_skip s tid q now conv cq Hst Hj Hq).
    + unfold handle_answer, bind, read. fold db. rewrite Hst.
      rewrite bool_decide_eq_true_2 by exact Hj. simpl.
      unfold get_next_question, bind, read, deref. simpl. fold db. rewrite Hq. reflexivity.
  - destruct (find_user db tid) as [user|] eqn:Hu.
    + destruct (find_question db q) as [cq|] eqn:Hq.
      * apply (handle_answer_saved s tid q now a conv cq user Hst Hj Hq Hu Ha).
      * unfold handle_answer, bind, read. fold db. rewrite Hst.
        rewrite bool_decide_eq_true_2 by exact Hj. simpl.
        destruct (String.eqb_spec a "skipped"); [contradiction|]. simpl.
        rewrite Hu. simpl.
        unfold get_next_question, bind, read, deref, commit. simpl.
        change (find_question (with_responses _ (persisted s)) q) with (find_question db q).
        rewrite Hq. reflexivity.
    + unfold handle_answer, bind, read. fold db. rewrite Hst.
      rewrite bool_decide_eq_true_2 by exact Hj. simpl.
      destruct (String.eqb_spec a "skipped"); [contradiction|]. simpl.
      rewrite Hu. reflexivity.
Qed.

Lemma handle_answer_callback_writes tid cb now db :
  writes_only (handle_answer_callback tid cb now) db.
Proof.
  unfold writes_only, db_after, log_of, run, handle_answer_callback.
  destruct (parse_callback cb) as [[q a]|e]; [|split; [reflexivity|exact I]].
  rewrite handle_answer_outcomes. cbn [persisted commits].
  destruct (find_state db tid) as [conv|] eqn:Hst; [|split; [reflexivity|exact I]].
  destruct (bool_decide_reflect (ConversationState.state conv = Some "journaling"))
    as [Hj|Hj]; cbn [negb]; [|split; [reflexivity|exact I]].
  destruct (String.eqb a "skipped").
  - destruct (find_question db q) as [cq|] eqn:Hq; (split; [reflexivity|]); [|exact I].
    split; [|exact I].
    apply (write_advance db tid conv cq Hst Hj (In_find_question db cq q Hq)).
  - destruct (find_user db tid) as [user|] eqn:Hu; [|split; [reflexivity|exact I]].
    destruct (find_question db q) as [cq|] eqn:Hq; (split; [reflexivity|]).
    + split; [apply (write_response db tid user conv q a now Hu Hst)|].
      split; [|exact I].
      exact (write_advance
               (with_responses (fun l => l ++ [response_row user conv q a now]) db)
               tid conv cq Hst Hj (In_find_question db cq q Hq)).
    + split; [apply (write_response db tid user conv q a now Hu Hst)|exact I].
Qed.

Ltac no_write := split; [reflexivity|exact I].

Lemma add_user_schedule_writes tid times tz db :
  writes_only (Scheduler.add_user_schedule tid times tz) db.
Proof.
  unfold writes_only, db_after, log_of, run, Scheduler.add_user_schedule, bind, read, commit.
  cbn [persisted commits]. destruct (find_user db tid) as [user|] eqn:Hu; [|no_write].
  split; [reflexivity|]. split; [|exact I].
  apply (write_schedules db tid user times tz Hu).
Qed.

Lemma remove_user_schedule_writes tid time db :
  writes_only (Scheduler.remove_user_schedule tid time) db.
Proof.
  unfold writes_only, db_after, log_of, run, Scheduler.remove_user_schedule, bind, read, commit.
  cbn [persisted commits]. destruct (find_user db tid) as [user|] eqn:Hu; [|no_write].
  destruct (Scheduler.truthy time); (split; [reflexivity|]); (split; [|exact I]).
  - apply (write_remove_time db tid user (default "" time) Hu).
  - apply (write_remove_all db tid user Hu).
Qed.

Lemma writes_only_bind_ret {A B} (m : M A) (b : A -> B) (db : DB) :
  writes_only m db -> writes_only (let! x := m in ret (b x)) db.
Proof.
  unfold writes_only, db_after, log_of, run, bind, ret.
  destruct (m _) as [s [a|e]]; exact (fun H => H).
Qed.

Lemma handle_schedule_callback_writes tid cb db :
  writes_only (handle_schedule_callback tid cb) db.
Proof.
  unfold handle_schedule_callback.
  destruct (String.eqb cb "schedule_view").
  { unfold writes_only, db_after, log_of, run, bind, read. cbn [persisted].
    destruct (match find_user db tid with Some u => _ | None => _ end); no_write. }
  destruct (String.eqb cb "schedule_custom"); [no_write|].
  destruct (Py.item_1 _) as [time|]; [|no_write].
  unfold deref.
  change (writes_only (let! x := Scheduler.add_user_schedule tid [time] None in
                       ret ((fun _ => ScheduleSet time) x)) db).
  apply writes_only_bind_ret, add_user_schedule_writes.
Qed.

Lemma handle_settings_callback_writes tid cb db :
  writes_only (handle_settings_callback tid cb) db
  \/ exists user, cb = "confirm_clear_yes" /\ find_user db tid = Some user
       /\ log_of (handle_settings_callback tid cb) db = [delete_user (User.id user) db]
       /\ db_after (handle_settings_callback tid cb) db = delete_user (User.id user) db.
Proof.
  unfold writes_only, db_after, log_of, run, handle_settings_callback, bind, read, commit.
  cbn [persisted commits].
  destruct (String.eqb cb "settings_toggle").
  { left. destruct (find_user db tid) as [user|] eqn:Hu; [|no_write].
    split; [reflexivity|]. split; [|exact I]. apply (write_toggle db tid user Hu). }
  destruct (String.eqb cb "settings_schedule"); [left; no_write|].
  destruct (String.eqb cb "settings_timezone"); [left; no_write|].
  destruct (String.eqb cb "settings_clear"); [left; no_write|].
  destruct (String.eqb_spec cb "confirm_clear_yes") as [->|_].
  { destruct (find_user db tid) as [user|] eqn:Hu; [|left; no_write].
    right. exists user. repeat split. }
  destruct (String.eqb cb "confirm_clear_no"); left; no_write.
Qed.

Lemma button_callback_writes tid cb now db : writes_only (button_callback tid cb now) db.
Proof.
  unfold button_callback.
  destruct (_ || _); [apply handle_answer_callback_writes|].
  destruct (Py.startswith cb "schedule_"); [apply handle_schedule_callback_writes|].
  destruct (Py.startswith cb "settings_") eqn:Hp; [|no_write].
  destruct (handle_settings_callback_writes tid cb db) as [H|(user & -> & _)]; [exact H|].
  discriminate Hp.
Qed.

Lemma writes_only_then_ret {A} (m : M A) (db : DB) :
  writes_only m db -> writes_only (do! m in ret tt) db.
Proof. apply (writes_only_bind_ret m (fun _ => tt)). Qed.

Lemma perform_writes (op : operation) (db : DB) : writes_or_erases op db.
Proof.
  assert (Hw : forall m : M unit, writes_only m db -> op <> OpInitQuestions ->
             db_after m db = default db (last (log_of m db))
             /\ ((chain write db (log_of m db) /\ (op = OpInitQuestions -> log_of m db = []))
                 \/ (exists tid user, op = OpSettings tid "confirm_clear_yes"
                       /\ find_user db tid = Some user
                       /\ log_of m db = [delete_user (User.id user) db])
                 \/ (op = OpInitQuestions /\ questions db = []
                     /\ log_of m db = [seeded db])))
    by (intros m [H1 H2] Hop; split; [exact H1|left; split; [exact H2|contradiction]]).
  destruct op as [tid u|tid u uuid|tid cb now|tid cb now|tid cb|tid cb|tid|tid times tz|tid time|].
  - apply perform_start.
  - apply perform_journal.
  - apply Hw; [apply writes_only_then_ret, button_callback_writes|discriminate].
  - apply Hw; [apply writes_only_then_ret, handle_answer_callback_writes|discriminate].
  - apply Hw; [apply writes_only_then_ret, handle_schedule_callback_writes|discriminate].
  - destruct (handle_settings_callback_writes tid cb db) as [H|(user & -> & Hu & Hlog & Hdb)].
    + apply Hw; [apply writes_only_then_ret, H|discriminate].
    + unfold writes_or_erases, perform.
      destruct (run_then_ret (handle_settings_callback tid "confirm_clear_yes") db) as [-> ->].
      rewrite Hlog, Hdb. split; [reflexivity|]. right. left. exists tid, user.
      repeat split. exact Hu.
  - apply Hw; [apply writes_only_then_ret|discriminate].
    unfold writes_only, db_after, log_of, run, get_conversation_state, bind, read, commit.
    cbn [persisted commits]. destruct (find_state db tid) eqn:Hst; [no_write|].
    split; [reflexivity|]. split; [|exact I]. apply write_state, Hst.
  - apply Hw; [apply add_user_schedule_writes|discriminate].
  - apply Hw; [apply remove_user_schedule_writes|discriminate].
  - unfold writes_or_erases, db_after, log_of, run, perform, Questions.init_questions,
      bind, read, commit. cbn [persisted commits].
    destruct (questions db) as [|x l] eqn:Hq; simpl.
    + split; [reflexivity|]. right. right. repeat split.
    + destruct (Z.ltb_spec 0 (Z.of_nat (S (length l)))); [|lia].
      split; [reflexivity|]. left. split; [exact I|reflexivity].
Qed.

End Writes.

(** ** Invariants of the store *)

Section StoreInvariants.
Import Bot.

Lemma chain_preserves (P : DB -> Prop) (R : DB -> DB -> Prop) :
  (forall d d', R d d' -> P d -> P d') ->
  forall (log : list DB) (db : DB),
    chain R db log -> P db -> Forall P log /\ P (default db (last log)).
Proof.
  intros HR. induction log as [|x log IH]; intros db Hc Hdb.
  - split; [constructor|exact Hdb].
  - destruct Hc as [Hx Hc]. pose proof (HR db x Hx Hdb) as Hpx.
    destruct (IH x Hc Hpx) as [Hall Hlast]. split; [constructor; assumption|].
    destruct log as [|y log]; [exact Hpx|].
    change (last (x :: y :: log)) with (last (y :: log)).
    destruct (last (y :: log)) eqn:E; [exact Hlast|].
    apply last_None in E. discriminate E.
Qed.

(** A property kept by every primitive write, by the deletion of a user
    and by the seeding of an empty question table is kept by every
    operation, in the database it leaves and in every snapshot it commits. *)
Lemma preserved_by_operations (P : DB -> Prop) :
  (forall d d', write d d' -> P d -> P d') ->
  (forall d tid user, find_user d tid = Some user -> P d ->
                      P (delete_user (User.id user) d)) ->
  (forall d, questions d = [] -> P d -> P (seeded d)) ->
  forall (op : operation) (db : DB),
    P db -> P (db_after (perform op) db) /\ Forall P (log_of (perform op) db).
Proof.
  intros Hw Hd Hs op db Hdb.
  destruct (perform_writes op db)
    as [Hlast [[Hc _]|[(tid & user & _ & Hu & Hlog)|(_ & Hq & Hlog)]]].
  - rewrite Hlast. destruct (chain_preserves P write Hw _ db Hc Hdb). split; assumption.
  - rewrite Hlast, Hlog. simpl. pose proof (Hd db tid user Hu Hdb) as H.
    split; [exact H|constructor; [exact H|constructor]].
  - rewrite Hlast, Hlog. simpl. pose proof (Hs db Hq Hdb) as H.
    split; [exact H|constructor; [exact H|constructor]].
Qed.

Lemma preserved_by_perform_all (P : DB -> Prop) :
  (forall (op : operation) (db : DB), P db -> P (db_after (perform op) db)) ->
  forall (ops : list operation) (db : DB), P db -> P (perform_all ops db).
Proof.
  intros H ops. unfold perform_all. induction ops as [|op ops IH]; intros db Hdb; simpl.
  - exact Hdb.
  - apply IH, H, Hdb.
Qed.

Lemma map_update_first {A B} (g : A -> B) (p : A -> bool) (f : A -> A) (l : list A) :
  (forall x, p x = true -> g (f x) = g x) -> map g (update_first p f l) = map g l.
Proof.
  intros H. induction l as [|x l IH]; simpl; [reflexivity|].
  destruct (p x) eqn:E; simpl; [rewrite (H x E)|rewrite IH]; reflexivity.
Qed.

Lemma NoDup_map_filter {A B} (g : A -> B) (P : A -> Prop) `{forall x, Decision (P x)}
    (l : list A) :
  NoDup (map g l) -> NoDup (map g (filter P l)).
Proof.
  induction l as [|x l IH]; simpl; [intros _; constructor|].
  intros Hnd. apply NoDup_cons in Hnd. destruct Hnd as [Hx Hnd].
  rewrite filter_cons. destruct (decide (P x)); [|apply IH, Hnd].
  simpl. apply NoDup_cons. split; [|apply IH, Hnd].
  intros Hin. apply Hx. apply list_elem_of_In, in_map_iff in Hin.
  destruct Hin as (y & Hy & Hin). apply list_elem_of_In, list_elem_of_filter in Hin.
  apply list_elem_of_In, in_map_iff. exists y. split; [exact Hy|apply list_elem_of_In, Hin].
Qed.

Lemma NoDup_map_snoc {A B} (g : A -> B) (l : list A) (x : A) :
  NoDup (map g l) -> (forall y, In y l -> g y <> g x) -> NoDup (map g (l ++ [x])).
Proof.
  intros Hnd Hx. rewrite map_app. apply NoDup_app. split; [exact Hnd|]. split.
  - intros b Hb Hb'. apply list_elem_of_In, in_map_iff in Hb. destruct Hb as (y & <- & Hy).
    simpl in Hb'. apply list_elem_of_singleton in Hb'. exact (Hx y Hy Hb').
  - simpl. apply NoDup_singleton.
Qed.

Lemma find_none_all {A} (p : A -> bool) (l : list A) :
  find p l = None -> forall y, In y l -> p y = false.
Proof. intros H y Hy. exact (find_none p l H y Hy). Qed.

Lemma next_user_id_fresh (l : list User.t) (u : User.t) :
  In u l -> User.id u < next_user_id l.
Proof.
  unfold next_user_id. induction l as [|x l IH]; [contradiction|].
  rewrite fmap_cons. cbn [foldr].
  intros [->|Hu]; [lia|]. specialize (IH Hu). lia.
Qed.

Lemma keys_unique_put_state (c : ConversationState.t) (db : DB) :
  keys_unique db -> keys_unique (put_state c db).
Proof.
  intros (H1 & H2 & H3). unfold keys_unique.
  destruct (put_state_tables c db) as (-> & _). repeat split; [exact H1|exact H2|].
  unfold put_state. destruct (find_state db _) as [conv|] eqn:E; simpl.
  - rewrite map_update_first; [exact H3|].
    intros x Hx. apply Z.eqb_eq in Hx. simpl. congruence.
  - apply NoDup_map_snoc; [exact H3|].
    intros y Hy. pose proof (find_none_all _ _ E y Hy) as Hn. simpl in Hn.
    apply Z.eqb_neq, Hn.
Qed.

Lemma write_keys_unique (d d' : DB) : write d d' -> keys_unique d -> keys_unique d'.
Proof.
  intros Hw (H1 & H2 & H3). destruct Hw; try (repeat split; assumption).
  - repeat split; simpl; [| |exact H3].
    + apply NoDup_map_snoc; [exact H1|]. intros y Hy.
      pose proof (find_none_all _ _ H y Hy) as Hn. simpl in *. apply Z.eqb_neq, Hn.
    + apply NoDup_map_snoc; [exact H2|]. intros y Hy.
      pose proof (next_user_id_fresh _ y Hy). simpl. lia.
  - repeat split; simpl; [exact H1|exact H2|].
    apply NoDup_map_snoc; [exact H3|]. intros y Hy.
    pose proof (find_none_all _ _ H y Hy) as Hn. simpl in *. apply Z.eqb_neq, Hn.
  - apply keys_unique_put_state. repeat split; assumption.
  - apply keys_unique_put_state. repeat split; assumption.
  - unfold keys_unique. simpl. destruct (Scheduler.truthy tz); simpl;
      rewrite ?map_update_first by (intros; reflexivity); repeat split; assumption.
  - unfold keys_unique. simpl.
    rewrite !map_update_first by (intros; reflexivity). repeat split; assumption.
Qed.

Lemma delete_keys_unique (d : DB) (uid : Z) :
  keys_unique d -> keys_unique (delete_user uid d).
Proof.
  intros (H1 & H2 & H3). repeat split; simpl; [| |exact H3];
    apply NoDup_map_filter; assumption.
Qed.

(** X5. Keys stay unique: if the store has one user row per chat id and per
    user id and one conversation state row per chat id, so has the store
    after any operation, and every snapshot the operation commits; hence
    every store built from the empty one by operations has unique keys. *)
Theorem keys_stay_unique :
  (forall (op : operation) (db : DB),
      keys_unique db ->
      keys_unique (db_after (perform op) db)
      /\ Forall keys_unique (log_of (perform op) db))
  /\ (forall ops : list operation, keys_unique (perform_all ops empty_db)).
Proof.
  assert (H : forall op db, keys_unique db ->
            keys_unique (db_after (perform op) db)
            /\ Forall keys_unique (log_of (perform op) db)).
  { apply preserved_by_operations; [exact write_keys_unique| |].
    - intros d tid user _. apply delete_keys_unique.
    - intros d _ Hd. exact Hd. }
  split; [exact H|]. intros ops.
  apply preserved_by_perform_all; [intros op db Hdb; apply H, Hdb|].
  repeat split; constructor.
Qed.

Lemma keys_stay_unique_witness :
  keys_unique (db_after (perform (OpJournal 7 None "session-9")) started2).
Proof.
  refine (proj1 (proj1 keys_stay_unique (OpJournal 7 None "session-9") started2 _)).
  repeat split; simpl; apply NoDup_singleton.
Defined.

Lemma In_update_first_key {A} (g : A -> Z) (p : A -> bool) (f : A -> A) (l : list A) (u : A) :
  (forall x, g (f x) = g x) ->
  In u l -> exists u', In u' (update_first p f l) /\ g u' = g u.
Proof.
  intros Hg. induction l as [|x l IH]; simpl; [contradiction|].
  intros [->|Hu].
  - destruct (p u); [exists (f u)|exists u]; split; try (left; reflexivity); auto.
  - destruct (p x).
    + exists u. split; [right; exact Hu|reflexivity].
    + destruct (IH Hu) as (u' & Hin & He). exists u'. split; [right; exact Hin|exact He].
Qed.

Lemma In_delete_first {A} (p : A -> bool) (l : list A) (x : A) :
  In x (Scheduler.delete_first p l) -> In x l.
Proof.
  induction l as [|y l IH]; simpl; [contradiction|].
  destruct (p y); [intros H; right; exact H|].
  intros [->|H]; [left; reflexivity|right; apply IH, H].
Qed.

Lemma find_user_In (db : DB) (tid : Z) (user : User.t) :
  find_user db tid = Some user -> In user (users db).
Proof. unfold find_user. intros H. apply find_some in H. apply H. Qed.

Lemma write_owners_exist (d d' : DB) : write d d' -> owners_exist d -> owners_exist d'.
Proof.
  intros Hw [Hs Hr]. destruct Hw.
  - split; simpl.
    + intros s Hin. destruct (Hs s Hin) as (u & Hu & He).
      exists u. split; [apply in_or_app; left; exact Hu|exact He].
    + intros r Hin. destruct (Hr r Hin) as (u & Hu & He).
      exists u. split; [apply in_or_app; left; exact Hu|exact He].
  - split; assumption.
  - unfold owners_exist. destruct (put_state_tables
      (ConversationState.mk tid (Some (Question.id first)) (Some uuid) (Some "journaling")) db)
      as (-> & -> & _ & ->). split; assumption.
  - split; [exact Hs|]. simpl. intros r Hin. apply in_app_or in Hin.
    destruct Hin as [Hin|[<-|[]]]; [apply Hr, Hin|].
    exists user. split; [apply (find_user_In db tid), H|reflexivity].
  - unfold owners_exist. destruct (put_state_tables (advance conv (next_after db cq)) db)
      as (-> & -> & _ & ->). split; assumption.
  - assert (Hkeep : forall u, In u (users db) ->
              exists u', In u' (users (if Scheduler.truthy tz
                                        then Scheduler.set_timezone (User.id user)
                                               (default "" tz) db else db))
                         /\ User.id u' = User.id u).
    { intros u Hu. destruct (Scheduler.truthy tz); [|exists u; auto].
      simpl. apply (In_update_first_key User.id); [reflexivity|exact Hu]. }
    assert (Hother : responses (if Scheduler.truthy tz
                                then Scheduler.set_timezone (User.id user) (default "" tz) db
                                else db) = responses db
                     /\ schedules (if Scheduler.truthy tz
                                   then Scheduler.set_timezone (User.id user) (default "" tz) db
                                   else db) = schedules db)
      by (destruct (Scheduler.truthy tz); split; reflexivity).
    destruct Hother as [Hresp Hsched].
    split; simpl.
    + intros s Hin. apply in_app_or in Hin. destruct Hin as [Hin|Hin].
      * apply list_elem_of_In, list_elem_of_filter in Hin. destruct Hin as [_ Hin].
        rewrite Hsched in Hin. destruct (Hs s (proj1 (list_elem_of_In _ _) Hin)) as (u & Hu & He).
        destruct (Hkeep u Hu) as (u' & Hu' & He'). exists u'. split; [exact Hu'|congruence].
      * apply in_map_iff in Hin. destruct Hin as (t & <- & _).
        destruct (Hkeep user (find_user_In db tid user H)) as (u' & Hu' & He').
        exists u'. split; [exact Hu'|exact He'].
    + rewrite Hresp. intros r Hin. destruct (Hr r Hin) as (u & Hu & He).
      destruct (Hkeep u Hu) as (u' & Hu' & He'). exists u'. split; [exact Hu'|congruence].
  - split; [|exact Hr]. simpl. intros s Hin. apply Hs. eapply In_delete_first, Hin.
  - split; [|exact Hr]. simpl. intros s Hin. apply Hs.
    apply list_elem_of_In, list_elem_of_filter in Hin. apply list_elem_of_In, Hin.
  - assert (Hkeep : forall u, In u (users db) ->
              exists u', In u' (users (toggle_active (User.id user) db))
                         /\ User.id u' = User.id u).
    { intros u Hu. simpl. apply (In_update_first_key User.id); [reflexivity|exact Hu]. }
    split; simpl.
    + intros s Hin. destruct (Hs s Hin) as (u & Hu & He).
      destruct (Hkeep u Hu) as (u' & Hu' & He'). exists u'. split; [exact Hu'|congruence].
    + intros r Hin. destruct (Hr r Hin) as (u & Hu & He).
      destruct (Hkeep u Hu) as (u' & Hu' & He'). exists u'. split; [exact Hu'|congruence].
Qed.

Lemma delete_owners_exist (d : DB) (uid : Z) :
  owners_exist d -> owners_exist (delete_user uid d).
Proof.
  intros [Hs Hr]. split; simpl.
  - intros s Hin. apply list_elem_of_In, list_elem_of_filter in Hin. destruct Hin as [Hne Hin].
    destruct (Hs s (proj1 (list_elem_of_In _ _) Hin)) as (u & Hu & He).
    exists u. split; [|exact He]. apply list_elem_of_In, list_elem_of_filter.
    split; [congruence|apply list_elem_of_In, Hu].
  - intros r Hin. apply list_elem_of_In, list_elem_of_filter in Hin. destruct Hin as [Hne Hin].
    destruct (Hr r (proj1 (list_elem_of_In _ _) Hin)) as (u & Hu & He).
    exists u. split; [|exact He]. apply list_elem_of_In, list_elem_of_filter.
    split; [congruence|apply list_elem_of_In, Hu].
Qed.

(** X6. No orphan schedule or response: if every schedule row and every
    response row points to a user row, the same holds after any operation
    (the erasure of a user takes the user's schedules and responses with
    it), and in every snapshot; hence it holds in every store built from the
    empty one by operations. *)
Theorem owners_always_exist :
  (forall (op : operation) (db : DB),
      owners_exist db ->
      owners_exist (db_after (perform op) db)
      /\ Forall owners_exist (log_of (perform op) db))
  /\ (forall ops : list operation, owners_exist (perform_all ops empty_db)).
Proof.
  assert (H : forall op db, owners_exist db ->
            owners_exist (db_after (perform op) db)
            /\ Forall owners_exist (log_of (perform op) db)).
  { apply preserved_by_operations; [exact write_owners_exist| |].
    - intros d tid user _. apply delete_owners_exist.
    - intros d _ Hd. exact Hd. }
  split; [exact H|]. intros ops.
  apply preserved_by_perform_all; [intros op db Hdb; apply H, Hdb|].
  split; intros x [].
Qed.

Lemma owners_always_exist_witness :
  owners_exist (db_after (perform (OpSettings 42 "confirm_clear_yes")) with_user_data).
Proof.
  refine (proj1 (proj1 owners_always_exist (OpSettings 42 "confirm_clear_yes")
                   with_user_data _)).
  split; simpl.
  - intros s [<-|[]]. eexists. split; [left; reflexivity|reflexivity].
  - intros r [<-|[]]. eexists. split; [left; reflexivity|reflexivity].
Defined.

Lemma In_put_state (c x : ConversationState.t) (db : DB) :
  In x (conversation_states (put_state c db)) ->
  x = c \/ In x (conversation_states db).
Proof.
  unfold put_state. destruct (find_state db _); simpl.
  - induction (conversation_states db) as [|y l IH]; simpl; [contradiction|].
    destruct (ConversationState.telegram_id y =? ConversationState.telegram_id c).
    + intros [<-|H]; [left; reflexivity|right; right; exact H].
    + intros [<-|H]; [right; left; reflexivity|].
      destruct (IH H) as [->|Hin]; [left; reflexivity|right; right; exact Hin].
  - intros H. apply in_app_or in H. destruct H as [H|[<-|[]]]; [right; exact H|left; reflexivity].
Qed.

Lemma find_question_In (db : DB) (q : Question.t) :
  In q (questions db) -> find_question db (Question.id q) <> None.
Proof.
  unfold find_question. intros Hin Hnone.
  pose proof (find_none _ _ Hnone q Hin) as H. simpl in H.
  rewrite Z.eqb_refl in H. discriminate H.
Qed.

Lemma current_exists_put_state (c : ConversationState.t) (db : DB) :
  (forall q, ConversationState.current_question_id c = Some q -> find_question db q <> None) ->
  current_exists db -> current_exists (put_state c db).
Proof.
  intros Hc Hdb x q Hx Hq. unfold find_question.
  destruct (put_state_tables c db) as (_ & _ & -> & _).
  apply In_put_state in Hx. destruct Hx as [->|Hx]; [apply Hc, Hq|apply (Hdb x q Hx Hq)].
Qed.

Lemma write_current_exists (d d' : DB) : write d d' -> current_exists d -> current_exists d'.
Proof.
  intros Hw Hd. destruct Hw; try exact Hd;
    try (unfold current_exists, find_question; simpl;
         destruct (Scheduler.truthy tz); exact Hd).
  - intros c q Hc Hq. simpl in Hc. apply in_app_or in Hc.
    destruct Hc as [Hc|[<-|[]]]; [apply (Hd c q Hc Hq)|discriminate Hq].
  - apply current_exists_put_state; [|exact Hd]. simpl. intros q [= <-].
    apply find_question_In. assumption.
  - apply current_exists_put_state; [|exact Hd]. intros q Hq.
    pose proof (next_after_least db cq) as Hn.
    destruct (next_after db cq) as [nq|]; simpl in Hq; [|discriminate Hq].
    injection Hq as <-. apply find_question_In, Hn.
Qed.

Lemma seeded_current_exists (d : DB) :
  questions d = [] -> current_exists d -> current_exists (seeded d).
Proof.
  intros Hq Hd c q Hc Hcur. exfalso.
  apply (Hd c q Hc Hcur). unfold find_question. rewrite Hq. reflexivity.
Qed.

(** X7. The current question of a conversation state is always a question
    row: the property is kept by every operation; and in a store built from
    the empty one, an answer for the question stored as current, from a chat
    whose user row exists, never raises. *)
Theorem current_question_always_exists :
  (forall (op : operation) (db : DB),
      current_exists db ->
      current_exists (db_after (perform op) db)
      /\ Forall current_exists (log_of (perform op) db))
  /\ (forall (ops : list operation) (tid q now : Z) (cb a : string)
             (conv : ConversationState.t) (user : User.t),
        let db := perform_all ops empty_db in
        find_state db tid = Some conv ->
        ConversationState.current_question_id conv = Some q ->
        find_user db tid = Some user ->
        parse_callback cb = Ok (q, a) ->
        exists reply, result_of (handle_answer_callback tid cb now) db = Ok reply).
Proof.
  assert (H : forall op db, current_exists db ->
            current_exists (db_after (perform op) db)
            /\ Forall current_exists (log_of (perform op) db)).
  { apply preserved_by_operations; [exact write_current_exists| |].
    - intros d tid user _ Hd. exact Hd.
    - exact seeded_current_exists. }
  split; [exact H|]. intros ops tid q now cb a conv user db Hst Hcur Hu Hp.
  assert (Hdb : current_exists db).
  { apply preserved_by_perform_all; [intros op d Hd; apply H, Hd|]. intros c q' []. }
  assert (Hq : find_question db q <> None).
  { apply (Hdb conv q); [|exact Hcur]. unfold find_state in Hst.
    apply find_some in Hst. apply Hst. }
  unfold result_of, run, handle_answer_callback. rewrite Hp, handle_answer_outcomes.
  cbn [persisted]. rewrite Hst, Hu.
  destruct (find_question db q); [|contradiction].
  destruct (negb _); [eexists; reflexivity|].
  destruct (String.eqb a "skipped"); eexists; reflexivity.
Qed.

Lemma current_question_always_exists_witness :
  current_exists (db_after (perform (OpAnswer 42 "answer_yes_1" 100)) started2).
Proof.
  refine (proj1 (proj1 current_question_always_exists (OpAnswer 42 "answer_yes_1" 100)
                   started2 _)).
  intros c q [<-|[]] [= <-]. discriminate.
Defined.

Lemma write_questions (d d' : DB) : write d d' -> questions d' = questions d.
Proof.
  intros Hw. destruct Hw; try reflexivity; try apply put_state_tables.
  simpl. destruct (Scheduler.truthy tz); reflexivity.
Qed.

Lemma write_appends (d d' : DB) :
  write d d' -> exists new, responses d' = responses d ++ new.
Proof.
  intros Hw. destruct Hw; try (exists []; rewrite app_nil_r; reflexivity);
    try (exists []; rewrite app_nil_r; apply put_state_tables).
  - eexists. reflexivity.
  - exists []. rewrite app_nil_r. simpl. destruct (Scheduler.truthy tz); reflexivity.
Qed.

(** X8. Responses are append-only: after any operation other than the
    confirmed erasure the response table is the former table followed by the
    rows the operation added, and so is every snapshot; no button press
    through the dispatcher is an erasure.  The confirmed erasure removes the
    rows of the erased user and no other row. *)
Theorem responses_append_only (op : operation) (db : DB) :
  ((forall tid, op <> OpSettings tid "confirm_clear_yes") ->
   (exists new, responses (db_after (perform op) db) = responses db ++ new)
   /\ Forall (fun snapshot => exists new, responses snapshot = responses db ++ new)
             (log_of (perform op) db))
  /\ (forall tid user, op = OpSettings tid "confirm_clear_yes" ->
        find_user db tid = Some user ->
        responses (db_after (perform op) db)
        = filter (fun r => Response.user_id r <> User.id user) (responses db)).
Proof.
  split.
  - intros Hop.
    assert (Hchain : db_after (perform op) db = default db (last (log_of (perform op) db))
                     /\ (chain write db (log_of (perform op) db)
                         \/ log_of (perform op) db = [seeded db])).
    { destruct (perform_writes op db)
        as [Hlast [[Hc _]|[(tid & user & -> & _)|(_ & _ & Hlog)]]].
      - split; [exact Hlast|left; exact Hc].
      - exfalso. exact (Hop tid eq_refl).
      - split; [exact Hlast|right; exact Hlog]. }
    destruct Hchain as [Hlast [Hc|Hlog]];
      [|rewrite Hlast, Hlog; simpl; split;
        [|constructor; [|constructor]]; exists []; rewrite app_nil_r; reflexivity].
    rewrite Hlast.
    destruct (chain_preserves
                (fun d => exists new, responses d = responses db ++ new) write) with
      (log := log_of (perform op) db) (db := db) as [Hall Hl].
    + intros d d' Hw [new Hd]. destruct (write_appends d d' Hw) as [new' Hd'].
      exists (new ++ new'). rewrite Hd', Hd, app_assoc. reflexivity.
    + exact Hc.
    + exists []. rewrite app_nil_r. reflexivity.
    + split; assumption.
  - intros tid user -> Hu. unfold perform.
    destruct (run_then_ret (handle_settings_callback tid "confirm_clear_yes") db) as [-> _].
    unfold db_after. rewrite (confirm_clear_run db tid user Hu). reflexivity.
Qed.

Lemma responses_append_only_witness :
  exists new, responses (db_after (perform (OpButton 42 "confirm_clear_yes" 5)) with_user_data)
              = responses with_user_data ++ new.
Proof.
  refine (proj1 (proj1 (responses_append_only (OpButton 42 "confirm_clear_yes" 5)
                          with_user_data) _)).
  intros tid. discriminate.
Defined.

(** X9. The question table is written once: seeding fills an empty table
    with the bank, keyed 1, 2, ... in bank order and all active, and leaves
    a table that has a row as it is, so seeding twice is seeding once; no
    other operation changes the question table. *)
Theorem questions_written_once (db : DB) :
  (forall op, op <> OpInitQuestions ->
              questions (db_after (perform op) db) = questions db)
  /\ (questions db = [] ->
      run Questions.init_questions db = (mkStore (seeded db) [seeded db], Ok tt))
  /\ (questions db <> [] -> run Questions.init_questions db = (mkStore db [], Ok tt))
  /\ run Questions.init_questions (db_after Questions.init_questions db)
     = (mkStore (db_after Questions.init_questions db) [], Ok tt).
Proof.
  assert (Hne : forall d, questions d <> [] ->
            run Questions.init_questions d = (mkStore d [], Ok tt)).
  { intros d Hq. unfold run, Questions.init_questions, bind, read, commit. simpl.
    destruct (questions d) as [|x l]; [contradiction|]. simpl.
    destruct (Z.ltb_spec 0 (Z.of_nat (S (length l)))); [reflexivity|lia]. }
  assert (He : questions db = [] ->
            run Questions.init_questions db = (mkStore (seeded db) [seeded db], Ok tt)).
  { intros Hq. unfold run, Questions.init_questions, bind, read, commit, seeded. simpl.
    rewrite Hq. reflexivity. }
  split; [|split; [|split]].
  - intros op Hop.
    destruct (perform_writes op db)
      as [Hlast [[Hc _]|[(tid & user & _ & _ & Hlog)|(Hinit & _)]]];
      [| |contradiction].
    + rewrite Hlast.
      apply (chain_preserves (fun d => questions d = questions db) write)
        with (log := log_of (perform op) db) (db := db); [|exact Hc|reflexivity].
      intros d d' Hw Hd. rewrite (write_questions d d' Hw). exact Hd.
    + rewrite Hlast, Hlog. reflexivity.
  - exact He.
  - apply Hne.
  - destruct (questions db) as [|x l] eqn:Hq.
    + unfold db_after. rewrite (He eq_refl). simpl. apply Hne. discriminate.
    + assert (Hq' : questions db <> []) by (rewrite Hq; discriminate).
      unfold db_after. rewrite (Hne db Hq'). simpl. apply Hne, Hq'.
Qed.

Lemma questions_written_once_witness :
  run Questions.init_questions catalog2 = (mkStore catalog2 [], Ok tt).
Proof.
  refine (proj1 (proj2 (proj2 (questions_written_once catalog2))) _). discriminate.
Defined.

End StoreInvariants.

(** ** The timer engine *)

Section Timer.
Import Scheduler.

Lemma str_inj (n m : Z) : Py.str n = Py.str m -> n = m.
Proof.
  intros H. pose proof (int_str n) as Hn. rewrite H, int_str in Hn. congruence.
Qed.

Lemma plain_head_underscore (a b x y : string) :
  plain a = true -> plain b = true ->
  a +:+ String "_" x = b +:+ String "_" y -> a = b /\ x = y.
Proof.
  revert b. induction a as [|c a IH]; intros [|d b] Ha Hb H; simpl in *.
  - injection H as ->. split; reflexivity.
  - injection H as <- _. apply andb_prop in Hb. destruct Hb as [Hb _]. discriminate Hb.
  - injection H as -> _. apply andb_prop in Ha. destruct Ha as [Ha _]. discriminate Ha.
  - injection H as -> H. apply andb_prop in Ha. apply andb_prop in Hb.
    destruct (IH b (proj2 Ha) (proj2 Hb) H) as [-> ->]. split; reflexivity.
Qed.

Lemma job_id_inj (tid tid' : Z) (time time' : string) :
  job_id tid time = job_id tid' time' -> tid = tid' /\ time = time'.
Proof.
  unfold job_id. intros H.
  change ("journal_" +:+ Py.str tid +:+ "_" +:+ time)
    with ("journal_" +:+ (Py.str tid +:+ String "_" time)) in H.
  change ("journal_" +:+ Py.str tid' +:+ "_" +:+ time')
    with ("journal_" +:+ (Py.str tid' +:+ String "_" time')) in H.
  simpl in H. injection H as H.
  destruct (plain_head_underscore _ _ _ _ (plain_str tid) (plain_str tid') H) as [Hs ->].
  split; [apply str_inj, Hs|reflexivity].
Qed.

Lemma digit_char (c : ascii) (a : Z) :
  Py.digit_val c = Some a ->
  0 <= a <= 9 /\ Py.is_space c = false /\ c <> ":"%char /\ c <> "_"%char.
Proof.
  destruct c as [[] [] [] [] [] [] [] []]; vm_compute; intros [= <-];
    repeat split; discriminate.
Qed.

Lemma int_two_digits (c1 c2 : ascii) (a b : Z) :
  Py.digit_val c1 = Some a -> Py.digit_val c2 = Some b ->
  Py.int (String c1 (String c2 "")) = Some (10 * a + b).
Proof.
  intros Ha Hb. destruct (digit_char c2 b Hb) as (_ & Hs2 & _).
  assert (Hstrip : Py.int_rstrip (Py.int_lstrip (String c1 (String c2 "")))
                   = String c1 (String c2 "")).
  { destruct (digit_char c1 a Ha) as (_ & Hs1 & _).
    apply not_space_not_int_space in Hs1. apply not_space_not_int_space in Hs2.
    simpl. rewrite Hs1. simpl. rewrite Hs2. reflexivity. }
  unfold Py.int. rewrite Hstrip.
  destruct c1 as [[] [] [] [] [] [] [] []]; try discriminate Ha;
    vm_compute in Ha; injection Ha as <-;
    cbv iota beta; erewrite digit_step by (vm_compute; reflexivity);
    rewrite (digit_step _ b _ _ _ Hb); simpl; f_equal; lia.
Qed.

(** A zero-padded 24-hour "HH:MM" string parses to its hour and minute,
    and the cron fields accept them. *)
Lemma parse_time_valid (t : string) :
  valid_time_of_day t = true ->
  exists hour minute,
    parse_time t = Some (hour, minute) /\ cron_fields_ok hour minute = true.
Proof.
  destruct t as [|h1 [|h2 [|c [|m1 [|m2 [|x t]]]]]]; try discriminate;
    unfold valid_time_of_day;
    destruct c as [[] [] [] [] [] [] [] []]; try discriminate.
  destruct (Py.digit_val h1) as [a|] eqn:Ha; [|discriminate].
  destruct (Py.digit_val h2) as [b|] eqn:Hb; [|discriminate].
  destruct (Py.digit_val m1) as [c|] eqn:Hc; [|discriminate].
  destruct (Py.digit_val m2) as [d|] eqn:Hd; [|discriminate].
  intros Hok. apply andb_prop in Hok. destruct Hok as [Hh Hm].
  exists (10 * a + b), (10 * c + d).
  destruct (digit_char h1 a Ha) as (Ra & _ & N1 & _).
  destruct (digit_char h2 b Hb) as (Rb & _ & N2 & _).
  destruct (digit_char m1 c Hc) as (Rc & _ & N3 & _).
  destruct (digit_char m2 d Hd) as (Rd & _ & N4 & _).
  split.
  - unfold parse_time. cbn [Py.split].
    destruct (decide (h1 = ":"%char)); [contradiction|].
    destruct (decide (h2 = ":"%char)); [contradiction|].
    destruct (decide (m1 = ":"%char)); [contradiction|].
    destruct (decide (m2 = ":"%char)); [contradiction|].
    destruct (decide (":"%char = ":"%char)); [|contradiction].
    rewrite (int_two_digits h1 h2 a b Ha Hb), (int_two_digits m1 m2 c d Hc Hd). reflexivity.
  - unfold cron_fields_ok. apply Z.leb_le in Hh, Hm.
    repeat (apply andb_true_intro; split); apply Z.leb_le; lia.
Qed.

Section Zones.
Variable known_zone : string -> bool.

(** What a key holds after [add_job]. *)
Lemma add_job_lookup (jobs : gmap string Job) (tid : Z) (time tz : string) (k : string) :
  add_job known_zone jobs tid time tz !! k
  = match parse_time time with
    | None => jobs !! k
    | Some (hour, minute) =>
        if negb (known_zone tz) then jobs !! k
        else if decide (k = job_id tid time) then
               if cron_fields_ok hour minute
               then Some (mkJob tid hour minute tz) else None
             else jobs !! k
    end.
Proof.
  unfold add_job. destruct (parse_time time) as [[hour minute]|]; [|reflexivity].
  destruct (negb (known_zone tz)); [reflexivity|].
  rewrite delete_absent_job.
  destruct (decide (k = job_id tid time)) as [->|Hne].
  - destruct (cron_fields_ok hour minute).
    + apply lookup_insert_eq.
    + apply lookup_delete_eq.
  - destruct (cron_fields_ok hour minute).
    + rewrite lookup_insert_ne by congruence. apply lookup_delete_ne. congruence.
    + apply lookup_delete_ne. congruence.
Qed.

(** X10. Registering a zero-padded 24-hour "HH:MM" time under a zone name
    that pytz knows always succeeds: the key of (chat, time) then holds the
    job with the decoded hour and minute, whatever it held before, and every
    other key holds what it held. *)
Theorem add_job_registers_valid_time (jobs : gmap string Job) (tid : Z)
    (time tz : string) :
  valid_time_of_day time = true ->
  known_zone tz = true ->
  exists hour minute,
    parse_time time = Some (hour, minute)
    /\ 0 <= hour <= 23 /\ 0 <= minute <= 59
    /\ add_job known_zone jobs tid time tz
       = <[ job_id tid time := mkJob tid hour minute tz ]> jobs.
Proof.
  intros Hv Hz. destruct (parse_time_valid time Hv) as (hour & minute & Hp & Hc).
  exists hour, minute. split; [exact Hp|].
  unfold cron_fields_ok in Hc. apply andb_prop in Hc. destruct Hc as [Hc H4].
  apply andb_prop in Hc. destruct Hc as [Hc H3]. apply andb_prop in Hc. destruct Hc as [H1 H2].
  apply Z.leb_le in H1, H2, H3, H4. repeat split; try assumption.
  apply map_eq. intros k. rewrite add_job_lookup, Hp, Hz. cbn [negb].
  unfold cron_fields_ok.
  rewrite (proj2 (Z.leb_le _ _) H1), (proj2 (Z.leb_le _ _) H2),
    (proj2 (Z.leb_le _ _) H3), (proj2 (Z.leb_le _ _) H4). cbn [andb].
  destruct (decide (k = job_id tid time)) as [->|Hne].
  - rewrite lookup_insert_eq. reflexivity.
  - rewrite lookup_insert_ne by congruence. reflexivity.
Qed.

(** X11. [add_job] touches one key: the jobs of every other (chat, time) pair
    are as before, on every input; and registering the same (chat, time,
    zone) again changes nothing, so a re-registration never doubles a
    timer. *)
Theorem add_job_touches_one_key (jobs : gmap string Job) (tid : Z) (time tz : string) :
  (forall tid' time',
      tid' <> tid \/ time' <> time ->
      add_job known_zone jobs tid time tz !! job_id tid' time' = jobs !! job_id tid' time')
  /\ add_job known_zone (add_job known_zone jobs tid time tz) tid time tz
     = add_job known_zone jobs tid time tz.
Proof.
  split.
  - intros tid' time' Hne. rewrite add_job_lookup.
    destruct (parse_time time) as [[hour minute]|]; [|reflexivity].
    destruct (negb (known_zone tz)); [reflexivity|].
    destruct (decide (job_id tid' time' = job_id tid time)) as [He|_]; [|reflexivity].
    apply job_id_inj in He. destruct He as [-> ->]. destruct Hne; contradiction.
  - apply map_eq. intros k. rewrite !add_job_lookup.
    destruct (parse_time time) as [[hour minute]|]; [|reflexivity].
    destruct (negb (known_zone tz)); [reflexivity|].
    destruct (decide (k = job_id tid time)); reflexivity.
Qed.

(** X12. [remove_job] leaves no job under the key of its (chat, time) and
    touches no other pair's key; on a table without that key it changes
    nothing, and after [add_job] of the same pair it gives the table with
    the key deleted. *)
Theorem remove_job_unregisters (jobs : gmap string Job) (tid : Z) (time tz : string) :
  remove_job jobs tid time !! job_id tid time = None
  /\ (forall tid' time',
        tid' <> tid \/ time' <> time ->
        remove_job jobs tid time !! job_id tid' time' = jobs !! job_id tid' time')
  /\ (jobs !! job_id tid time = None -> remove_job jobs tid time = jobs)
  /\ remove_job (add_job known_zone jobs tid time tz) tid time
     = delete (job_id tid time) jobs.
Proof.
  unfold remove_job. rewrite !delete_absent_job. repeat split.
  - apply lookup_delete_eq.
  - intros tid' time' Hne. apply lookup_delete_ne. intros He.
    apply job_id_inj in He. destruct He as [-> ->]. destruct Hne; contradiction.
  - intros Hn. apply delete_id, Hn.
  - apply map_eq. intros k. destruct (decide (k = job_id tid time)) as [->|Hne].
    + rewrite !lookup_delete_eq. reflexivity.
    + rewrite !lookup_delete_ne by congruence. rewrite add_job_lookup.
      destruct (parse_time time) as [[hour minute]|]; [|reflexivity].
      destruct (negb (known_zone tz)); [reflexivity|].
      destruct (decide (k = job_id tid time)); [contradiction|reflexivity].
Qed.

Lemma foldl_invariant {A B} (Q : A -> Prop) (f : A -> B -> A) (l : list B) :
  (forall acc x, In x l -> Q acc -> Q (f acc x)) ->
  forall acc, Q acc -> Q (foldl f acc l).
Proof.
  induction l as [|x l IH]; intros Hf acc Hacc; simpl; [exact Hacc|].
  apply IH.
  - intros acc' y Hy. apply Hf. right. exact Hy.
  - apply Hf; [left; reflexivity|exact Hacc].
Qed.

(** X13. The jobs loaded at start-up: every job that [load_all_schedules]
    adds to a table stems from an enabled schedule row of an active user,
    under the key of that chat and time, with the user's zone (one pytz
    knows) and the hour and minute the time string parses to.  So inactive
    users and disabled schedules get no timer. *)
Theorem load_all_schedules_sound (db : DB) (jobs : gmap string Job) (k : string) (j : Job) :
  load_all_schedules known_zone db jobs !! k = Some j ->
  jobs !! k = Some j
  \/ exists user s,
       In user (users db) /\ User.is_active user = true
       /\ In s (schedules db) /\ Schedule.user_id s = User.id user
       /\ Schedule.is_enabled s = true
       /\ k = job_id (User.telegram_id user) (Schedule.time s)
       /\ known_zone (User.timezone user) = true
       /\ parse_time (Schedule.time s) = Some (job_hour j, job_minute j)
       /\ job_chat j = User.telegram_id user
       /\ job_timezone j = User.timezone user.
Proof.
  revert k j. unfold load_all_schedules.
  apply (foldl_invariant
           (fun acc => forall k j, acc !! k = Some j ->
              jobs !! k = Some j
              \/ exists user s,
                   In user (users db) /\ User.is_active user = true
                   /\ In s (schedules db) /\ Schedule.user_id s = User.id user
                   /\ Schedule.is_enabled s = true
                   /\ k = job_id (User.telegram_id user) (Schedule.time s)
                   /\ known_zone (User.timezone user) = true
                   /\ parse_time (Schedule.time s) = Some (job_hour j, job_minute j)
                   /\ job_chat j = User.telegram_id user
                   /\ job_timezone j = User.timezone user));
    [|intros k j H; left; exact H].
  intros acc user Huser Hacc.
  apply list_elem_of_In, list_elem_of_filter in Huser. destruct Huser as [Hactive Huser].
  apply foldl_invariant; [|exact Hacc].
  intros acc' s Hs Hacc' k j. unfold schedules_of in Hs.
  apply list_elem_of_In, list_elem_of_filter in Hs. destruct Hs as [Hown Hs].
  destruct (Schedule.is_enabled s) eqn:Hen; [|apply Hacc'].
  rewrite add_job_lookup.
  destruct (parse_time (Schedule.time s)) as [[hour minute]|] eqn:Hp; [|apply Hacc'].
  destruct (known_zone (User.timezone user)) eqn:Hz; cbn [negb]; [|apply Hacc'].
  destruct (decide (k = job_id (User.telegram_id user) (Schedule.time s))) as [->|_];
    [|apply Hacc'].
  destruct (cron_fields_ok hour minute); [|discriminate].
  intros [= <-]. right. exists user, s. simpl.
  repeat split; try assumption; try reflexivity; apply list_elem_of_In; assumption.
Qed.

End Zones.

(** X14. The timer keys are collision-free: two (chat, time) pairs have the
    same job id only when they are the same pair. *)
Theorem job_id_collision_free (tid tid' : Z) (time time' : string) :
  job_id tid time = job_id tid' time' <-> tid = tid' /\ time = time'.
Proof.
  split; [apply job_id_inj|]. intros [-> ->]. reflexivity.
Qed.

Lemma add_job_registers_valid_time_witness :
  exists hour minute,
    parse_time "09:30" = Some (hour, minute)
    /\ 0 <= hour <= 23 /\ 0 <= minute <= 59
    /\ add_job sample_zones ∅ 42 "09:30" "Europe/London"
       = <[ job_id 42 "09:30" := mkJob 42 hour minute "Europe/London" ]> ∅.
Proof.
  exact (add_job_registers_valid_time sample_zones ∅ 42 "09:30" "Europe/London"
           eq_refl eq_refl).
Defined.

Lemma add_job_touches_one_key_witness :
  add_job sample_zones ∅ 42 "09:30" "UTC" !! job_id 42 "20:00" = (∅ : gmap string Job) !! job_id 42 "20:00".
Proof.
  refine (proj1 (add_job_touches_one_key sample_zones ∅ 42 "09:30" "UTC") 42 "20:00" _).
  right. discriminate.
Defined.

Lemma remove_job_unregisters_witness :
  remove_job (∅ : gmap string Job) 42 "09:30" = ∅.
Proof.
  exact (proj1 (proj2 (proj2 (remove_job_unregisters sample_zones ∅ 42 "09:30" "UTC")))
           eq_refl).
Defined.

Lemma load_all_schedules_sound_witness :
  (∅ : gmap string Job) !! "journal_42_09:00" = Some (mkJob 42 9 0 "UTC")
  \/ exists user s,
       In user (users with_user_data) /\ User.is_active user = true
       /\ In s (schedules with_user_data) /\ Schedule.user_id s = User.id user
       /\ Schedule.is_enabled s = true
       /\ "journal_42_09:00" = job_id (User.telegram_id user) (Schedule.time s)
       /\ sample_zones (User.timezone user) = true
       /\ parse_time (Schedule.time s) = Some (job_hour (mkJob 42 9 0 "UTC"),
                                               job_minute (mkJob 42 9 0 "UTC"))
       /\ job_chat (mkJob 42 9 0 "UTC") = User.telegram_id user
       /\ job_timezone (mkJob 42 9 0 "UTC") = User.timezone user.
Proof.
  apply (load_all_schedules_sound sample_zones with_user_data ∅).
  vm_compute. reflexivity.
Defined.

Lemma job_id_collision_free_witness : job_id 42 "09:00" = job_id 42 "09:00".
Proof. exact (proj2 (job_id_collision_free 42 42 "09:00" "09:00") (conj eq_refl eq_refl)). Defined.

End Timer.

(** ** Removing and presetting schedules *)

Section Presets.
Import Bot Scheduler.

Lemma filter_delete_first (uid : Z) (q : Schedule.t -> bool) (l : list Schedule.t) :
  filter (fun s => Schedule.user_id s = uid)
         (delete_first (fun s => (Schedule.user_id s =? uid) && q s) l)
  = delete_first q (filter (fun s => Schedule.user_id s = uid) l).
Proof.
  induction l as [|x l IH]; [reflexivity|]. cbn [delete_first].
  rewrite (filter_cons _ x l).
  destruct (Z.eqb_spec (Schedule.user_id x) uid) as [He|Hne]; cbn [andb].
  - destruct (decide (Schedule.user_id x = uid)); [|contradiction]. cbn [delete_first].
    destruct (q x); [reflexivity|].
    rewrite filter_cons. destruct (decide (Schedule.user_id x = uid)); [|contradiction].
    f_equal. exact IH.
  - destruct (decide (Schedule.user_id x = uid)); [contradiction|].
    rewrite filter_cons. destruct (decide (Schedule.user_id x = uid)); [contradiction|].
    exact IH.
Qed.

Lemma filter_delete_first_other (uid uid' : Z) (q : Schedule.t -> bool) (l : list Schedule.t) :
  uid' <> uid ->
  filter (fun s => Schedule.user_id s = uid')
         (delete_first (fun s => (Schedule.user_id s =? uid) && q s) l)
  = filter (fun s => Schedule.user_id s = uid') l.
Proof.
  intros Hne. induction l as [|x l IH]; [reflexivity|]. cbn [delete_first].
  destruct (Z.eqb_spec (Schedule.user_id x) uid) as [He|Hx]; cbn [andb].
  - destruct (q x).
    + rewrite filter_cons. destruct (decide (Schedule.user_id x = uid')); [congruence|reflexivity].
    + rewrite !filter_cons. destruct (decide (Schedule.user_id x = uid')); [congruence|exact IH].
  - rewrite !filter_cons. destruct (decide (Schedule.user_id x = uid')); [f_equal|]; exact IH.
Qed.

(** X15. [remove_user_schedule] for a known user: without a time, and also
    with the empty string as time, it deletes every schedule row of the user;
    with a non-empty time it deletes the first row of the user with that
    time and no other (nothing when the user has no such row).  The rows of
    the other users are as before, and for an unknown chat nothing is
    committed. *)
Theorem remove_user_schedule_removes (db : DB) (tid : Z) (time : option string) :
  (find_user db tid = None ->
   run (remove_user_schedule tid time) db = (mkStore db [], Ok tt))
  /\ (forall user, find_user db tid = Some user ->
        let db' := db_after (remove_user_schedule tid time) db in
        (time = None \/ time = Some "" -> schedules_of db' (User.id user) = [])
        /\ (forall t, time = Some t -> t <> "" ->
              schedules_of db' (User.id user)
              = delete_first (fun s => String.eqb (Schedule.time s) t)
                             (schedules_of db (User.id user)))
        /\ (forall uid, uid <> User.id user -> schedules_of db' uid = schedules_of db uid)
        /\ users db' = users db /\ responses db' = responses db
        /\ conversation_states db' = conversation_states db).
Proof.
  split.
  - intros Hu. unfold run, remove_user_schedule, bind, read. simpl. rewrite Hu. reflexivity.
  - intros user Hu db'. subst db'.
    unfold db_after, run, remove_user_schedule, bind, read, commit. simpl. rewrite Hu.
    repeat split.
    + intros [->| ->]; simpl; apply filter_other_then_own.
    + intros t -> Ht. simpl. destruct (String.eqb_spec t "") as [|_]; [contradiction|].
      simpl. apply filter_delete_first.
    + intros uid Hne. destruct (truthy time); simpl.
      * apply filter_delete_first_other, Hne.
      * apply filter_other_then_other, Hne.
    + destruct (truthy time); reflexivity.
    + destruct (truthy time); reflexivity.
    + destruct (truthy time); reflexivity.
Qed.

Lemma remove_user_schedule_removes_witness :
  schedules_of (db_after (remove_user_schedule 42 (Some "")) with_user_data) 1 = [].
Proof.
  refine (proj1 (proj2 (remove_user_schedule_removes with_user_data 42 (Some "")) 
                   (User.mk 1 42 (Some "ann") "UTC" true) eq_refl) _).
  right. reflexivity.
Defined.

(** X16. A preset schedule button ("schedule_" followed by a time without
    underscore or white space, other than "view" and "custom"): for a known user the whole schedule set becomes that one
    time, enabled, and a following "schedule_view" shows exactly it; for an
    unknown chat nothing is stored although the reply is the same
    confirmation. *)
Theorem schedule_button_replaces_schedule (db : DB) (tid : Z) (time : string) :
  plain time = true ->
  let press := handle_schedule_callback tid ("schedule_" +:+ time) in
  time <> "view" -> time <> "custom" ->
  result_of press db = Ok (ScheduleSet time)
  /\ (find_user db tid = None -> run press db = (mkStore db [], Ok (ScheduleSet time)))
  /\ (forall user, find_user db tid = Some user ->
        result_of (get_user_schedules tid) (db_after press db) = Ok [(time, true)]
        /\ result_of (handle_schedule_callback tid "schedule_view") (db_after press db)
           = Ok (ScheduleView [time])).
Proof.
  intros Hplain press Hv Hc.
  assert (Hrun : run press db
                 = let (s, r) := run (add_user_schedule tid [time] None) db in
                   (s, match r with Ok _ => Ok (ScheduleSet time) | Raise e => Raise e end)).
  { subst press. unfold run, handle_schedule_callback.
    destruct (String.eqb_spec ("schedule_" +:+ time) "schedule_view") as [He|_];
      [injection He as He; contradiction|].
    destruct (String.eqb_spec ("schedule_" +:+ time) "schedule_custom") as [He|_];
      [injection He as He; contradiction|].
    change ("schedule_" +:+ time) with ("schedule" +:+ String "_" time).
    rewrite split_app_sep, (split_plain time Hplain). simpl.
    unfold bind, ret. simpl.
    destruct (add_user_schedule _ _ _ _) as [s [[]|e]]; reflexivity. }
  split; [|split].
  - unfold result_of. rewrite Hrun. unfold run, add_user_schedule, bind, read, commit. simpl.
    destruct (find_user db tid); reflexivity.
  - intros Hu. rewrite Hrun. unfold run, add_user_schedule, bind, read. simpl.
    rewrite Hu. reflexivity.
  - intros user Hu.
    assert (Hdb : db_after press db = db_after (add_user_schedule tid [time] None) db).
    { unfold db_after. rewrite Hrun. destruct (run (add_user_schedule _ _ _) db). reflexivity. }
    rewrite Hdb.
    destruct (find_user_after_add db tid [time] None user Hu) as (u' & Hu' & Hid).
    pose proof (proj1 (schedules_after_add db tid [time] None user Hu)) as Hs.
    split.
    + unfold result_of. rewrite (get_user_schedules_after_add db tid [time] None user Hu).
      reflexivity.
    + unfold result_of, run, handle_schedule_callback, bind, read. simpl.
      rewrite Hu', Hid. cbn zeta in Hs. rewrite Hs. reflexivity.
Qed.

Lemma schedule_button_replaces_schedule_witness :
  result_of (handle_schedule_callback 42 "schedule_view")
            (db_after (handle_schedule_callback 42 "schedule_20:00") with_user_data)
  = Ok (ScheduleView ["20:00"]).
Proof.
  refine (proj2 (proj2 (proj2 (schedule_button_replaces_schedule with_user_data 42 "20:00"
                                 eq_refl _ _))
                   (User.mk 1 42 (Some "ann") "UTC" true) eq_refl)); discriminate.
Defined.

End Presets.

(** ** Settings, dispatch and the state row *)

Section Settings.
Import Bot.

Lemma find_user_update_own (p : User.t -> bool) (f : User.t -> User.t) (tid : Z)
    (l : list User.t) (user : User.t) :
  (forall x, User.telegram_id (f x) = User.telegram_id x) ->
  (forall x, In x l -> p x = true -> User.id x = User.id user) ->
  p user = true ->
  NoDup (map User.id l) ->
  find (fun u => User.telegram_id u =? tid) l = Some user ->
  find (fun u => User.telegram_id u =? tid) (update_first p f l) = Some (f user).
Proof.
  intros Hf Hp Hpu. induction l as [|y l IH]; simpl; [discriminate|].
  intros Hnd Hfind. apply NoDup_cons in Hnd. destruct Hnd as [Hy Hnd].
  destruct (User.telegram_id y =? tid) eqn:Ht.
  - injection Hfind as ->. rewrite Hpu. simpl. rewrite Hf, Ht. reflexivity.
  - destruct (p y) eqn:Hpy.
    + exfalso. apply Hy. rewrite (Hp y (or_introl eq_refl) Hpy).
      apply find_some in Hfind. apply list_elem_of_In, in_map, Hfind.
    + simpl. rewrite Ht. apply IH; [|exact Hnd|exact Hfind].
      intros x Hx. apply Hp. right. exact Hx.
Qed.

Lemma update_first_twice {A} (p : A -> bool) (f : A -> A) (l : list A) :
  (forall x, p (f x) = p x) -> (forall x, f (f x) = x) ->
  update_first p f (update_first p f l) = l.
Proof.
  intros Hp Hf. induction l as [|x l IH]; simpl; [reflexivity|].
  destruct (p x) eqn:E; simpl.
  - rewrite Hp, E, Hf. reflexivity.
  - rewrite E, IH. reflexivity.
Qed.

(** X17. The notification toggle of a known user (user ids unique) flips the
    stored [is_active] flag of that user's row in one commit and reports the
    new status; pressed twice it restores the store; while the flag is off
    /journal answers that the account is inactive and starts no session.
    For an unknown chat nothing is committed and nothing is replied. *)
Theorem settings_toggle_flips (db : DB) (tid : Z) :
  (find_user db tid = None ->
   run (handle_settings_callback tid "settings_toggle") db = (mkStore db [], Ok NoReply))
  /\ (forall user, find_user db tid = Some user ->
        NoDup (map User.id (users db)) ->
        let toggle := handle_settings_callback tid "settings_toggle" in
        let db' := db_after toggle db in
        run toggle db = (mkStore db' [db'], Ok (NotificationsToggled (negb (User.is_active user))))
        /\ find_user db' tid
           = Some (User.mk (User.id user) (User.telegram_id user) (User.username user)
                           (User.timezone user) (negb (User.is_active user)))
        /\ db_after toggle db' = db
        /\ (User.is_active user = true ->
            forall username uuid,
              run (journal_command tid username uuid) db' = (mkStore db' [], Ok AccountInactive))).
Proof.
  split.
  - intros Hu. unfold run, handle_settings_callback, bind, read. simpl. rewrite Hu. reflexivity.
  - intros user Hu Hnd toggle db'.
    assert (Hrun : run toggle db
                   = (mkStore (toggle_active (User.id user) db) [toggle_active (User.id user) db],
                      Ok (NotificationsToggled (negb (User.is_active user))))).
    { subst toggle. unfold run, handle_settings_callback, bind, read, commit. simpl.
      rewrite Hu. reflexivity. }
    assert (Hdb' : db' = toggle_active (User.id user) db)
      by (subst db'; unfold db_after; rewrite Hrun; reflexivity).
    assert (Hu' : find_user db' tid
                  = Some (User.mk (User.id user) (User.telegram_id user) (User.username user)
                                  (User.timezone user) (negb (User.is_active user)))).
    { rewrite Hdb'. unfold find_user, toggle_active, with_users. simpl.
      apply (find_user_update_own
               (fun u => User.id u =? User.id user)
               (fun u => User.mk (User.id u) (User.telegram_id u) (User.username u)
                                 (User.timezone u) (negb (User.is_active u)))
               tid (users db) user); try assumption.
      - reflexivity.
      - intros x _ Hx. apply Z.eqb_eq, Hx.
      - apply Z.eqb_refl. }
    split; [rewrite Hrun, Hdb'; reflexivity|]. split; [exact Hu'|]. split.
    + subst toggle. unfold db_after, run, handle_settings_callback, bind, read, commit. simpl.
      rewrite Hu'. simpl. rewrite Hdb'. unfold toggle_active, with_users. simpl.
      rewrite update_first_twice.
      * destruct db; reflexivity.
      * reflexivity.
      * intros [i t u z a]. simpl. rewrite negb_involutive. reflexivity.
    + intros Ha username uuid.
      rewrite (journal_command_known_user db' tid username uuid _ Hu'). simpl.
      rewrite Ha. reflexivity.
Qed.

Lemma settings_toggle_flips_witness :
  run (handle_settings_callback 42 "settings_toggle") registered
  = (let db' := db_after (handle_settings_callback 42 "settings_toggle") registered in
     (mkStore db' [db'], Ok (NotificationsToggled false))).
Proof.
  refine (proj1 (proj2 (settings_toggle_flips registered 42)
                   (User.mk 1 42 (Some "ann") "UTC" true) eq_refl _)).
  simpl. apply NoDup_singleton.
Defined.

(** X18. The dispatcher answers only the prefixes "answer_", "skip_",
    "schedule_" and "settings_": on any other callback data it commits
    nothing and replies nothing.  The two buttons of the erasure
    confirmation carry such data, so pressing either changes nothing: the
    erasure cannot be reached through the dispatcher. *)
Theorem button_callback_ignores_other_data (db : DB) (tid now : Z) :
  (forall cb,
      Py.startswith cb "answer_" = false -> Py.startswith cb "skip_" = false ->
      Py.startswith cb "schedule_" = false -> Py.startswith cb "settings_" = false ->
      run (button_callback tid cb now) db = (mkStore db [], Ok NoReply))
  /\ (forall b, In b (concat confirm_keyboard) ->
        run (button_callback tid (callback_data b) now) db = (mkStore db [], Ok NoReply)).
Proof.
  assert (H : forall cb,
      Py.startswith cb "answer_" = false -> Py.startswith cb "skip_" = false ->
      Py.startswith cb "schedule_" = false -> Py.startswith cb "settings_" = false ->
      run (button_callback tid cb now) db = (mkStore db [], Ok NoReply)).
  { intros cb H1 H2 H3 H4. unfold run, button_callback. rewrite H1, H2, H3, H4. reflexivity. }
  split; [exact H|].
  intros b [<-|[<-|[]]]; apply H; reflexivity.
Qed.

Lemma button_callback_ignores_other_data_witness :
  run (button_callback 42 "confirm_clear_yes" 7) with_user_data
  = (mkStore with_user_data [], Ok NoReply).
Proof.
  refine (proj2 (button_callback_ignores_other_data with_user_data 42 7)
            (mkButton "Yes, delete everything" "confirm_clear_yes") _).
  left. reflexivity.
Defined.

(** X19. [update_conversation_state] is an upsert that cannot clear a field:
    afterwards the chat has its state row, in which every field given as
    argument holds the argument and every field passed as None holds what was
    stored before (null for a new row); the rows of the other chats are as
    before. *)
Theorem update_conversation_state_upserts (db : DB) (tid : Z) (question_id : option Z)
    (session_id state : option string) :
  let stored := find_state db tid in
  let db' := db_after (update_conversation_state tid question_id session_id state) db in
  find_state db' tid
  = Some (ConversationState.mk tid
            (match question_id with
             | Some q => Some q
             | None => stored ≫= ConversationState.current_question_id
             end)
            (match session_id with
             | Some sid => Some sid
             | None => stored ≫= ConversationState.session_id
             end)
            (match state with
             | Some st => Some st
             | None => stored ≫= ConversationState.state
             end))
  /\ (forall tid', tid' <> tid -> find_state db' tid' = find_state db tid')
  /\ users db' = users db /\ schedules db' = schedules db
  /\ questions db' = questions db /\ responses db' = responses db.
Proof.
  intros stored db'. subst db'.
  unfold db_after, run, update_conversation_state, bind, read, commit. simpl.
  assert (Hkey : ConversationState.telegram_id
                   (match find_state db tid with
                    | Some c => c
                    | None => ConversationState.mk tid None None None
                    end) = tid).
  { destruct (find_state db tid) as [c|] eqn:E; [apply (find_state_key db tid c E)|reflexivity]. }
  repeat split; try apply put_state_tables.
  - rewrite find_state_put_state_any. simpl. rewrite Hkey, Z.eqb_refl. subst stored.
    destruct (find_state db tid) as [c|]; destruct question_id, session_id, state; reflexivity.
  - intros tid' Hne. rewrite find_state_put_state_any. simpl. rewrite Hkey.
    destruct (Z.eqb_spec tid tid'); [congruence|reflexivity].
Qed.

End Settings.

(** ** More on answers and erasure *)

Section Answers.
Import Bot.

Lemma update_conversation_state_upserts_witness :
  find_state (db_after (update_conversation_state 42 None None (Some "settings")) started2) 42
  = Some (ConversationState.mk 42 (Some 1) (Some "session-1") (Some "settings")).
Proof.
  exact (proj1 (update_conversation_state_upserts started2 42 None None (Some "settings"))).
Defined.

Lemma filter_keeps_other {A} (key : A -> Z) (uid uid' : Z) (l : list A) :
  uid' <> uid ->
  filter (fun x => key x = uid') (filter (fun x => key x <> uid) l)
  = filter (fun x => key x = uid') l.
Proof.
  intros Hne. induction l as [|x l IH]; [reflexivity|].
  rewrite (filter_cons (fun x => key x <> uid)), (filter_cons (fun x => key x = uid') x l).
  destruct (decide (key x <> uid)) as [Hx|Hx].
  - rewrite filter_cons. destruct (decide (key x = uid')); [f_equal|]; exact IH.
  - destruct (decide (key x = uid')) as [He|_]; [|exact IH]. exfalso. apply Hx. congruence.
Qed.

(** X20. The confirmed erasure of a known user (chat ids unique) is one
    commit that removes the user's row, schedules and responses and nothing
    else: the rows of every other user, the questions and the conversation
    states are as before; afterwards the chat has no user row, and a second
    confirmation commits nothing and raises nothing. *)
Theorem erase_removes_only_the_user (db : DB) (tid : Z) (user : User.t) :
  find_user db tid = Some user ->
  NoDup (map User.telegram_id (users db)) ->
  let erase := handle_settings_callback tid "confirm_clear_yes" in
  let db' := db_after erase db in
  run erase db = (mkStore db' [db'], Ok DataCleared)
  /\ find_user db' tid = None
  /\ schedules_of db' (User.id user) = [] /\ responses_of db' (User.id user) = []
  /\ (forall uid, uid <> User.id user ->
        schedules_of db' uid = schedules_of db uid
        /\ responses_of db' uid = responses_of db uid)
  /\ (forall u, In u (users db) -> User.id u <> User.id user -> In u (users db'))
  /\ questions db' = questions db
  /\ conversation_states db' = conversation_states db
  /\ run erase db' = (mkStore db' [], Ok DataCleared).
Proof.
  intros Hu Hnd erase db'.
  assert (Hdb : db' = delete_user (User.id user) db)
    by (subst db' erase; unfold db_after; rewrite (confirm_clear_run db tid user Hu); reflexivity).
  assert (Hnone : find_user db' tid = None)
    by (rewrite Hdb; apply find_user_deleted; assumption).
  split; [subst erase; rewrite (confirm_clear_run db tid user Hu), Hdb; reflexivity|].
  split; [exact Hnone|]. rewrite Hdb. repeat split.
  - apply (filter_out_all Schedule.user_id).
  - apply (filter_out_all Response.user_id).
  - apply (filter_keeps_other Schedule.user_id). assumption.
  - apply (filter_keeps_other Response.user_id). assumption.
  - intros u Hin Hne. simpl. apply list_elem_of_In, list_elem_of_filter.
    split; [exact Hne|apply list_elem_of_In, Hin].
  - rewrite <- Hdb. apply confirm_clear_absent, Hnone.
Qed.

Lemma erase_removes_only_the_user_witness :
  find_user (db_after (handle_settings_callback 42 "confirm_clear_yes") with_user_data) 42
  = None.
Proof.
  refine (proj1 (proj2 (erase_removes_only_the_user with_user_data 42
                          (User.mk 1 42 (Some "ann") "UTC" true) eq_refl _))).
  simpl. apply NoDup_singleton.
Defined.

(** X21. The callback data of every button of a question's keyboard parses
    back to the id of that question: an option button to its own text as
    answer, the generic buttons to "yes" and "no", the Skip button to the
    skip sentinel. *)
Theorem keyboard_callbacks_round_trip (question : Question.t) (b : Button) :
  In b (concat (get_question_options question)) ->
  exists answer,
    parse_callback (callback_data b) = Ok (Question.id question, answer)
    /\ (answer = text b
        \/ (b = mkButton "Yes ✅" ("answer_yes_" +:+ Py.str (Question.id question))
            /\ answer = "yes")
        \/ (b = mkButton "No ❌" ("answer_no_" +:+ Py.str (Question.id question))
            /\ answer = "no")
        \/ (b = mkButton "Skip ⏭️" ("skip_" +:+ Py.str (Question.id question))
            /\ answer = "skipped")).
Proof.
  unfold get_question_options. rewrite concat_app. intros Hb.
  apply in_app_or in Hb. destruct Hb as [Hb|Hb].
  - destruct (_ ≫= _) as [options|].
    + apply option_rows_buttons in Hb. destruct Hb as [[]|(o & _ & ->)].
      exists o. split; [apply parse_callback_round_trip|left; reflexivity].
    + simpl in Hb. destruct Hb as [<-|[<-|[]]].
      * exists "yes". split; [apply (parse_callback_round_trip (Question.id question) "yes")|].
        right. left. split; reflexivity.
      * exists "no". split; [apply (parse_callback_round_trip (Question.id question) "no")|].
        right. right. left. split; reflexivity.
  - simpl in Hb. destruct Hb as [<-|[]].
    exists "skipped". split; [apply (parse_callback_round_trip (Question.id question) "")|].
    right. right. right. split; reflexivity.
Qed.

Lemma keyboard_callbacks_round_trip_witness :
  exists answer,
    parse_callback "answer_Not great 😔_1" = Ok (1, answer)
    /\ (answer = "Not great 😔"
        \/ (mkButton "Not great 😔" "answer_Not great 😔_1" = mkButton "Yes ✅" "answer_yes_1"
            /\ answer = "yes")
        \/ (mkButton "Not great 😔" "answer_Not great 😔_1" = mkButton "No ❌" "answer_no_1"
            /\ answer = "no")
        \/ (mkButton "Not great 😔" "answer_Not great 😔_1" = mkButton "Skip ⏭️" "skip_1"
            /\ answer = "skipped")).
Proof.
  apply (keyboard_callbacks_round_trip q_mood (mkButton "Not great 😔" "answer_Not great 😔_1")).
  vm_compute. right. right. right. left. reflexivity.
Defined.

Lemma filter_length_lt {A} (P Q : A -> Prop) `{forall x, Decision (P x)}
    `{forall x, Decision (Q x)} (l : list A) (x0 : A) :
  (forall x, P x -> Q x) -> In x0 l -> Q x0 -> ~ P x0 ->
  (length (filter P l) < length (filter Q l))%nat.
Proof.
  intros HPQ Hin HQ HnP.
  assert (Hle : forall l', (length (filter P l') <= length (filter Q l'))%nat).
  { induction l' as [|y l' IH]; [reflexivity|]. rewrite !filter_cons.
    destruct (decide (P y)) as [Hp|Hp]; destruct (decide (Q y)) as [Hq|Hq]; simpl; try lia.
    exfalso. apply Hq, HPQ, Hp. }
  induction l as [|y l IH]; [contradiction|]. rewrite !filter_cons.
  destruct Hin as [->|Hin].
  - destruct (decide (P x0)); [contradiction|]. destruct (decide (Q x0)); [|contradiction].
    simpl. specialize (Hle l). lia.
  - specialize (IH Hin).
    destruct (decide (P y)) as [Hp|Hp]; destruct (decide (Q y)) as [Hq|Hq]; simpl; try lia.
    exfalso. apply Hq, HPQ, Hp.
Qed.

(** X22. A session moves forward only: when an answer is accepted and a
    question follows, that question is active, of strictly greater order
    than the answered one, it becomes the stored current question, and
    strictly fewer active questions lie above it than above the answered
    one; when none follows the session is complete.  So no question comes
    twice, and a session ends after at most as many answers as there are
    active questions. *)
Theorem session_moves_forward (db : DB) (tid : Z) (cb : string) (now q : Z) (a : string)
    (conv : ConversationState.t) (cq : Question.t) (user : User.t) :
  parse_callback cb = Ok (q, a) ->
  find_state db tid = Some conv ->
  ConversationState.state conv = Some "journaling" ->
  find_question db q = Some cq ->
  find_user db tid = Some user ->
  let h := handle_answer_callback tid cb now in
  let above (x : Question.t) :=
    length (filter (fun y => Question.is_active y = true
                             /\ Question.order x < Question.order y)
                   (questions (db_after h db))) in
  match next_after db cq with
  | Some nq =>
      result_of h db = Ok (AskQuestion nq (get_question_options nq))
      /\ (find_state (db_after h db) tid ≫= ConversationState.current_question_id)
         = Some (Question.id nq)
      /\ Question.is_active nq = true
      /\ Question.order cq < Question.order nq
      /\ (above nq < above cq)%nat
  | None =>
      result_of h db = Ok SessionComplete
      /\ (find_state (db_after h db) tid ≫= ConversationState.state) = None
      /\ above cq = 0%nat
  end.
Proof.
  intros Hp Hst Hj Hq Hu h above.
  assert (Hqs : questions (db_after h db) = questions db).
  { subst h. unfold db_after.
    rewrite (handle_answer_callback_accepted db tid cb now q a conv cq user Hp Hst Hj Hq Hu).
    destruct (String.eqb a "skipped"); cbn [fst persisted];
      match goal with
      | |- questions (put_state ?c ?d) = _ =>
          destruct (put_state_tables c d) as (_ & _ & -> & _)
      end; reflexivity. }
  assert (Hstate : find_state (db_after h db) tid = Some (advance conv (next_after db cq))).
  { subst h. unfold db_after.
    rewrite (handle_answer_callback_accepted db tid cb now q a conv cq user Hp Hst Hj Hq Hu).
    destruct (String.eqb a "skipped"); cbn [fst persisted]; apply find_state_put_advance;
      exact Hst. }
  assert (Hres : result_of h db = Ok (reply_after (next_after db cq))).
  { subst h. unfold result_of.
    rewrite (handle_answer_callback_accepted db tid cb now q a conv cq user Hp Hst Hj Hq Hu).
    destruct (String.eqb a "skipped"); reflexivity. }
  pose proof (next_after_least db cq) as Hn. subst above. rewrite Hqs, Hstate, Hres.
  destruct (next_after db cq) as [nq|] eqn:E.
  - destruct Hn as (Hin & Ha & Ho & _). repeat split; try assumption.
    apply (filter_length_lt _ _ (questions db) nq); [|exact Hin|split; assumption|].
    + intros x [H1 H2]. split; [exact H1|lia].
    + intros [_ H2]. lia.
  - repeat split. unfold next_after in E.
    pose proof (first_by_order_least
                  (filter (fun y => Question.is_active y = true
                                    /\ Question.order cq < Question.order y)
                          (questions db))) as Hf.
    rewrite E in Hf. rewrite Hf. reflexivity.
Qed.

Lemma session_moves_forward_witness :
  result_of (handle_answer_callback 42 "answer_yes_1" 100) started2
  = Ok (AskQuestion q_gratitude (get_question_options q_gratitude)).
Proof.
  exact (proj1 (session_moves_forward started2 42 "answer_yes_1" 100 1 "yes"
                  (ConversationState.mk 42 (Some 1) (Some "session-1") (Some "journaling"))
                  q_mood (User.mk 1 42 (Some "ann") "UTC" true)
                  eq_refl eq_refl eq_refl eq_refl eq_refl)).
Defined.





End Answers.

(** ** The weekly summary and the streak *)

Section Reports.
Import Bot Analytics.

Lemma length_remove_dups_le {A} `{EqDecision A} (l : list A) :
  (length (remove_dups l) <= length l)%nat.
Proof.
  induction l as [|x l IH]; simpl; [reflexivity|].
  destruct (decide_rel elem_of x l); simpl; lia.
Qed.

Lemma length_remove_dups_snoc {A} `{EqDecision A} (l : list A) (x : A) :
  length (remove_dups (l ++ [x]))
  = (length (remove_dups l) + if decide (x ∈ l) then 0 else 1)%nat.
Proof.
  induction l as [|y l IH]; simpl.
  - destruct (decide_rel elem_of x []) as [H|_]; [inversion H|].
    destruct (decide (x ∈ [])) as [H|_]; [inversion H|reflexivity].
  - assert (Hx : x ∈ y :: l <-> x = y \/ x ∈ l) by apply elem_of_cons.
    assert (Hy : y ∈ l ++ [x] <-> y ∈ l \/ y = x).
    { rewrite elem_of_app, list_elem_of_singleton. reflexivity. }
    destruct (decide_rel elem_of y (l ++ [x])) as [H1|H1];
      destruct (decide_rel elem_of y l) as [H2|H2];
      destruct (decide (x ∈ y :: l)) as [H3|H3];
      destruct (decide (x ∈ l)) as [H4|H4]; simpl; rewrite ?IH;
      repeat match goal with
      | |- context [decide (x ∈ l)] => destruct (decide (x ∈ l)); try contradiction
      end; try lia; exfalso.
    all: try (apply H3, Hx; right; exact H4).
    all: try (apply H1, Hy; left; exact H2).
    all: try (apply Hx in H3; destruct H3 as [ -> | ]; contradiction).
    all: try (apply Hy in H1; destruct H1 as [ | -> ]; [contradiction|]; apply H3, Hx; left; reflexivity).
    all: try (apply Hx in H3; destruct H3 as [ -> | ]; [|contradiction]; apply H1, Hy; right; reflexivity).
    all: try (apply Hy in H1; destruct H1 as [ | -> ]; contradiction).
Qed.

(** X24. The weekly summary of a user counts the user's responses of the
    last seven days and the distinct session ids among them.  The response
    count is the number of the user's rows in the window; the session count
    is the length of any duplicate-free list of exactly the session ids of
    these rows (a null session id is one of them).  So the session count
    lies between 0 and the response count and is 0 only when the response
    count is; a response of another user, or one older than seven days,
    changes nothing; a response of the user in the window adds one to the
    response count, and to the session count one when its session id is new
    among the rows in the window and nothing when it is not. *)
Theorem weekly_summary_counts (db : DB) (user_id utcnow : Z) :
  let summary := get_weekly_summary db user_id utcnow in
  let in_week (r : Response.t) :=
    Response.user_id r = user_id /\ utcnow - 7 * 86400 <= Response.responded_at r in
  let added (r : Response.t) :=
    get_weekly_summary (with_responses (fun l => l ++ [r]) db) user_id utcnow in
  total_responses summary
  = Z.of_nat (length (filter (fun r => utcnow - 7 * 86400 <= Response.responded_at r)
                             (responses_of db user_id)))
  /\ (forall ids : list (option string),
        NoDup ids ->
        (forall sid, In sid ids <->
                     exists r, In r (responses db) /\ in_week r
                               /\ Response.session_id r = sid) ->
        sessions_completed summary = Z.of_nat (length ids))
  /\ 0 <= sessions_completed summary <= total_responses summary
  /\ total_responses summary <= Z.of_nat (length (responses_of db user_id))
  /\ (sessions_completed summary = 0 <-> total_responses summary = 0)
  /\ (forall r,
        Response.user_id r <> user_id \/ Response.responded_at r < utcnow - 7 * 86400 ->
        added r = summary)
  /\ (forall r,
        in_week r ->
        total_responses (added r) = total_responses summary + 1
        /\ ((exists r0, In r0 (responses db) /\ in_week r0
                        /\ Response.session_id r0 = Response.session_id r) ->
            sessions_completed (added r) = sessions_completed summary)
        /\ ((forall r0, In r0 (responses db) -> in_week r0 ->
                        Response.session_id r0 <> Response.session_id r) ->
            sessions_completed (added r) = sessions_completed summary + 1)).
Proof.
  intros summary in_week added. subst summary added.
  unfold get_weekly_summary, responses_since. simpl.
  set (P := fun r => Response.user_id r = user_id /\ utcnow - 7 * 86400 <= Response.responded_at r).
  assert (Hin : forall sid,
             sid ∈ map Response.session_id (filter P (responses db)) <->
             exists r, In r (responses db) /\ in_week r /\ Response.session_id r = sid).
  { intros sid. rewrite list_elem_of_In, in_map_iff. split.
    - intros (r & Hs & Hr). apply list_elem_of_In, list_elem_of_filter in Hr.
      destruct Hr as [HP Hr]. exists r. rewrite <- list_elem_of_In. auto.
    - intros (r & Hr & HP & Hs). exists r. split; [exact Hs|].
      apply list_elem_of_In, list_elem_of_filter. rewrite list_elem_of_In. auto. }
  split; [|split; [|split; [|split; [|split; [|split]]]]].
  - clear Hin. f_equal. f_equal. unfold responses_of.
    induction (responses db) as [|x l IH]; [reflexivity|]. rewrite !filter_cons.
    destruct (decide (P x)) as [[Hx Hw]|Hx];
      destruct (decide (Response.user_id x = user_id)) as [Hu|Hu]; try contradiction.
    + rewrite filter_cons.
      destruct (decide (utcnow - 7 * 86400 <= Response.responded_at x)); [|contradiction].
      simpl. f_equal. exact IH.
    + rewrite filter_cons.
      destruct (decide (utcnow - 7 * 86400 <= Response.responded_at x)) as [Hw|Hw];
        [exfalso; apply Hx; split; assumption|exact IH].
    + exact IH.
  - intros ids Hnd Hids. f_equal. apply Permutation_length, NoDup_Permutation.
    + apply NoDup_remove_dups.
    + exact Hnd.
    + intros sid. rewrite elem_of_remove_dups, Hin, list_elem_of_In, Hids. reflexivity.
  - pose proof (length_remove_dups_le (map Response.session_id (filter P (responses db)))) as H.
    rewrite length_map in H. lia.
  - clear Hin. unfold responses_of. apply inj_le.
    induction (responses db) as [|x l IH]; [reflexivity|]. rewrite !filter_cons.
    destruct (decide (P x)) as [[Hx _]|Hx]; destruct (decide (Response.user_id x = user_id));
      simpl; try lia; try contradiction.
  - destruct (filter P (responses db)) as [|x l]; simpl; [split; reflexivity|].
    destruct (decide_rel elem_of (Response.session_id x) (map Response.session_id l)) as [H|H];
      simpl; split; intros H0; try lia.
    exfalso. destruct (remove_dups (map Response.session_id l)) eqn:E; [|discriminate].
    apply list_elem_of_In in H. apply list_elem_of_In, elem_of_remove_dups in H.
    rewrite E in H. inversion H.
  - intros r Hr. rewrite filter_app. rewrite (filter_cons P r []).
    destruct (decide (P r)) as [[H1 H2]|_]; [destruct Hr; [contradiction|lia]|].
    rewrite filter_nil, app_nil_r. reflexivity.
  - intros r Hr. simpl. rewrite filter_app, (filter_cons P r []).
    destruct (decide (P r)) as [_|Hn]; [|contradiction].
    rewrite filter_nil, length_app, map_app. simpl.
    rewrite length_remove_dups_snoc. split; [lia|]. split.
    + intros Hex. apply Hin in Hex. destruct (decide _); [lia|contradiction].
    + intros Hnew. destruct (decide _) as [Hd|_]; [|lia].
      apply Hin in Hd. destruct Hd as (r0 & Hr0 & Hw & Hs). destruct (Hnew r0 Hr0 Hw Hs).
Qed.

Lemma weekly_summary_counts_witness :
  sessions_completed (get_weekly_summary streak_db 1 (10 * 86400 + 3600)) = 4.
Proof.
  refine (proj1 (proj2 (weekly_summary_counts streak_db 1 (10 * 86400 + 3600)))
            [Some "a"; Some "c"; Some "z"; Some "b"] _ _).
  - apply (bool_decide_unpack _). vm_compute. reflexivity.
  - intros sid. split.
    + intros [<-|[<-|[<-|[<-|[]]]]].
      * exists (Response.mk 1 1 "yes" (8 * 86400 + 77) (Some "a")).
        split; [simpl; tauto|]. split; [split; [reflexivity|vm_compute; discriminate]|reflexivity].
      * exists (Response.mk 1 2 "no" (10 * 86400 + 5) (Some "c")).
        split; [simpl; tauto|]. split; [split; [reflexivity|vm_compute; discriminate]|reflexivity].
      * exists (Response.mk 1 1 "yes" (4 * 86400) (Some "z")).
        split; [simpl; tauto|]. split; [split; [reflexivity|vm_compute; discriminate]|reflexivity].
      * exists (Response.mk 1 1 "Great" (9 * 86400 + 86399) (Some "b")).
        split; [simpl; tauto|]. split; [split; [reflexivity|vm_compute; discriminate]|reflexivity].
    + intros (r & Hr & [Hu Hw] & <-). simpl in Hr.
      destruct Hr as [<-|[<-|[<-|[<-|[<-|[<-|[]]]]]]]; simpl; try tauto.
      discriminate Hu.
Defined.




End Reports.

(** ** The default schedule times *)

Section Defaults.

Lemma split_free (sep : ascii) (s : string) :
  free_of sep s = true -> Py.split sep s = [s].
Proof.
  induction s as [|c s IH]; simpl; [reflexivity|].
  intros H. apply andb_prop in H. destruct H as [Hc Hs]. rewrite (IH Hs).
  destruct (decide (c = sep)) as [->|_]; [|reflexivity].
  rewrite bool_decide_eq_true_2 in Hc by reflexivity. discriminate Hc.
Qed.

Lemma split_join (sep : ascii) (parts : list string) :
  parts <> [] -> Forall (fun p => free_of sep p = true) parts ->
  Py.split sep (Py.join (String sep "") parts) = parts.
Proof.
  induction parts as [|p ps IH]; [contradiction|]. intros _ Hall.
  apply Forall_cons in Hall. destruct Hall as [Hp Hps].
  destruct ps as [|q ps]; [apply split_free, Hp|].
  change (Py.join (String sep "") (p :: q :: ps))
    with (p +:+ String sep (Py.join (String sep "") (q :: ps))).
  rewrite split_app_sep, (split_free sep p Hp), IH; [reflexivity|discriminate|exact Hps].
Qed.

Lemma rstrip_idempotent (s : string) : Py.rstrip (Py.rstrip s) = Py.rstrip s.
Proof.
  induction s as [|c s IH]; [reflexivity|]. cbn [Py.rstrip].
  destruct (Py.rstrip s) as [|d r] eqn:E.
  - destruct (Py.is_space c) eqn:Ec; [reflexivity|]. simpl. rewrite Ec. reflexivity.
  - cbn [Py.rstrip]. cbn [Py.rstrip] in IH. rewrite IH. reflexivity.
Qed.

Lemma rstrip_head (c : ascii) (s : string) :
  Py.is_space c = false -> exists r, Py.rstrip (String c s) = String c r.
Proof.
  intros Hc. cbn [Py.rstrip]. destruct (Py.rstrip s) as [|d r].
  - rewrite Hc. eexists. reflexivity.
  - eexists. reflexivity.
Qed.

Lemma lstrip_head (s : string) :
  Py.lstrip s = "" \/ exists c r, Py.lstrip s = String c r /\ Py.is_space c = false.
Proof.
  induction s as [|c s IH]; [left; reflexivity|]. simpl.
  destruct (Py.is_space c) eqn:Ec; [exact IH|]. right. exists c, s. auto.
Qed.

Lemma strip_idempotent (s : string) : Py.strip (Py.strip s) = Py.strip s.
Proof.
  unfold Py.strip. destruct (lstrip_head s) as [->|(c & r & -> & Hc)]; [reflexivity|].
  destruct (rstrip_head c r Hc) as (r' & Hr). rewrite Hr.
  assert (Hl : Py.lstrip (String c r') = String c r') by (simpl; rewrite Hc; reflexivity).
  rewrite Hl, <- Hr. apply rstrip_idempotent.
Qed.

Lemma free_of_lstrip (c : ascii) (s : string) :
  free_of c s = true -> free_of c (Py.lstrip s) = true.
Proof.
  induction s as [|x s IH]; [reflexivity|]. intros H. simpl.
  destruct (Py.is_space x); [|exact H].
  simpl in H. apply andb_prop in H. apply IH, H.
Qed.

Lemma free_of_rstrip (c : ascii) (s : string) :
  free_of c s = true -> free_of c (Py.rstrip s) = true.
Proof.
  induction s as [|x s IH]; [reflexivity|]. intros H. cbn [Py.rstrip].
  simpl in H. apply andb_prop in H. destruct H as [Hx Hs]. specialize (IH Hs).
  destruct (Py.rstrip s) as [|d r].
  - destruct (Py.is_space x); [reflexivity|]. simpl. rewrite Hx. reflexivity.
  - cbn [free_of]. cbn [free_of] in IH. rewrite Hx, IH. reflexivity.
Qed.

(** X26. The default times are read back from the setting: when the setting
    joins a non-empty list of comma-free ASCII items with commas,
    [get_schedule_times] returns these items in order, each stripped of its
    surrounding white space, so that stripping an item again changes nothing
    and no item contains a comma. *)
Theorem get_schedule_times_reads_items (times : list string) :
  times <> [] ->
  Forall (fun t => free_of "," t = true /\ is_ascii t = true) times ->
  Config.get_schedule_times (Py.join "," times) = map Py.strip times
  /\ length (Config.get_schedule_times (Py.join "," times)) = length times
  /\ Forall (fun t => Py.strip t = t /\ free_of "," t = true)
            (Config.get_schedule_times (Py.join "," times)).
Proof.
  intros Hne Hall. unfold Config.get_schedule_times.
  rewrite split_join; [|exact Hne|eapply Forall_impl; [exact Hall|intros t [H _]; exact H]].
  split; [reflexivity|]. split; [apply length_map|].
  apply Forall_fmap. eapply Forall_impl; [exact Hall|]. intros t [Hf _]. simpl.
  split; [apply strip_idempotent|]. unfold Py.strip. apply free_of_rstrip, free_of_lstrip, Hf.
Qed.

Lemma get_schedule_times_reads_items_witness :
  Config.get_schedule_times (Py.join "," ["09:00"; " 20:00 "]) = ["09:00"; "20:00"].
Proof.
  refine (proj1 (get_schedule_times_reads_items ["09:00"; " 20:00 "] _ _)).
  - discriminate.
  - repeat constructor.
Defined.

End Defaults.
